(** * Screen players of asciimatics: a shallow embedding

    This development embeds [asciimatics/renderers/players.py] and checks the
    statements of the specification about it:
    - [AbstractScreenPlayer._play_content], the command dispatcher that turns
      the parser's commands into canvas writes and cursor moves;
    - [AnsiArtPlayer._render_now], the fixed-rate driver;
    - [AsciinemaPlayer.__init__] and [AsciinemaPlayer._render_now], the
      timestamp-driven driver.

    Conventions.
    - Python [int] is [Z]; a Python [float] (the virtual clock, the timestamps
      and [max_delay]) is held as the rational it denotes, and [+] and [-] on
      the clock are written exactly: rounding is outside the model.  The
      statements about the clock therefore rest only on the comparisons the
      code makes and on [+= 0.05] not turning the clock back; where a sum or
      a difference is evaluated, it is one that floats compute exactly.
    - Python [str] is [string]; [len], slicing with a possibly negative index,
      [" " * n], [split("\n")] and [rstrip("\r\n")] are written out below.
    - The player object is a record; every method takes the record and returns
      the updated one.  Exceptions are values of [result].
    - The canvas, the parser, the colour constants of [Screen], the text codec
      and [json.loads] are collaborators that live outside this module. *)

From Stdlib Require Import ZArith QArith Lqa String Ascii List Lia.
From stdpp Require Import base gmap list strings.

Set Warnings "-register-all".
Local Open Scope string_scope.
Local Open Scope Z_scope.

(** ** Python strings *)

Module PyStr.

(** [len(s)] *)
Definition len (s : string) : Z := Z.of_nat (String.length s).

Fixpoint take (n : nat) (s : string) : string :=
  match n, s with
  | O, _ => ""
  | S _, "" => ""
  | S n', String c s' => String c (take n' s')
  end.

Fixpoint drop (n : nat) (s : string) : string :=
  match n, s with
  | O, _ => s
  | S _, "" => ""
  | S n', String _ s' => drop n' s'
  end.

(** The position a slice bound [k] denotes in [s]: a negative bound counts
    from the end, and every bound is clipped to [0 .. len s]. *)
Definition slice_index (s : string) (k : Z) : nat :=
  if k <? 0 then Z.to_nat (Z.max 0 (len s + k))
  else Z.to_nat (Z.min k (len s)).

(** [s[:k]] *)
Definition slice_to (s : string) (k : Z) : string := take (slice_index s k) s.

(** [s[k:]] *)
Definition slice_from (s : string) (k : Z) : string := drop (slice_index s k) s.

Fixpoint replicate_space (n : nat) : string :=
  match n with
  | O => ""
  | S n' => String " "%char (replicate_space n')
  end.

(** [" " * n]: empty when [n <= 0]. *)
Definition spaces (n : Z) : string := replicate_space (Z.to_nat n).

Definition newline : ascii := ascii_of_nat 10.
Definition carriage_return : ascii := ascii_of_nat 13.

(** [text.split("\n")]: never the empty list. *)
Fixpoint split_lines (s : string) : list string :=
  match s with
  | "" => [""]
  | String c s' =>
      if Ascii.eqb c newline then "" :: split_lines s'
      else match split_lines s' with
           | [] => [String c ""]
           | l :: ls => String c l :: ls
           end
  end.

(** [line.rstrip("\r\n")]: drops the trailing run of CR and LF characters. *)
Fixpoint rstrip_crlf (s : string) : string :=
  match s with
  | "" => ""
  | String c s' =>
      let r := rstrip_crlf s' in
      if (String.eqb r "" && (Ascii.eqb c newline || Ascii.eqb c carriage_return))%bool
      then "" else String c r
  end.

(** [ord(c)] and [chr(n)] on the characters of the model. *)
Definition ord (c : ascii) : Z := Z.of_nat (nat_of_ascii c).
Definition chr (n : Z) : string := String (ascii_of_nat (Z.to_nat n)) "".

End PyStr.

(** ** Values produced by [json.loads] *)

Inductive json : Type :=
| JNull
| JBool (b : bool)
| JNum (q : Q)
| JStr (s : string)
| JArr (items : list json)
| JObj (fields : gmap string json).

(** Python truthiness of a decoded value ([if value:]). *)
Definition truthy (v : json) : bool :=
  match v with
  | JNull => false
  | JBool b => b
  | JNum q => negb (Qeq_bool q 0)
  | JStr s => negb (String.eqb s "")
  | JArr items => match items with [] => false | _ => true end
  | JObj fields => negb (Nat.eqb (size fields) 0)
  end.

(** [value != 2] *)
Definition py_ne_2 (v : json) : bool :=
  match v with
  | JNum q => negb (Qeq_bool q 2)
  | _ => true
  end.

(** Exceptions the players can raise. *)
Inductive exn : Type :=
| ValueError
| TypeError
| KeyError
| AttributeError
| RuntimeError (msg : string).

Inductive result (A : Type) : Type :=
| Ok (a : A)
| Raise (e : exn).
Arguments Ok {A} a.
Arguments Raise {A} e.

(** ** The file object

    A [BufferedReader] is the list of the lines of the file together with the
    read position.  The lines are stored as the caller sees them after the
    external decoding step: the decoded text of the line for an ANSI art file,
    the outcome of [json.loads] for an asciinema file. *)

Record BufferedReader (L : Type) : Type := mkReader {
  file_lines : list L;
  file_pos : nat
}.
Arguments mkReader {L} _ _.
Arguments file_lines {L} _.
Arguments file_pos {L} _.

(** [f.readline()]: [None] stands for the empty bytes returned at end of file,
    where the position stays put. *)
Definition readline {L} (f : BufferedReader L) : option L * BufferedReader L :=
  match file_lines f !! file_pos f with
  | Some l => (Some l, mkReader (file_lines f) (S (file_pos f)))
  | None => (None, f)
  end.

(** [f.seek(0)] *)
Definition seek0 {L} (f : BufferedReader L) : BufferedReader L :=
  mkReader (file_lines f) 0.

(** The lines not read yet. *)
Definition unread {L} (f : BufferedReader L) : list L :=
  drop (file_pos f) (file_lines f).

(** ** The canvas *)

(** A cell is the tuple [(codepoint, colour, attribute, background)]. *)
Definition Cell : Type := Z * Z * Z * Z.

(** The current pen: the list [[colour, attribute, background]]. *)
Definition Colours : Type := Z * Z * Z.

(** One call of [Canvas.print_at]. *)
Record PrintCall : Type := mkCall {
  pc_text : string;
  pc_x : Z;
  pc_y : Z;
  pc_colour : Z;
  pc_attr : Z;
  pc_bg : Z
}.

(** Modelled from the spec: the canvas buffer ([asciimatics.screen.Canvas] is
    not part of this module; the spec gives its contract: [print_at],
    [get_from], [clear_buffer], [scroll(n=1)], [width], [height],
    [start_line]).  A 2D grid of cells addressed by column and logical row,
    with a viewport of [height] rows starting at [start_line].  Cells never
    printed read as [background].  [printed] records every [print_at] call the
    canvas received, most recent first. *)
Record Canvas : Type := mkCanvas {
  width : Z;
  height : Z;
  start_line : Z;
  background : Cell;
  cells : gmap (Z * Z) Cell;
  printed : list PrintCall
}.

Module Canvas.

(** Modelled from the spec: the canvas a renderer starts with, [h] rows by
    [w] columns of [blank] cells, nothing printed yet. *)
Definition new (h w : Z) (blank : Cell) : Canvas :=
  mkCanvas w h 0 blank ∅ [].

(** Modelled from the spec: [reset()], preceded in the player by the base
    class's [_clear()], neither of which is part of this module: an empty
    canvas of the same size, scrolled back to the top. *)
Definition reset (cv : Canvas) : Canvas :=
  mkCanvas (width cv) (height cv) 0 (background cv) ∅ [].

(** The cells of [text] laid out from column [x] on row [y]. *)
Fixpoint put_text (text : string) (x y : Z) (colour attr bg w : Z)
    (m : gmap (Z * Z) Cell) : gmap (Z * Z) Cell :=
  match text with
  | "" => m
  | String c rest =>
      put_text rest (x + 1) y colour attr bg w
        (if ((0 <=? x) && (x <? w))%bool
         then <[(x, y) := (PyStr.ord c, colour, attr, bg)]> m
         else m)
  end.

(** Modelled from the spec: [print_at(text, x, y, colour, attr, bg)] overwrites
    the cells under the text (columns outside the grid are dropped); the call
    is logged. *)
Definition print_at (cv : Canvas) (text : string) (x y colour attr bg : Z) : Canvas :=
  mkCanvas (width cv) (height cv) (start_line cv) (background cv)
    (put_text text x y colour attr bg (width cv) (cells cv))
    (mkCall text x y colour attr bg :: printed cv).

(** Modelled from the spec: [get_from(x, y)] is the cell, or [None] outside
    the visible grid. *)
Definition get_from (cv : Canvas) (x y : Z) : option Cell :=
  if ((0 <=? x) && (x <? width cv) &&
      (start_line cv <=? y) && (y <? start_line cv + height cv))%bool
  then Some (default (background cv) (cells cv !! (x, y)))
  else None.

(** Modelled from the spec: after [clear_buffer(colour, attr, bg)] every cell
    reads as a blank with the given colours. *)
Definition clear_buffer (cv : Canvas) (colour attr bg : Z) : Canvas :=
  mkCanvas (width cv) (height cv) (start_line cv)
    (PyStr.ord " "%char, colour, attr, bg) ∅ (printed cv).

(** Modelled from the spec: [scroll(lines)] moves the viewport start by
    [lines] (default 1). *)
Definition scroll (cv : Canvas) (lines : Z) : Canvas :=
  mkCanvas (width cv) (height cv) (start_line cv + lines) (background cv)
    (cells cv) (printed cv).

End Canvas.

(** ** The parser's commands *)

Inductive Command : Type :=
| DISPLAY_TEXT (params : string)
| CHANGE_COLOURS (params : Colours)
| NEXT_TAB
| MOVE_RELATIVE (dx dy : Z)
| MOVE_ABSOLUTE (x y : option Z)
| DELETE_LINE (params : Z)
| DELETE_CHARS (params : Z)
| SHOW_CURSOR (params : bool)
| SAVE_CURSOR
| RESTORE_CURSOR
| CLEAR_SCREEN.

(** The parser interface the player consumes ([asciimatics.parsers.Parser] is
    external to this module).  [parser_feed line p] stands for
    [p.append(line)] followed by the full drain of [p.parse()]: the parser
    after the call and the [(offset, command)] tuples it yielded, in order. *)
Class Parser (P : Type) : Type := {
  parser_new : P;
  parser_reset : string -> Colours -> P -> P;
  parser_feed : string -> P -> P * list (Z * Command)
}.

(** The constants [Screen.COLOUR_WHITE], [Screen.A_NORMAL] and
    [Screen.COLOUR_BLACK] ([asciimatics.screen] is external to this module). *)
Class ScreenConstants : Type := {
  COLOUR_WHITE : Z;
  A_NORMAL : Z;
  COLOUR_BLACK : Z
}.

(** ** AbstractScreenPlayer *)

Record AbstractScreenPlayer (P L : Type) : Type := mkPlayer {
  _canvas : Canvas;
  _file : BufferedReader L;
  _parser : P;
  _current_colours : Colours;
  _show_cursor : bool;
  _cursor_x : Z;
  _cursor_y : Z;
  _save_cursor_x : Z;
  _save_cursor_y : Z;
  _counter : Q;
  _next : Q;
  _buffer : json
}.
Arguments mkPlayer {P L}.
Arguments _canvas {P L} _.
Arguments _file {P L} _.
Arguments _parser {P L} _.
Arguments _current_colours {P L} _.
Arguments _show_cursor {P L} _.
Arguments _cursor_x {P L} _.
Arguments _cursor_y {P L} _.
Arguments _save_cursor_x {P L} _.
Arguments _save_cursor_y {P L} _.
Arguments _counter {P L} _.
Arguments _next {P L} _.
Arguments _buffer {P L} _.

Section Setters.
Context {P L : Type}.
Implicit Type st : AbstractScreenPlayer P L.

Definition set_canvas (cv : Canvas) st :=
  mkPlayer cv (_file st) (_parser st) (_current_colours st) (_show_cursor st)
    (_cursor_x st) (_cursor_y st) (_save_cursor_x st) (_save_cursor_y st)
    (_counter st) (_next st) (_buffer st).

Definition set_file (f : BufferedReader L) st :=
  mkPlayer (_canvas st) f (_parser st) (_current_colours st) (_show_cursor st)
    (_cursor_x st) (_cursor_y st) (_save_cursor_x st) (_save_cursor_y st)
    (_counter st) (_next st) (_buffer st).

Definition set_parser (p : P) st :=
  mkPlayer (_canvas st) (_file st) p (_current_colours st) (_show_cursor st)
    (_cursor_x st) (_cursor_y st) (_save_cursor_x st) (_save_cursor_y st)
    (_counter st) (_next st) (_buffer st).

Definition set_current_colours (c : Colours) st :=
  mkPlayer (_canvas st) (_file st) (_parser st) c (_show_cursor st)
    (_cursor_x st) (_cursor_y st) (_save_cursor_x st) (_save_cursor_y st)
    (_counter st) (_next st) (_buffer st).

Definition set_show_cursor (b : bool) st :=
  mkPlayer (_canvas st) (_file st) (_parser st) (_current_colours st) b
    (_cursor_x st) (_cursor_y st) (_save_cursor_x st) (_save_cursor_y st)
    (_counter st) (_next st) (_buffer st).

Definition set_cursor_x (x : Z) st :=
  mkPlayer (_canvas st) (_file st) (_parser st) (_current_colours st) (_show_cursor st)
    x (_cursor_y st) (_save_cursor_x st) (_save_cursor_y st)
    (_counter st) (_next st) (_buffer st).

Definition set_cursor_y (y : Z) st :=
  mkPlayer (_canvas st) (_file st) (_parser st) (_current_colours st) (_show_cursor st)
    (_cursor_x st) y (_save_cursor_x st) (_save_cursor_y st)
    (_counter st) (_next st) (_buffer st).

Definition set_save_cursor_x (x : Z) st :=
  mkPlayer (_canvas st) (_file st) (_parser st) (_current_colours st) (_show_cursor st)
    (_cursor_x st) (_cursor_y st) x (_save_cursor_y st)
    (_counter st) (_next st) (_buffer st).

Definition set_save_cursor_y (y : Z) st :=
  mkPlayer (_canvas st) (_file st) (_parser st) (_current_colours st) (_show_cursor st)
    (_cursor_x st) (_cursor_y st) (_save_cursor_x st) y
    (_counter st) (_next st) (_buffer st).

Definition set_counter (q : Q) st :=
  mkPlayer (_canvas st) (_file st) (_parser st) (_current_colours st) (_show_cursor st)
    (_cursor_x st) (_cursor_y st) (_save_cursor_x st) (_save_cursor_y st)
    q (_next st) (_buffer st).

Definition set_next (q : Q) st :=
  mkPlayer (_canvas st) (_file st) (_parser st) (_current_colours st) (_show_cursor st)
    (_cursor_x st) (_cursor_y st) (_save_cursor_x st) (_save_cursor_y st)
    (_counter st) q (_buffer st).

Definition set_buffer (b : json) st :=
  mkPlayer (_canvas st) (_file st) (_parser st) (_current_colours st) (_show_cursor st)
    (_cursor_x st) (_cursor_y st) (_save_cursor_x st) (_save_cursor_y st)
    (_counter st) (_next st) b.
End Setters.

Section ScreenPlayer.
Context {P L : Type} `{!Parser P}.
Implicit Type st : AbstractScreenPlayer P L.

(** [_print_at]: [print_at] with the current pen. *)
Definition _print_at (text : string) (x y : Z) st :=
  let pen := _current_colours st in
  set_canvas (Canvas.print_at (_canvas st) text x y pen.1.1 pen.1.2 pen.2) st.

(** [if self._cursor_y - self._canvas.start_line >= self._canvas.height:
       self._canvas.scroll()] *)
Definition scroll_if_below st :=
  if height (_canvas st) <=? _cursor_y st - start_line (_canvas st)
  then set_canvas (Canvas.scroll (_canvas st) 1) st
  else st.

(** The sweep of [DELETE_CHARS]: [for x in range(cursor_x, width)], [n]
    columns left to do, reading each source cell from the canvas as it is at
    that moment. *)
Fixpoint delete_chars_sweep (n : nat) (x params y : Z) (pen : Colours)
    (cv : Canvas) : Canvas :=
  match n with
  | O => cv
  | S n' =>
      let cell :=
        if x + params <? width cv then Canvas.get_from cv (x + params) y
        else None in
      let cell :=
        match cell with
        | Some c => c
        | None => (PyStr.ord " "%char, pen.1.1, pen.1.2, pen.2)
        end in
      delete_chars_sweep n' (x + 1) params y pen
        (Canvas.print_at cv (PyStr.chr cell.1.1.1) x y cell.1.1.2 cell.1.2 cell.2)
  end.

(** The body of the loop over the parsed commands: the conditional chain on
    the command tag. *)
Definition dispatch (command : Command) st : AbstractScreenPlayer P L :=
  match command with
  | DISPLAY_TEXT params =>
      let w := width (_canvas st) in
      if w <=? _cursor_x st + PyStr.len params then
        let part_1 := PyStr.slice_to params (w - _cursor_x st) in
        let part_2 := PyStr.slice_from params (w - _cursor_x st) in
        let st1 := _print_at part_1 (_cursor_x st) (_cursor_y st) st in
        let st2 := _print_at part_2 0 (_cursor_y st1 + 1) st1 in
        let st3 := set_cursor_x (PyStr.len part_2) st2 in
        let st4 := set_cursor_y (_cursor_y st3 + 1) st3 in
        scroll_if_below st4
      else
        let st1 := _print_at params (_cursor_x st) (_cursor_y st) st in
        set_cursor_x (_cursor_x st1 + PyStr.len params) st1
  | CHANGE_COLOURS params =>
      set_current_colours params st
  | NEXT_TAB =>
      set_cursor_x (_cursor_x st / 8 * 8 + 8) st
  | MOVE_RELATIVE dx dy =>
      let st1 := set_cursor_x (_cursor_x st + dx) st in
      let st2 := set_cursor_y (_cursor_y st1 + dy) st1 in
      if _cursor_y st2 <? start_line (_canvas st2)
      then set_canvas
             (Canvas.scroll (_canvas st2) (_cursor_y st2 - start_line (_canvas st2))) st2
      else st2
  | MOVE_ABSOLUTE x y =>
      let st1 := match x with Some x' => set_cursor_x x' st | None => st end in
      match y with
      | Some y' => set_cursor_y (y' + start_line (_canvas st1)) st1
      | None => st1
      end
  | DELETE_LINE params =>
      if params =? 0 then
        _print_at (PyStr.spaces (width (_canvas st) - _cursor_x st))
          (_cursor_x st) (_cursor_y st) st
      else if params =? 1 then
        _print_at (PyStr.spaces (_cursor_x st)) 0 (_cursor_y st) st
      else if params =? 2 then
        _print_at (PyStr.spaces (width (_canvas st))) 0 (_cursor_y st) st
      else st
  | DELETE_CHARS params =>
      set_canvas
        (delete_chars_sweep (Z.to_nat (width (_canvas st) - _cursor_x st))
           (_cursor_x st) params (_cursor_y st) (_current_colours st) (_canvas st))
        st
  | SHOW_CURSOR params =>
      set_show_cursor params st
  | SAVE_CURSOR =>
      set_save_cursor_y (_cursor_y st) (set_save_cursor_x (_cursor_x st) st)
  | RESTORE_CURSOR =>
      let st1 := set_cursor_x (_save_cursor_x st) st in
      set_cursor_y (_save_cursor_y st1) st1
  | CLEAR_SCREEN =>
      let pen := _current_colours st in
      let st1 := set_canvas (Canvas.clear_buffer (_canvas st) pen.1.1 pen.1.2 pen.2) st in
      let st2 := set_cursor_x 0 st1 in
      set_cursor_y (start_line (_canvas st2)) st2
  end.

(** The commands of one [parse()] drain, dispatched in order. *)
Definition run_commands (commands : list Command) st : AbstractScreenPlayer P L :=
  fold_left (fun s command => dispatch command s) commands st.

(** One line: [self._parser.append(line)] and the loop over
    [self._parser.parse()]. *)
Definition feed_line (line : string) st : AbstractScreenPlayer P L :=
  let r := parser_feed line (_parser st) in
  run_commands (map snd r.2) (set_parser r.1 st).

(** Move to the next line, scrolling the buffer as needed. *)
Definition next_row st : AbstractScreenPlayer P L :=
  let st1 := set_cursor_x 0 st in
  let st2 := set_cursor_y (_cursor_y st1 + 1) st1 in
  scroll_if_below st2.

Fixpoint play_lines (lines : list string) st : AbstractScreenPlayer P L :=
  match lines with
  | [] => st
  | line :: rest =>
      let st1 := feed_line line st in
      match rest with
      | [] => st1
      | _ :: _ => play_lines rest (next_row st1)
      end
  end.

(** [_play_content(text)] *)
Definition _play_content (text : string) st : AbstractScreenPlayer P L :=
  play_lines (PyStr.split_lines text) st.

(** [reset()]: fresh parser, pen, cursor and clock; the canvas is cleared
    and the file rewound. *)
Definition reset `{!ScreenConstants} st : AbstractScreenPlayer P L :=
  let pen := (COLOUR_WHITE, A_NORMAL, COLOUR_BLACK) in
  {| _canvas := Canvas.reset (_canvas st);
     _file := seek0 (_file st);
     _parser := parser_reset "" pen parser_new;
     _current_colours := pen;
     _show_cursor := false;
     _cursor_x := 0;
     _cursor_y := 0;
     _save_cursor_x := 0;
     _save_cursor_y := 0;
     _counter := 0%Q;
     _next := 0%Q;
     _buffer := JNull |}.

(** [AbstractScreenPlayer.__init__(file, height, width)] *)
Definition AbstractScreenPlayer_init `{!ScreenConstants}
    (file : BufferedReader L) (h w : Z) : AbstractScreenPlayer P L :=
  let pen := (COLOUR_WHITE, A_NORMAL, COLOUR_BLACK) in
  reset
    {| _canvas := Canvas.new h w (PyStr.ord " "%char, COLOUR_WHITE, A_NORMAL, COLOUR_BLACK);
       _file := file;
       _parser := parser_new;
       _current_colours := pen;
       _show_cursor := false;
       _cursor_x := 0;
       _cursor_y := 0;
       _save_cursor_x := 0;
       _save_cursor_y := 0;
       _counter := 0%Q;
       _next := 0%Q;
       _buffer := JNull |}.

End ScreenPlayer.

(** ** AnsiArtPlayer *)

Record AnsiArtPlayer (P : Type) : Type := mkAnsiArt {
  ansi_base : AbstractScreenPlayer P string;
  _strip : bool;
  _rate : Z;
  _encoding : string
}.
Arguments mkAnsiArt {P}.
Arguments ansi_base {P} _.
Arguments _strip {P} _.
Arguments _rate {P} _.
Arguments _encoding {P} _.

Section AnsiArt.
Context {P : Type} `{!Parser P}.

(** [AnsiArtPlayer.__init__(filename, height, width, encoding, strip, rate)],
    with the opened file in place of its name. *)
Definition AnsiArtPlayer_init `{!ScreenConstants} (file : BufferedReader string)
    (h w : Z) (encoding : string) (strip : bool) (rate : Z) : AnsiArtPlayer P :=
  mkAnsiArt (AbstractScreenPlayer_init file h w) strip rate encoding.

(** The [while count < self._rate and line != ""] loop, with [todo] the
    number of iterations the counter still allows. *)
Fixpoint render_lines (todo : nat) (strip : bool)
    (st : AbstractScreenPlayer P string) : AbstractScreenPlayer P string :=
  match todo with
  | O => st
  | S todo' =>
      let r := readline (_file st) in
      let line := default "" r.1 in
      let line := if strip then PyStr.rstrip_crlf line else line in
      let st1 := _play_content line (set_file r.2 st) in
      if String.eqb line "" then st1 else render_lines todo' strip st1
  end.

(** [AnsiArtPlayer._render_now()]; the returned image is read off the canvas. *)
Definition AnsiArt_render_now (pl : AnsiArtPlayer P) : AnsiArtPlayer P :=
  mkAnsiArt (render_lines (Z.to_nat (_rate pl)) (_strip pl) (ansi_base pl))
    (_strip pl) (_rate pl) (_encoding pl).

Fixpoint AnsiArt_ticks (n : nat) (pl : AnsiArtPlayer P) : AnsiArtPlayer P :=
  match n with
  | O => pl
  | S n' => AnsiArt_ticks n' (AnsiArt_render_now pl)
  end.

End AnsiArt.

(** ** AsciinemaPlayer *)

Record AsciinemaPlayer (P : Type) : Type := mkAsciinema {
  asc_base : AbstractScreenPlayer P (option json);
  _max_delay : option Q
}.
Arguments mkAsciinema {P}.
Arguments asc_base {P} _.
Arguments _max_delay {P} _.

(** [header[key]] on the decoded header line. *)
Definition subscript (v : json) (key : string) : result json :=
  match v with
  | JObj fields =>
      match fields !! key with
      | Some x => Ok x
      | None => Raise KeyError
      end
  | _ => Raise TypeError
  end.

(** Modelled from the spec: the renderer base class ([DynamicRenderer] is not
    part of this module) is given the declared height and width, which the
    file format makes integers; any other value is reported as [TypeError]. *)
Definition as_int (v : json) : result Z :=
  match v with
  | JNum q => if Pos.eqb (Qden (Qred q)) 1 then Ok (Qnum (Qred q)) else Raise TypeError
  | JBool b => Ok (if b then 1 else 0)
  | _ => Raise TypeError
  end.

(** The three-way unpacking [a, _, c = value]. *)
Definition unpack3 (v : json) : result (json * json) :=
  match v with
  | JArr [a; _; c] => Ok (a, c)
  | JArr _ => Raise ValueError
  | JObj fields =>
      match map_to_list fields with
      | [(k1, _); _; (k3, _)] => Ok (JStr k1, JStr k3)
      | _ => Raise ValueError
      end
  | JStr (String c1 (String _ (String c3 ""))) => Ok (JStr (String c1 ""), JStr (String c3 ""))
  | JStr _ => Raise ValueError
  | JNull | JBool _ | JNum _ => Raise TypeError
  end.

(** A decoded value compared with the clock: numbers and booleans compare,
    anything else raises. *)
Definition as_number (v : json) : result Q :=
  match v with
  | JNum q => Ok q
  | JBool b => Ok (if b then 1%Q else 0%Q)
  | _ => Raise TypeError
  end.

(** [given if given else header[key]]: the dimension handed to the base
    class, either the caller's [int] (when it is not 0) or whatever the header
    holds under [key]. *)
Definition dimension (given : option Z) (header : json) (key : string)
  : result (Z + json) :=
  match given with
  | Some n =>
      if n =? 0 then
        match subscript header key with
        | Ok v => Ok (inr v)
        | Raise e => Raise e
        end
      else Ok (inl n)
  | None =>
      match subscript header key with
      | Ok v => Ok (inr v)
      | Raise e => Raise e
      end
  end.

(** Modelled from the spec: the size the base class makes of a dimension it
    is given, the caller's [int] as it is and a header value through
    [as_int]. *)
Definition as_size (d : Z + json) : result Z :=
  match d with
  | inl n => Ok n
  | inr v => as_int v
  end.

(** The clock quantum of one tick, the literal [0.05] of
    [self._counter += 0.05]. *)
Definition quantum : Q := 5 # 100.

Section Asciinema.
Context {P : Type} `{!Parser P}.
Implicit Type st : AbstractScreenPlayer P (option json).

(** [AsciinemaPlayer.__init__(filename, height, width, max_delay)], with the
    opened file in place of its name.  A line [None] is one on which
    [json.loads] raises [ValueError].  The version is tested first; then the
    height and the width are chosen, in that order; only then is the base
    class constructed, which is where a dimension that is not an integer is
    refused. *)
Definition AsciinemaPlayer_init `{!ScreenConstants}
    (f : BufferedReader (option json)) (h w : option Z) (max_delay : option Q)
    : result (AsciinemaPlayer P) :=
  let r := readline f in
  match mjoin r.1 with
  | None => Raise ValueError
  | Some header =>
      match subscript header "version" with
      | Raise e => Raise e
      | Ok version =>
          if py_ne_2 version then Raise (RuntimeError "Unsupported file format")
          else
            match dimension h header "height" with
            | Raise e => Raise e
            | Ok height =>
                match dimension w header "width" with
                | Raise e => Raise e
                | Ok width =>
                    match as_size height with
                    | Raise e => Raise e
                    | Ok h' =>
                        match as_size width with
                        | Raise e => Raise e
                        | Ok w' =>
                            Ok (mkAsciinema (AbstractScreenPlayer_init r.2 h' w')
                                  max_delay)
                        end
                    end
                end
            end
      end
  end.

(** [if self._max_delay and self._next - self._counter > self._max_delay:
       self._counter = self._next - self._max_delay]; a [max_delay] of 0 is
    falsy, like [None].  The two differences are float operations in the
    source and exact ones here. *)
Definition speed_up (max_delay : option Q) st :=
  match max_delay with
  | Some d =>
      if (negb (Qeq_bool d 0) && negb (Qle_bool (_next st - _counter st) d))%bool
      then set_counter (_next st - d)%Q st
      else st
  | None => st
  end.

(** [if self._buffer: self._play_content(self._buffer)]; [played] collects
    the texts handed to [_play_content] during the tick, in order. *)
Definition play_buffer st (played : list string)
    : result (AbstractScreenPlayer P (option json) * list string) :=
  if truthy (_buffer st) then
    match _buffer st with
    | JStr text => Ok (_play_content text st, (played ++ [text])%list)
    | _ => Raise AttributeError
    end
  else Ok (st, played).

(** The [while True] loop.  [pending] is the list of the unread lines of
    [self._file]; every iteration reads one, so the loop ends at the latest
    when the file does. *)
Fixpoint read_events (pending : list (option json)) (max_delay : option Q)
    st (played : list string)
    : result (AbstractScreenPlayer P (option json) * list string) :=
  match pending with
  | [] => Ok (st, played)
  | line :: rest =>
      let st0 := set_file (readline (_file st)).2 st in
      match line with
      | None => Ok (st0, played)
      | Some value =>
          match unpack3 value with
          | Raise ValueError => Ok (st0, played)
          | Raise e => Raise e
          | Ok (a, c) =>
              match as_number a with
              | Raise e => Raise e
              | Ok next =>
                  let st1 := set_buffer c (set_next next st0) in
                  if negb (Qle_bool (_next st1) (_counter st1))
                  then Ok (speed_up max_delay st1, played)
                  else
                    match play_buffer st1 played with
                    | Raise e => Raise e
                    | Ok (st2, played2) => read_events rest max_delay st2 played2
                    end
              end
          end
      end
  end.

(** [if self._buffer: self._play_content(self._buffer); self._buffer = None] *)
Definition flush_buffer st
    : result (AbstractScreenPlayer P (option json) * list string) :=
  if truthy (_buffer st) then
    match _buffer st with
    | JStr text => Ok (set_buffer JNull (_play_content text st), [text])
    | _ => Raise AttributeError
    end
  else Ok (st, []).

(** [AsciinemaPlayer._render_now()]: the player after the tick and the texts
    played during it; the returned image is read off the canvas. *)
Definition Asciinema_render_now (pl : AsciinemaPlayer P)
    : result (AsciinemaPlayer P * list string) :=
  let st := set_counter (_counter (asc_base pl) + quantum)%Q (asc_base pl) in
  if Qle_bool (_next st) (_counter st) then
    match flush_buffer st with
    | Raise e => Raise e
    | Ok (st1, played) =>
        match read_events (unread (_file st1)) (_max_delay pl) st1 played with
        | Ok (st2, played2) => Ok (mkAsciinema st2 (_max_delay pl), played2)
        | Raise e => Raise e
        end
    end
  else Ok (mkAsciinema st (_max_delay pl), []).

(** [n] ticks in a row, stopping at the first exception. *)
Fixpoint Asciinema_ticks (n : nat) (pl : AsciinemaPlayer P)
    : result (AsciinemaPlayer P) :=
  match n with
  | O => Ok pl
  | S n' =>
      match Asciinema_render_now pl with
      | Ok (pl', _) => Asciinema_ticks n' pl'
      | Raise e => Raise e
      end
  end.

End Asciinema.

(** ** A concrete environment

    An instance of each interface, on which the definitions above can be
    evaluated.  [control_parser] understands printable characters and the
    control characters backspace, tab and carriage return; like the terminal
    parser it reports its current attributes first and then one command per
    character. *)

Module Harness.

#[export] Instance screen_constants : ScreenConstants :=
  {| COLOUR_WHITE := 7; A_NORMAL := 2; COLOUR_BLACK := 0 |}.

Fixpoint tokens (offset : Z) (text : string) : list (Z * Command) :=
  match text with
  | "" => []
  | String c rest =>
      let code := nat_of_ascii c in
      let here :=
        if (31 <? code)%nat then [(offset, DISPLAY_TEXT (String c ""))]
        else if (code =? 8)%nat then [(offset, MOVE_RELATIVE (-1) 0)]
        else if (code =? 9)%nat then [(offset, NEXT_TAB)]
        else if (code =? 13)%nat then [(offset, MOVE_ABSOLUTE (Some 0) None)]
        else [] in
      (here ++ tokens (offset + 1) rest)%list
  end.

#[export] Instance control_parser : Parser Colours :=
  {| parser_new := (7, 2, 0);
     parser_reset := fun _ colours _ => colours;
     parser_feed := fun line p => (p, (0, CHANGE_COLOURS p) :: tokens 0 line) |}.

(** A fresh screen player of the given size over the given lines. *)
Definition player {L : Type} (lines : list L) (h w : Z) : AbstractScreenPlayer Colours L :=
  AbstractScreenPlayer_init (mkReader lines 0) h w.

(** A fresh 10-column, 2-row screen. *)
Definition screen_10x2 : AbstractScreenPlayer Colours string := player [] 2 10.

(** A fresh 5-column, 2-row screen. *)
Definition screen_5x2 : AbstractScreenPlayer Colours string := player [] 2 5.

(** The cursor parked past the end of a 10-column row: column 8, then a tab. *)
Definition past_the_row : AbstractScreenPlayer Colours string :=
  run_commands [MOVE_ABSOLUTE (Some 8) None; NEXT_TAB] screen_10x2.

(** Column 3 of a 5-column row. *)
Definition at_column_3 : AbstractScreenPlayer Colours string :=
  dispatch (DISPLAY_TEXT "abc") screen_5x2.

(** [[ts, "o", text]] *)
Definition event (ts : Q) (text : string) : option json :=
  Some (JArr [JNum ts; JStr "o"; JStr text]).

(** [{"version": v, "width": 10, "height": 2, "timestamp": 0, "title": "demo"}] *)
Definition header (v : Q) : json :=
  JObj (<["version" := JNum v]>
          (<["width" := JNum 10]>
             (<["height" := JNum 2]>
                (<["timestamp" := JNum 0]> (<["title" := JStr "demo"]> ∅))))).

(** [{"version": 2, "width": 10, "height": 2}] *)
Definition short_header : json :=
  JObj (<["version" := JNum 2]> (<["width" := JNum 10]> (<["height" := JNum 2]> ∅))).

(** A player in mid-playback over the given unread lines, 10 columns by 2 rows. *)
Definition playing (lines : list (option json)) (max_delay : option Q)
    : AsciinemaPlayer Colours :=
  mkAsciinema (player lines 2 10) max_delay.

Definition line_feed : string := String PyStr.newline "".

(** An ANSI art player over the given lines, 10 columns by 5 rows, with the
    default rate of 2. *)
Definition art (lines : list string) (strip : bool) : AnsiArtPlayer Colours :=
  AnsiArtPlayer_init (mkReader lines 0) 5 10 "cp437" strip 2.

End Harness.

(** ** Where the player writes *)

(** The columns a [print_at] call covers are [pc_x .. pc_x + len - 1]; the call
    stays in the row when they all lie in [0 .. w - 1]. *)
Definition call_in_row (w : Z) (c : PrintCall) : bool :=
  (PyStr.len (pc_text c) =? 0) ||
  ((0 <=? pc_x c) && (pc_x c + PyStr.len (pc_text c) <=? w)).

Section Guards.
Context {P L : Type} `{!Parser P}.
Implicit Type st : AbstractScreenPlayer P L.

(** Every write the canvas has received so far stays in its row. *)
Definition writes_in_row st : bool :=
  forallb (call_in_row (width (_canvas st))) (printed (_canvas st)).

(** The cursor column is on the row or just past its end. *)
Definition cursor_on_row st : bool :=
  (0 <=? _cursor_x st) && (_cursor_x st <=? width (_canvas st)).

(** A writing command is well placed when the cursor column is on the row
    and, for text, the overflow past the end of the row fits on one row. *)
Definition well_placed st (command : Command) : bool :=
  match command with
  | DISPLAY_TEXT params =>
      cursor_on_row st &&
      (_cursor_x st + PyStr.len params <=? 2 * width (_canvas st))
  | DELETE_LINE _ | DELETE_CHARS _ => cursor_on_row st
  | _ => true
  end.

(** Every command of the sequence is well placed in the state it runs in. *)
Fixpoint guarded (commands : list Command) st : bool :=
  match commands with
  | [] => true
  | command :: rest => well_placed st command && guarded rest (dispatch command st)
  end.

(** The same along the lines of a text fed to [_play_content]. *)
Fixpoint lines_guarded (lines : list string) st : bool :=
  match lines with
  | [] => true
  | line :: rest =>
      let r := parser_feed line (_parser st) in
      guarded (map snd r.2) (set_parser r.1 st) &&
      match rest with
      | [] => true
      | _ :: _ => lines_guarded rest (next_row (feed_line line st))
      end
  end.

Definition is_colour_change (command : Command) : bool :=
  match command with CHANGE_COLOURS _ => true | _ => false end.

End Guards.

(** ** The drivers leave the screen to [_play_content] *)

(** The player [st] with the driver's own fields (file, clock, next timestamp,
    buffer) replaced. *)
Definition with_driver {P L : Type} (f : BufferedReader L) (clock next : Q)
    (buffer : json) (st : AbstractScreenPlayer P L) : AbstractScreenPlayer P L :=
  mkPlayer (_canvas st) f (_parser st) (_current_colours st) (_show_cursor st)
    (_cursor_x st) (_cursor_y st) (_save_cursor_x st) (_save_cursor_y st)
    clock next buffer.

(** The texts of a tick played one after the other. *)
Definition play_all {P L : Type} `{!Parser P} (texts : list string)
    (st : AbstractScreenPlayer P L) : AbstractScreenPlayer P L :=
  fold_left (fun s text => _play_content text s) texts st.

(** ** Comparing ticks *)

(** The same player without a [max_delay]. *)
Definition without_delay {P : Type} (pl : AsciinemaPlayer P) : AsciinemaPlayer P :=
  mkAsciinema (asc_base pl) None.

(** Two outcomes of a tick agree on everything but the clock (and the
    [max_delay] setting): same texts played in the same order, same canvas,
    cursor, file position, next timestamp and buffer, or the same exception. *)
Definition same_but_clock {P : Type}
    (r1 r2 : result (AsciinemaPlayer P * list string)) : Prop :=
  match r1, r2 with
  | Ok (p1, played1), Ok (p2, played2) =>
      played1 = played2 /\
      set_counter (_counter (asc_base p2)) (asc_base p1) = asc_base p2
  | Raise e1, Raise e2 => e1 = e2
  | _, _ => False
  end.

(** The buffer holds what its annotation [Optional[str]] allows. *)
Definition buffer_is_text {P L : Type} (st : AbstractScreenPlayer P L) : Prop :=
  _buffer st = JNull \/ exists text, _buffer st = JStr text.

(** The line as handed to [_play_content]: stripped when [strip] is set. *)
Definition shown (strip : bool) (line : string) : string :=
  if strip then PyStr.rstrip_crlf line else line.

(** ** More vocabulary for the dispatcher *)

Definition is_save_cursor (command : Command) : bool :=
  match command with SAVE_CURSOR => true | _ => false end.

Definition is_delete_chars (command : Command) : bool :=
  match command with DELETE_CHARS _ => true | _ => false end.

(** The commands that store a value given by the command or already held by
    the player, rather than one computed from the cursor. *)
Definition is_setter (command : Command) : bool :=
  match command with
  | MOVE_ABSOLUTE _ _ | CHANGE_COLOURS _ | SHOW_CURSOR _
  | SAVE_CURSOR | RESTORE_CURSOR | CLEAR_SCREEN => true
  | _ => false
  end.

(** The pen a [print_at] call was made with. *)
Definition call_pen (c : PrintCall) : Colours := (pc_colour c, pc_attr c, pc_bg c).

(** A command that keeps the cursor column on the row of width [w] whenever it
    starts there: text no longer than the row, no tab, no sideways relative
    move, absolute columns within [0 .. w]. *)
Definition keeps_column (w : Z) (command : Command) : bool :=
  match command with
  | DISPLAY_TEXT params => PyStr.len params <=? w
  | NEXT_TAB => false
  | MOVE_RELATIVE dx _ => dx =? 0
  | MOVE_ABSOLUTE (Some x) _ => (0 <=? x) && (x <=? w)
  | _ => true
  end.

Section MoreGuards.
Context {P L : Type} `{!Parser P}.
Implicit Type st : AbstractScreenPlayer P L.

(** The saved cursor column is on the row or just past its end. *)
Definition save_on_row st : bool :=
  (0 <=? _save_cursor_x st) && (_save_cursor_x st <=? width (_canvas st)).

(** The cursor row lies in the viewport. *)
Definition in_view st : bool :=
  (start_line (_canvas st) <=? _cursor_y st) &&
  (_cursor_y st <? start_line (_canvas st) + height (_canvas st)).

(** A command that cannot take the cursor row below the viewport, or bring
    back a row outside of it, from the state [st]. *)
Definition view_safe st (command : Command) : bool :=
  match command with
  | MOVE_RELATIVE _ dy =>
      _cursor_y st + dy <? start_line (_canvas st) + height (_canvas st)
  | MOVE_ABSOLUTE _ (Some y) => (0 <=? y) && (y <? height (_canvas st))
  | RESTORE_CURSOR =>
      (start_line (_canvas st) <=? _save_cursor_y st) &&
      (_save_cursor_y st <? start_line (_canvas st) + height (_canvas st))
  | _ => true
  end.

(** Every command of the sequence is [view_safe] in the state it runs in. *)
Fixpoint view_guarded (commands : list Command) st : bool :=
  match commands with
  | [] => true
  | command :: rest => view_safe st command && view_guarded rest (dispatch command st)
  end.

End MoreGuards.

(** The cell that ends up in column [c] of row [y] when the row is shifted
    left by [n]: the cell [n] columns to the right, or a blank in the pen
    [pen] when that column is past the end of the row. *)
Definition shifted_cell (cv : Canvas) (n y : Z) (pen : Colours) (c : Z) : Cell :=
  if c + n <? width cv
  then default (background cv) (cells cv !! (c + n, y))
  else (PyStr.ord " "%char, pen.1.1, pen.1.2, pen.2).

(** ** More vocabulary for the drivers *)

(** The number of leading texts that are not empty. *)
Fixpoint leading_text (texts : list string) : nat :=
  match texts with
  | [] => 0
  | text :: rest => if String.eqb text "" then 0 else S (leading_text rest)
  end.

(** The line of the event [[ts, channel, text]]. *)
Definition record (e : Q * string * string) : option json :=
  Some (JArr [JNum e.1.1; JStr e.1.2; JStr e.2]).

(** The payloads of the events that are not empty, in order. *)
Definition nonempty_texts (events : list (Q * string * string)) : list string :=
  List.filter (fun text => negb (String.eqb text "")) (map snd events).

(** The clock after [n] ticks that do nothing but advance it: [n] times
    [self._counter += 0.05]. *)
Fixpoint clock_after (n : nat) (clock : Q) : Q :=
  match n with
  | O => clock
  | S n' => clock_after n' (clock + quantum)%Q
  end.

(** A fresh 10-column, 2-row screen over an asciinema file with no lines. *)
Definition screen_asc : AbstractScreenPlayer Colours (option json) :=
  Harness.player [] 2 10.

(** ** The drop-down list (widgets/dropdownlist.py) *)

Module Dropdown.

(** The fields of a [DropdownList] that its value and its options touch.  An
    option is a pair (text, value) with an [int] value; [_line] and [_value]
    are [None] or an index and a value.  [_on_change] tells whether a callback
    was given, and [notified] counts the calls made to it. *)
Record DropdownList : Type := mkDropdown {
  _options : list (string * Z);
  _line : option nat;
  _value : option Z;
  _on_change : bool;
  notified : nat
}.

(** [DropdownList.__init__(options, on_change=...)]: line 0 and the value of
    the first option when there is one, no line and no value otherwise. *)
Definition DropdownList_init (options : list (string * Z)) (on_change : bool)
  : DropdownList :=
  match options with
  | [] => mkDropdown options None None on_change 0
  | (_, first) :: _ => mkDropdown options (Some 0%nat) (Some first) on_change 0
  end.

(** [value] (getter) *)
Definition value (d : DropdownList) : option Z := _value d.

(** The loop [for i, [_, value] in enumerate(self._options)] of the setter:
    the index, counting from [i], of the first option whose value equals
    [new_value]; [None] when the loop runs into its [else]. *)
Fixpoint first_match (options : list (string * Z)) (new_value : option Z)
    (i : nat) : option nat :=
  match options with
  | [] => None
  | (_, v) :: rest =>
      if bool_decide (Some v = new_value) then Some i
      else first_match rest new_value (S i)
  end.

(** [value = new_value] (setter) *)
Definition set_value (new_value : option Z) (d : DropdownList) : DropdownList :=
  let old_value := _value d in
  let line := first_match (_options d) new_value 0 in
  let stored := match line with
                | Some _ => new_value
                | None => None
                end in
  mkDropdown (_options d) line stored (_on_change d)
    (if (bool_decide (old_value <> stored) && _on_change d)%bool
     then S (notified d) else notified d).

(** [options = new_value] (setter) *)
Definition set_options (new_value : list (string * Z)) (d : DropdownList)
  : DropdownList :=
  set_value (_value d)
    (mkDropdown new_value (_line d) (_value d) (_on_change d) (notified d)).

(** The text that [update] shows,
    [text = "" if self._line is None else self._options[self._line][0]];
    [None] stands for the [IndexError] of a line past the options. *)
Definition update_text (d : DropdownList) : option string :=
  match _line d with
  | None => Some ""
  | Some i => fst <$> _options d !! i
  end.

(** What a program does to the widget between two updates. *)
Inductive action : Type :=
| SetValue (new_value : option Z)
| SetOptions (new_value : list (string * Z)).

Definition act (a : action) (d : DropdownList) : DropdownList :=
  match a with
  | SetValue new_value => set_value new_value d
  | SetOptions new_value => set_options new_value d
  end.

Definition run (actions : list action) (d : DropdownList) : DropdownList :=
  fold_left (fun d a => act a d) actions d.

(** [_DropdownPopup.__init__]: where the pop-up goes, from the height of the
    screen, the row [y] of the parent ([location[1]]) and the number [n] of
    its options: (start_line, height, reverse), and the [add_scroll_bar]
    handed to the list box. *)
Definition popup_placement (screen_height y n : Z) : Z * Z * bool :=
  if screen_height - y <? 3
  then let height := Z.min (n + 4) (y + 2) in
       (y - height + 2, height, true)
  else (y - 1, Z.min (n + 4) (screen_height - y + 1), false).

Definition popup_scroll_bar (screen_height y n : Z) : bool :=
  (popup_placement screen_height y n).1.2 - 4 <? n.

(** Line and value agree: a line is the index of an option with the stored
    value, and there is no value without a line. *)
Definition agrees (d : DropdownList) : Prop :=
  match _line d with
  | Some i => exists text v,
      _options d !! i = Some (text, v) /\ value d = Some v /\
      update_text d = Some text
  | None => value d = None /\ update_text d = Some ""
  end.

End Dropdown.

(** * Properties *)

(** ** Facts about Python strings *)

Module PyStrFacts.
Import PyStr.

Lemma take_drop n s : (take n s ++ drop n s)%string = s.
Proof.
  revert s. induction n as [|n IH]; intros [|c s]; simpl; try reflexivity.
  transitivity (String c (take n s ++ drop n s)%string); [reflexivity |].
  f_equal. apply IH.
Qed.

Lemma length_take n s : (n <= String.length s)%nat -> String.length (take n s) = n.
Proof.
  revert s. induction n as [|n IH]; intros [|c s] Hn; simpl in *; try lia.
  rewrite IH; lia.
Qed.

Lemma length_drop n s : String.length (drop n s) = (String.length s - n)%nat.
Proof.
  revert s. induction n as [|n IH]; intros [|c s]; simpl; try lia.
  apply IH.
Qed.

Lemma append_empty s : (s ++ "")%string = s.
Proof.
  induction s as [|c s IH]; [reflexivity |].
  transitivity (String c (s ++ "")%string); [reflexivity | now f_equal].
Qed.

Lemma length_zero s : String.length s = 0%nat -> s = "".
Proof. destruct s; simpl; [reflexivity | lia]. Qed.

(** Whatever the bound, the two slices partition the string. *)
Lemma slice_partition s k : (slice_to s k ++ slice_from s k)%string = s.
Proof. apply take_drop. Qed.

Lemma slice_index_inside s k :
  0 <= k <= len s -> slice_index s k = Z.to_nat k.
Proof.
  intros Hk. unfold slice_index.
  destruct (k <? 0) eqn:E; [apply Z.ltb_lt in E; lia |].
  f_equal. lia.
Qed.

Lemma len_slice_to s k : 0 <= k <= len s -> len (slice_to s k) = k.
Proof.
  intros Hk. unfold slice_to. rewrite slice_index_inside by assumption.
  unfold len in *. rewrite length_take; lia.
Qed.

Lemma len_slice_from s k : 0 <= k <= len s -> len (slice_from s k) = len s - k.
Proof.
  intros Hk. unfold slice_from. rewrite slice_index_inside by assumption.
  unfold len in *. rewrite length_drop. lia.
Qed.

Lemma length_replicate_space n : String.length (replicate_space n) = n.
Proof. induction n; simpl; congruence. Qed.

Lemma len_spaces n : len (spaces n) = Z.max 0 n.
Proof. unfold len, spaces. rewrite length_replicate_space. lia. Qed.

Lemma len_chr n : len (chr n) = 1.
Proof. reflexivity. Qed.

End PyStrFacts.

(** ** The dispatcher *)

(** Turns a boolean goal made of [&&], [||] (right disjunct) and [<=?] into
    linear arithmetic. *)
Ltac in_row_goal :=
  repeat match goal with
         | |- (_ && _)%bool = true => apply andb_true_iff; split
         | |- (_ || _)%bool = true => apply orb_true_iff; right
         | |- (_ <=? _) = true => apply Z.leb_le
         end.

(** Splits the boolean hypothesis [cursor_on_row] and its companions. *)
Ltac split_guard H :=
  repeat match type of H with
         | (_ && _)%bool = true =>
             let H1 := fresh H in
             apply andb_true_iff in H as [H1 H]; try apply Z.leb_le in H1
         end;
  try apply Z.leb_le in H.

Section DispatchFacts.
Context {P L : Type} `{!Parser P}.
Implicit Type st : AbstractScreenPlayer P L.

Lemma sweep_width n x params y pen cv :
  width (delete_chars_sweep n x params y pen cv) = width cv.
Proof.
  revert x cv. induction n as [|n IH]; intros x cv; simpl; [reflexivity |].
  rewrite IH. reflexivity.
Qed.

Lemma dispatch_width command st :
  width (_canvas (dispatch command st)) = width (_canvas st).
Proof.
  destruct command; simpl; unfold scroll_if_below; simpl;
    repeat case_match; simpl; try reflexivity.
  apply sweep_width.
Qed.

Lemma sweep_in_row n x params y pen cv :
  0 <= x -> x + Z.of_nat n <= width cv ->
  forallb (call_in_row (width cv)) (printed cv) = true ->
  forallb (call_in_row (width cv))
    (printed (delete_chars_sweep n x params y pen cv)) = true.
Proof.
  revert x cv. induction n as [|n IH]; intros x cv Hx Hn Hcv; simpl; [exact Hcv |].
  set (cv' := Canvas.print_at cv _ x y _ _ _).
  change (width cv) with (width cv').
  apply IH; subst cv'; simpl; try lia.
  rewrite Hcv, andb_true_r. unfold call_in_row; simpl.
  in_row_goal; rewrite ?PyStrFacts.len_chr; lia.
Qed.

Lemma dispatch_in_row command st :
  well_placed st command = true ->
  writes_in_row st = true ->
  writes_in_row (dispatch command st) = true.
Proof.
  unfold writes_in_row. intros Hwp Hin.
  rewrite dispatch_width.
  destruct command; simpl in *; unfold scroll_if_below, cursor_on_row in *; simpl;
    repeat case_match; simpl; try exact Hin;
    try (split_guard Hwp;
         repeat match goal with
                | E : (_ <=? _) = true |- _ => apply Z.leb_le in E
                | E : (_ <=? _) = false |- _ => apply Z.leb_gt in E
                end;
         rewrite Hin, ?andb_true_r; unfold call_in_row; simpl;
         rewrite ?PyStrFacts.len_slice_to, ?PyStrFacts.len_slice_from,
           ?PyStrFacts.len_spaces by lia;
         in_row_goal; lia).
  (* DELETE_CHARS *)
  split_guard Hwp. apply sweep_in_row; [lia | lia | exact Hin].
Qed.

Lemma run_commands_in_row commands st :
  guarded commands st = true ->
  writes_in_row st = true ->
  writes_in_row (run_commands commands st) = true.
Proof.
  revert st. induction commands as [|command rest IH]; intros st Hg Hin; simpl in *.
  - exact Hin.
  - apply andb_true_iff in Hg as [Hwp Hg].
    apply IH; [exact Hg |]. now apply dispatch_in_row.
Qed.

Lemma next_row_in_row st :
  writes_in_row st = true -> writes_in_row (next_row st) = true.
Proof.
  unfold writes_in_row, next_row, scroll_if_below. simpl.
  case_match; simpl; auto.
Qed.

End DispatchFacts.

Section DispatchClaims.
Context {P L : Type} `{!Parser P}.
Implicit Type st : AbstractScreenPlayer P L.

(** C1 (as amended).  The player does not clamp the cursor column.  What
    holds is an invariant under a guard: if every write the canvas received
    stayed inside columns [0 .. width-1] so far, and every writing command
    of the text ([DISPLAY_TEXT], [DELETE_LINE], [DELETE_CHARS]) is dispatched
    while the cursor column lies in [0 .. width] (for [DISPLAY_TEXT], with
    a text that overflows the row by at most one row), then every write made
    by [_play_content] stays inside columns [0 .. width-1] as well. *)
Theorem C1_writes_stay_in_row (text : string) st :
  lines_guarded (PyStr.split_lines text) st = true ->
  writes_in_row st = true ->
  writes_in_row (_play_content text st) = true.
Proof.
  unfold _play_content. generalize (PyStr.split_lines text) as lines.
  intros lines. revert st.
  induction lines as [|line rest IH]; intros st Hg Hin; [exact Hin |].
  simpl in Hg. apply andb_true_iff in Hg as [Hline Hrest].
  assert (Hfed : writes_in_row (feed_line line st) = true).
  { unfold feed_line. apply run_commands_in_row; [exact Hline | exact Hin]. }
  simpl. destruct rest as [|line' rest']; [exact Hfed |].
  apply IH; [exact Hrest |]. now apply next_row_in_row.
Qed.

(** C2 (as amended).  A [DISPLAY_TEXT] whose text ends strictly before the
    end of the row ([cursor_x + len(text) < width]) is written in one piece
    at the cursor; afterwards [cursor_x] has advanced by [len(text)],
    [cursor_y] and the viewport are unchanged: no wrap. *)
Theorem C2_text_that_fits (text : string) st :
  _cursor_x st + PyStr.len text < width (_canvas st) ->
  let st' := dispatch (DISPLAY_TEXT text) st in
  _cursor_x st' = _cursor_x st + PyStr.len text /\
  _cursor_y st' = _cursor_y st /\
  start_line (_canvas st') = start_line (_canvas st) /\
  printed (_canvas st') =
    mkCall text (_cursor_x st) (_cursor_y st)
      (_current_colours st).1.1 (_current_colours st).1.2 (_current_colours st).2
    :: printed (_canvas st).
Proof.
  intros Hfit. simpl.
  destruct (Z.leb_spec (width (_canvas st)) (_cursor_x st + PyStr.len text)) as [Hge|Hlt];
    [lia |].
  simpl. repeat split.
Qed.

(** C3.  A [DISPLAY_TEXT] that overflows the row
    ([cursor_x + len(text) > width]) is split at index [width - cursor_x]:
    the slice [text[:width - cursor_x]] is written at the cursor and the
    slice [text[width - cursor_x:]] at column 0 of the next row, [cursor_y]
    grows by exactly 1, and the two parts concatenated give back the text, so
    that no character is duplicated or dropped.  When the cursor column does
    not exceed the width, the index is a position of the text and the first
    part is its first [width - cursor_x] characters. *)
Theorem C3_text_that_overflows (text : string) st :
  width (_canvas st) < _cursor_x st + PyStr.len text ->
  let k := width (_canvas st) - _cursor_x st in
  let part_1 := PyStr.slice_to text k in
  let part_2 := PyStr.slice_from text k in
  let pen := _current_colours st in
  let st' := dispatch (DISPLAY_TEXT text) st in
  (part_1 ++ part_2)%string = text /\
  printed (_canvas st') =
    mkCall part_2 0 (_cursor_y st + 1) pen.1.1 pen.1.2 pen.2
    :: mkCall part_1 (_cursor_x st) (_cursor_y st) pen.1.1 pen.1.2 pen.2
    :: printed (_canvas st) /\
  _cursor_y st' = _cursor_y st + 1 /\
  _cursor_x st' = PyStr.len part_2 /\
  (_cursor_x st <= width (_canvas st) ->
   part_1 = PyStr.take (Z.to_nat k) text /\
   part_2 = PyStr.drop (Z.to_nat k) text /\
   PyStr.len part_1 = k /\
   PyStr.len part_2 = PyStr.len text - k).
Proof.
  intros Hover k part_1 part_2 pen st'.
  split; [apply PyStrFacts.slice_partition |].
  assert (Hst' : st' = dispatch (DISPLAY_TEXT text) st) by reflexivity.
  clearbody st'. simpl in Hst'.
  destruct (Z.leb_spec (width (_canvas st)) (_cursor_x st + PyStr.len text)) as [Hge|Hlt];
    [| lia].
  fold k in Hst'. fold part_1 part_2 in Hst'.
  assert (Hcalls : printed (_canvas st') =
                   mkCall part_2 0 (_cursor_y st + 1) pen.1.1 pen.1.2 pen.2
                   :: mkCall part_1 (_cursor_x st) (_cursor_y st) pen.1.1 pen.1.2 pen.2
                   :: printed (_canvas st) /\
                   _cursor_y st' = _cursor_y st + 1 /\
                   _cursor_x st' = PyStr.len part_2).
  { subst st'. unfold scroll_if_below; simpl. case_match; simpl; repeat split. }
  destruct Hcalls as (Hcalls & Hy & Hx).
  split; [exact Hcalls |]. split; [exact Hy |]. split; [exact Hx |].
  intros Hin.
  assert (Hk : 0 <= k <= PyStr.len text) by (subst k; lia).
  subst part_1 part_2. unfold PyStr.slice_to, PyStr.slice_from.
  rewrite PyStrFacts.slice_index_inside by assumption.
  split; [reflexivity |]. split; [reflexivity |].
  unfold PyStr.len in *. rewrite PyStrFacts.length_take, PyStrFacts.length_drop; lia.
Qed.

(** C4 (as amended).  A [DISPLAY_TEXT] that wraps with an empty remainder
    writes its whole text at the cursor and nothing on the next row (the
    [print_at] call made there carries the empty string); the cursor
    nevertheless moves to column 0 of the next row, and the viewport scrolls
    by one row when that row lies below it. *)
Theorem C4_wrap_with_empty_remainder (text : string) st :
  width (_canvas st) <= _cursor_x st + PyStr.len text ->
  PyStr.slice_from text (width (_canvas st) - _cursor_x st) = "" ->
  let pen := _current_colours st in
  let st' := dispatch (DISPLAY_TEXT text) st in
  _cursor_x st' = 0 /\
  _cursor_y st' = _cursor_y st + 1 /\
  printed (_canvas st') =
    mkCall "" 0 (_cursor_y st + 1) pen.1.1 pen.1.2 pen.2
    :: mkCall text (_cursor_x st) (_cursor_y st) pen.1.1 pen.1.2 pen.2
    :: printed (_canvas st) /\
  start_line (_canvas st') =
    (if height (_canvas st) <=? _cursor_y st + 1 - start_line (_canvas st)
     then start_line (_canvas st) + 1 else start_line (_canvas st)).
Proof.
  intros Hwrap Hempty pen st'.
  assert (Hwhole : PyStr.slice_to text (width (_canvas st) - _cursor_x st) = text).
  { pose proof (PyStrFacts.slice_partition text (width (_canvas st) - _cursor_x st)) as Hp.
    rewrite Hempty in Hp. rewrite <- Hp at 2.
    symmetry. apply PyStrFacts.append_empty. }
  subst st'. simpl.
  destruct (Z.leb_spec (width (_canvas st)) (_cursor_x st + PyStr.len text)) as [Hge|Hlt];
    [| lia].
  rewrite Hempty, Hwhole. unfold scroll_if_below; simpl.
  case_match; simpl; repeat split.
Qed.

(** C9.  [SAVE_CURSOR] followed at once by [RESTORE_CURSOR] leaves
    [(cursor_x, cursor_y)] as it was.  The memory is one slot:
    [SAVE_CURSOR] stores the current position whatever was stored before, so
    after a first save, any commands, and a second save, [RESTORE_CURSOR]
    brings back the position of the second save. *)
Theorem C9_save_then_restore st (between : list Command) :
  let st1 := dispatch RESTORE_CURSOR (dispatch SAVE_CURSOR st) in
  let moved := run_commands between (dispatch SAVE_CURSOR st) in
  let st2 := dispatch RESTORE_CURSOR (dispatch SAVE_CURSOR moved) in
  (_cursor_x st1 = _cursor_x st /\ _cursor_y st1 = _cursor_y st) /\
  (_save_cursor_x (dispatch SAVE_CURSOR moved) = _cursor_x moved /\
   _save_cursor_y (dispatch SAVE_CURSOR moved) = _cursor_y moved) /\
  (_cursor_x st2 = _cursor_x moved /\ _cursor_y st2 = _cursor_y moved).
Proof. simpl. repeat split. Qed.

End DispatchClaims.

(** ** The dispatcher on concrete screens *)

Section DispatchRuns.
Import Harness.

(** C1, as stated, fails: after a move to the left of column 0 the next
    text is handed to [print_at] at column -1. *)
Lemma C1_counterexample :
  let st' := run_commands [MOVE_RELATIVE (-1) 0; DISPLAY_TEXT "a"] screen_10x2 in
  writes_in_row screen_10x2 = true /\
  printed (_canvas st') = [mkCall "a" (-1) 0 7 2 0] /\
  call_in_row (width (_canvas st')) (mkCall "a" (-1) 0 7 2 0) = false /\
  writes_in_row st' = false.
Proof. vm_compute. repeat split. Qed.

Lemma C1_witness :
  let text := "abcdefghijkl
mn" in
  lines_guarded (PyStr.split_lines text) screen_10x2 = true /\
  writes_in_row screen_10x2 = true /\
  writes_in_row (_play_content text screen_10x2) = true.
Proof.
  split; [vm_compute; reflexivity |].
  split; [vm_compute; reflexivity |].
  apply C1_writes_stay_in_row; vm_compute; reflexivity.
Defined.

(** C2, as stated, fails when the text ends exactly at the end of the row:
    five characters on an empty five-column row fit, yet the cursor ends at
    column 0 of the next row. *)
Lemma C2_counterexample :
  let st' := dispatch (DISPLAY_TEXT "hello") screen_5x2 in
  _cursor_x screen_5x2 + PyStr.len "hello" <= width (_canvas screen_5x2) /\
  _cursor_x st' = 0 /\
  _cursor_x st' <> _cursor_x screen_5x2 + PyStr.len "hello" /\
  _cursor_y st' = _cursor_y screen_5x2 + 1.
Proof. vm_compute. repeat split; discriminate. Qed.

Lemma C2_witness :
  let st' := dispatch (DISPLAY_TEXT "hello") screen_10x2 in
  _cursor_x screen_10x2 + PyStr.len "hello" < width (_canvas screen_10x2) /\
  _cursor_x st' = 5 /\ _cursor_y st' = 0.
Proof.
  split; [vm_compute; reflexivity |].
  pose proof (C2_text_that_fits "hello" screen_10x2) as Hfit.
  destruct Hfit as (Hx & Hy & _); [vm_compute; reflexivity |].
  split; [exact Hx | exact Hy].
Defined.

(** With the cursor past the end of the row the index [width - cursor_x] is
    negative and counts from the end of the text: at column 16 of a
    10-column row it is -6, and eight characters are split after the second. *)
Example negative_slice_bound :
  let st' := dispatch (DISPLAY_TEXT "abcdefgh") past_the_row in
  _cursor_x past_the_row = 16 /\
  printed (_canvas st') = [mkCall "cdefgh" 0 1 7 2 0; mkCall "ab" 16 0 7 2 0].
Proof. vm_compute. repeat split. Qed.

Lemma C3_witness :
  let st' := dispatch (DISPLAY_TEXT "defgh") at_column_3 in
  width (_canvas at_column_3) < _cursor_x at_column_3 + PyStr.len "defgh" /\
  printed (_canvas st') =
    [mkCall "fgh" 0 1 7 2 0; mkCall "de" 3 0 7 2 0; mkCall "abc" 0 0 7 2 0] /\
  _cursor_y st' = 1 /\ _cursor_x st' = 3.
Proof.
  split; [vm_compute; reflexivity |].
  pose proof (C3_text_that_overflows "defgh" at_column_3) as Hsplit.
  destruct Hsplit as (_ & Hcalls & Hy & Hx & _); [vm_compute; reflexivity |].
  split; [exact Hcalls |]. split; [exact Hy | exact Hx].
Defined.

(** C4, as stated, fails: five characters on a five-column row wrap with an
    empty remainder, and the cursor does advance to the next, blank row. *)
Lemma C4_counterexample :
  let st' := dispatch (DISPLAY_TEXT "hello") screen_5x2 in
  width (_canvas screen_5x2) <= _cursor_x screen_5x2 + PyStr.len "hello" /\
  PyStr.slice_from "hello"
    (width (_canvas screen_5x2) - _cursor_x screen_5x2) = "" /\
  _cursor_y screen_5x2 = 0 /\
  (_cursor_x st', _cursor_y st') = (0, 1).
Proof. vm_compute. repeat split; discriminate. Qed.

Lemma C4_witness :
  let st' := dispatch (DISPLAY_TEXT "hello") screen_5x2 in
  width (_canvas screen_5x2) <= _cursor_x screen_5x2 + PyStr.len "hello" /\
  PyStr.slice_from "hello"
    (width (_canvas screen_5x2) - _cursor_x screen_5x2) = "" /\
  _cursor_x st' = 0 /\ _cursor_y st' = 1 /\
  printed (_canvas st') = [mkCall "" 0 1 7 2 0; mkCall "hello" 0 0 7 2 0].
Proof.
  split; [vm_compute; discriminate |].
  split; [vm_compute; reflexivity |].
  pose proof (C4_wrap_with_empty_remainder "hello" screen_5x2) as Hwrap.
  destruct Hwrap as (Hx & Hy & Hcalls & _);
    [vm_compute; discriminate | vm_compute; reflexivity |].
  split; [exact Hx |]. split; [exact Hy | exact Hcalls].
Defined.

(** The single slot at work: save at (0,0), write, save at (3,0), move,
    restore: the cursor is back at (3,0), not at (0,0). *)
Example one_slot :
  let st := run_commands
              [SAVE_CURSOR; DISPLAY_TEXT "abc"; SAVE_CURSOR;
               MOVE_ABSOLUTE (Some 7) (Some 1); RESTORE_CURSOR] screen_10x2 in
  (_cursor_x st, _cursor_y st) = (3, 0).
Proof. reflexivity. Qed.

End DispatchRuns.

Section Frame.
Context {P L : Type} `{!Parser P}.
Implicit Type st : AbstractScreenPlayer P L.

Lemma with_driver_same st :
  with_driver (_file st) (_counter st) (_next st) (_buffer st) st = st.
Proof. destruct st; reflexivity. Qed.

Lemma dispatch_with_driver command f c n b st :
  dispatch command (with_driver f c n b st) = with_driver f c n b (dispatch command st).
Proof.
  destruct command; simpl; unfold scroll_if_below; simpl;
    repeat case_match; reflexivity.
Qed.

Lemma run_commands_with_driver commands f c n b st :
  run_commands commands (with_driver f c n b st)
  = with_driver f c n b (run_commands commands st).
Proof.
  revert st. induction commands as [|command rest IH]; intros st; simpl; [reflexivity |].
  rewrite dispatch_with_driver. apply IH.
Qed.

Lemma feed_line_with_driver line f c n b st :
  feed_line line (with_driver f c n b st) = with_driver f c n b (feed_line line st).
Proof.
  unfold feed_line. simpl.
  change (set_parser ?p (with_driver f c n b st))
    with (with_driver f c n b (set_parser p st)).
  apply run_commands_with_driver.
Qed.

Lemma next_row_with_driver f c n b st :
  next_row (with_driver f c n b st) = with_driver f c n b (next_row st).
Proof. unfold next_row, scroll_if_below; simpl. case_match; reflexivity. Qed.

Lemma play_lines_with_driver lines f c n b st :
  play_lines lines (with_driver f c n b st) = with_driver f c n b (play_lines lines st).
Proof.
  revert st. induction lines as [|line rest IH]; intros st; [reflexivity |].
  simpl. rewrite feed_line_with_driver.
  destruct rest as [|line' rest']; [reflexivity |].
  rewrite next_row_with_driver. apply IH.
Qed.

Lemma play_content_with_driver text f c n b st :
  _play_content text (with_driver f c n b st)
  = with_driver f c n b (_play_content text st).
Proof. apply play_lines_with_driver. Qed.

Lemma play_all_with_driver texts f c n b st :
  play_all texts (with_driver f c n b st) = with_driver f c n b (play_all texts st).
Proof.
  revert st. induction texts as [|text rest IH]; intros st; [reflexivity |].
  unfold play_all in *. simpl. rewrite play_content_with_driver. apply IH.
Qed.

(** The setters of the driver fields, as instances of [with_driver]. *)
Lemma set_file_driver f st :
  set_file f st = with_driver f (_counter st) (_next st) (_buffer st) st.
Proof. reflexivity. Qed.

Lemma set_counter_driver q st :
  set_counter q st = with_driver (_file st) q (_next st) (_buffer st) st.
Proof. reflexivity. Qed.

Lemma set_next_driver q st :
  set_next q st = with_driver (_file st) (_counter st) q (_buffer st) st.
Proof. reflexivity. Qed.

Lemma set_buffer_driver v st :
  set_buffer v st = with_driver (_file st) (_counter st) (_next st) v st.
Proof. reflexivity. Qed.

(** Colour changes touch neither the canvas nor the cursor. *)
Lemma colour_changes_keep_screen commands st :
  forallb is_colour_change commands = true ->
  let st' := run_commands commands st in
  _canvas st' = _canvas st /\ _cursor_x st' = _cursor_x st /\
  _cursor_y st' = _cursor_y st /\ _file st' = _file st.
Proof.
  revert st. induction commands as [|command rest IH]; intros st Hall; simpl in *.
  - repeat split.
  - apply andb_true_iff in Hall as [Hc Hrest].
    destruct command; try discriminate.
    destruct (IH (dispatch (CHANGE_COLOURS params) st) Hrest) as (H1 & H2 & H3 & H4).
    simpl in *. rewrite H1, H2, H3, H4. repeat split.
Qed.

End Frame.

(** ** The file object *)

Section ReaderFacts.
Context {L : Type}.
Implicit Type f : BufferedReader L.

Lemma unread_head f : head (unread f) = file_lines f !! file_pos f.
Proof.
  unfold unread. rewrite head_lookup, lookup_drop. f_equal. lia.
Qed.

Lemma readline_at_end f : unread f = [] -> readline f = (None, f).
Proof.
  intros Hend. unfold readline.
  rewrite <- unread_head, Hend. reflexivity.
Qed.

Lemma readline_line f l rest :
  unread f = l :: rest ->
  (readline f).1 = Some l /\
  unread (readline f).2 = rest /\
  file_pos (readline f).2 = S (file_pos f).
Proof.
  intros Hun. unfold readline.
  rewrite <- unread_head, Hun. simpl.
  repeat split. unfold unread in *. simpl.
  rewrite <- (Nat.add_1_r (file_pos f)), <- drop_drop, Hun. reflexivity.
Qed.

End ReaderFacts.

Section AsciinemaFacts.
Context {P : Type} `{!Parser P}.
Implicit Type st : AbstractScreenPlayer P (option json).

Lemma truthy_text_nonempty text : truthy (JStr text) = true -> text <> "".
Proof.
  simpl. intros Ht ->. discriminate.
Qed.

Lemma speed_up_driver md st :
  exists c, speed_up md st = with_driver (_file st) c (_next st) (_buffer st) st.
Proof.
  unfold speed_up. destruct md as [d|].
  - case_match; eexists; [reflexivity | symmetry; apply with_driver_same].
  - eexists. symmetry; apply with_driver_same.
Qed.

(** The loop walks the file: when [pending] is the list of unread lines, the
    line an iteration handles is the one [readline] returns, and the next
    iteration starts on the lines left unread. *)
Lemma read_events_walks_the_file st line rest :
  unread (_file st) = line :: rest ->
  (readline (_file st)).1 = Some line /\
  forall next c st2 played played2,
    play_buffer (set_buffer c (set_next next (set_file (readline (_file st)).2 st))) played
    = Ok (st2, played2) ->
    unread (_file st2) = rest.
Proof.
  intros Hun.
  destruct (readline_line (_file st) line rest Hun) as (Hline & Hrest & _).
  split; [exact Hline |].
  intros next c st2 played played2. unfold play_buffer.
  destruct (truthy _); [destruct (_buffer _); try discriminate |];
    intros Hrun; injection Hrun as <- _; [| exact Hrest].
  rewrite <- (with_driver_same (set_buffer _ _)), play_content_with_driver.
  exact Hrest.
Qed.

(** What the reading loop does to the screen is to play, in order, the
    texts it adds to the trace, none of which is empty. *)
Lemma read_events_trace pending md st played st' played' :
  read_events pending md st played = Ok (st', played') ->
  exists extra f c n b,
    played' = (played ++ extra)%list /\
    Forall (fun text => text <> "") extra /\
    st' = with_driver f c n b (play_all extra st).
Proof.
  revert st played.
  induction pending as [|line rest IH]; intros st played Hrun.
  - simpl in Hrun. inversion Hrun; subst.
    exists [], (_file st'), (_counter st'), (_next st'), (_buffer st').
    rewrite app_nil_r. repeat split; [constructor | symmetry; apply with_driver_same].
  - cbn [read_events] in Hrun.
    set (f0 := (readline (_file st)).2) in Hrun.
    destruct line as [value|].
    2:{ inversion Hrun; subst.
        exists [], f0, (_counter st), (_next st), (_buffer st).
        rewrite app_nil_r. repeat split; constructor. }
    destruct (unpack3 value) as [[a c]|e].
    2:{ destruct e; try discriminate. inversion Hrun; subst.
        exists [], f0, (_counter st), (_next st), (_buffer st).
        rewrite app_nil_r. repeat split; constructor. }
    destruct (as_number a) as [next|e]; [| discriminate].
    change (set_buffer c (set_next next (set_file f0 st)))
      with (with_driver f0 (_counter st) next c st) in Hrun.
    set (st1 := with_driver f0 (_counter st) next c st) in Hrun.
    destruct (negb (Qle_bool (_next st1) (_counter st1))).
    + inversion Hrun; subst.
      destruct (speed_up_driver md st1) as [c' Hc']. rewrite Hc'.
      exists [], (_file st1), c', (_next st1), (_buffer st1).
      rewrite app_nil_r. repeat split; constructor.
    + unfold play_buffer in Hrun.
      destruct (truthy (_buffer st1)) eqn:Ht.
      * simpl in Ht. change (_buffer st1) with c in Hrun.
        destruct c as [| | |text| |]; try discriminate.
        apply IH in Hrun as (extra & f & c' & n & b & Hp & Hne & Hst).
        exists (text :: extra), f, c', n, b.
        split; [rewrite Hp, <- app_assoc; reflexivity |].
        split; [constructor; [now apply truthy_text_nonempty | exact Hne] |].
        rewrite Hst. subst st1.
        rewrite play_content_with_driver, play_all_with_driver. reflexivity.
      * apply IH in Hrun as (extra & f & c' & n & b & Hp & Hne & Hst).
        exists extra, f, c', n, b. repeat split; try assumption.
        rewrite Hst. subst st1. rewrite play_all_with_driver. reflexivity.
Qed.

Lemma flush_buffer_trace st st' played :
  flush_buffer st = Ok (st', played) ->
  Forall (fun text => text <> "") played /\
  exists b, st' = with_driver (_file st) (_counter st) (_next st) b (play_all played st).
Proof.
  unfold flush_buffer. destruct (truthy (_buffer st)) eqn:Ht.
  - destruct (_buffer st) as [| | |text| |] eqn:Hb; try discriminate.
    intros Hrun; inversion Hrun; subst.
    split; [constructor; [now apply truthy_text_nonempty | constructor] |].
    exists JNull. unfold play_all; simpl.
    rewrite <- (with_driver_same st) at 1.
    rewrite play_content_with_driver. reflexivity.
  - intros Hrun; inversion Hrun; subst.
    split; [constructor |]. exists (_buffer st'). symmetry; apply with_driver_same.
Qed.

(** The whole tick: the screen after it is the screen before it with the
    played texts applied in order. *)
Lemma render_now_trace (pl pl' : AsciinemaPlayer P) played :
  Asciinema_render_now pl = Ok (pl', played) ->
  Forall (fun text => text <> "") played /\
  exists f c n b, asc_base pl' = with_driver f c n b (play_all played (asc_base pl)).
Proof.
  unfold Asciinema_render_now.
  set (st := set_counter _ (asc_base pl)).
  assert (Hst : st = with_driver (_file (asc_base pl)) (_counter st)
                       (_next (asc_base pl)) (_buffer (asc_base pl)) (asc_base pl))
    by reflexivity.
  destruct (Qle_bool (_next st) (_counter st)).
  - destruct (flush_buffer st) as [[st1 played1]|e] eqn:Hflush; [| discriminate].
    destruct (read_events _ _ st1 played1) as [[st2 played2]|e] eqn:Hread; [| discriminate].
    intros Hrun; inversion Hrun; subst pl' played; clear Hrun.
    apply flush_buffer_trace in Hflush as (Hne1 & b1 & Hst1).
    apply read_events_trace in Hread as (extra & f & c & n & b & Hp & Hne & Hst2).
    subst played2. split; [apply Forall_app; split; assumption |].
    exists f, c, n, b. simpl. rewrite Hst2, Hst1.
    rewrite play_all_with_driver.
    assert (Hplayed : play_all played1 st
                      = with_driver (_file st) (_counter st) (_next st) (_buffer st)
                          (play_all played1 (asc_base pl))).
    { unfold st. rewrite set_counter_driver, play_all_with_driver. reflexivity. }
    rewrite Hplayed, play_all_with_driver.
    unfold play_all at 3. rewrite fold_left_app. reflexivity.
  - intros Hrun; inversion Hrun; subst. split; [constructor |].
    exists (_file (asc_base pl)), (_counter st), (_next (asc_base pl)),
      (_buffer (asc_base pl)). reflexivity.
Qed.

End AsciinemaFacts.

Section AsciinemaClaims.
Context {P : Type} `{!Parser P}.
Implicit Type st : AbstractScreenPlayer P (option json).

(** C5.  When the header line decodes to a JSON object whose [version] field
    is different from 2, the constructor raises [RuntimeError] (no player
    exists, so no frame is ever produced); and whenever the constructor
    returns a player, the header had a numeric [version] field equal to 2. *)
Theorem C5_version_is_checked_at_construction `{!ScreenConstants}
    (f : BufferedReader (option json)) (h w : option Z) (max_delay : option Q) :
  (forall header version,
      (readline f).1 = Some (Some header) ->
      subscript header "version" = Ok version ->
      py_ne_2 version = true ->
      AsciinemaPlayer_init (P:=P) f h w max_delay
      = Raise (RuntimeError "Unsupported file format")) /\
  (forall pl : AsciinemaPlayer P,
      AsciinemaPlayer_init f h w max_delay = Ok pl ->
      exists header q,
        (readline f).1 = Some (Some header) /\
        subscript header "version" = Ok (JNum q) /\
        (q == 2)%Q).
Proof.
  split.
  - intros header version Hline Hversion Hne.
    unfold AsciinemaPlayer_init. rewrite Hline. simpl.
    rewrite Hversion, Hne. reflexivity.
  - intros pl Hinit. unfold AsciinemaPlayer_init in Hinit.
    destruct (readline f).1 as [[header|]|] eqn:Hline; simpl in Hinit; try discriminate.
    destruct (subscript header "version") as [version|e] eqn:Hversion; [| discriminate].
    destruct (py_ne_2 version) eqn:Hne; [discriminate |].
    destruct version as [| |q| | |]; try discriminate.
    exists header, q. repeat split; try assumption.
    simpl in Hne. apply negb_false_iff in Hne. now apply Qeq_bool_iff.
Qed.

Lemma play_content_driver text st :
  _play_content text st
  = with_driver (_file st) (_counter st) (_next st) (_buffer st) (_play_content text st).
Proof.
  rewrite <- (with_driver_same st) at 1.
  rewrite play_content_with_driver. reflexivity.
Qed.

Lemma flush_buffer_text st :
  buffer_is_text st ->
  exists st1 played,
    flush_buffer st = Ok (st1, played) /\
    truthy (_buffer st1) = false /\
    _file st1 = _file st /\ _counter st1 = _counter st /\ _next st1 = _next st.
Proof.
  intros Hbuf. unfold flush_buffer.
  destruct (truthy (_buffer st)) eqn:Ht.
  - destruct Hbuf as [Hb | [text Hb]]; rewrite Hb in *; [discriminate |].
    eexists _, _. split; [reflexivity |].
    rewrite play_content_driver. repeat split.
  - eexists _, _. split; [reflexivity |]. repeat split. exact Ht.
Qed.

(** A tick on an exhausted file with nothing buffered only moves the clock. *)
Lemma quiet_tick (pl : AsciinemaPlayer P) :
  unread (_file (asc_base pl)) = [] ->
  truthy (_buffer (asc_base pl)) = false ->
  Asciinema_render_now pl
  = Ok (mkAsciinema (set_counter (_counter (asc_base pl) + quantum)%Q (asc_base pl))
          (_max_delay pl), []).
Proof.
  intros Hend Hbuf. unfold Asciinema_render_now.
  set (st := set_counter _ (asc_base pl)).
  destruct (Qle_bool (_next st) (_counter st)); [| reflexivity].
  unfold flush_buffer.
  change (_buffer st) with (_buffer (asc_base pl)). rewrite Hbuf.
  change (_file st) with (_file (asc_base pl)). rewrite Hend. reflexivity.
Qed.

Lemma quiet_ticks n (pl : AsciinemaPlayer P) :
  unread (_file (asc_base pl)) = [] ->
  truthy (_buffer (asc_base pl)) = false ->
  exists pl_n,
    Asciinema_ticks n pl = Ok pl_n /\
    asc_base pl_n
    = set_counter (clock_after n (_counter (asc_base pl))) (asc_base pl) /\
    _max_delay pl_n = _max_delay pl.
Proof.
  revert pl. induction n as [|n IH]; intros pl Hend Hbuf.
  - exists pl. split; [reflexivity |]. split; [| reflexivity].
    destruct (asc_base pl); reflexivity.
  - simpl. rewrite quiet_tick by assumption.
    destruct (IH (mkAsciinema (set_counter (_counter (asc_base pl) + quantum)%Q
                                 (asc_base pl)) (_max_delay pl)))
      as (pl_n & Hticks & Hbase & Hdelay); [exact Hend | exact Hbuf |].
    exists pl_n. split; [exact Hticks |]. split; [| exact Hdelay].
    rewrite Hbase. reflexivity.
Qed.

(** Once the clock has reached a timestamp it stays there: [+= 0.05] does not
    turn the clock back. *)
Lemma still_due (next clock : Q) :
  Qle_bool next clock = true -> Qle_bool next (clock + quantum) = true.
Proof.
  rewrite !Qle_bool_iff. unfold quantum. lra.
Qed.

(** A due event with a text is played by the loop before anything else. *)
Lemma read_events_plays_a_due_event (max_delay : option Q) st
    (ts : Q) (channel text : string) (rest : list (option json))
    st' (played' : list string) :
  Qle_bool ts (_counter st) = true ->
  text <> "" ->
  read_events (record (ts, channel, text) :: rest) max_delay st [] = Ok (st', played') ->
  exists more, played' = text :: more.
Proof.
  intros Hdue Htext. cbn [read_events record unpack3 as_number fst snd].
  set (st1 := set_buffer _ _).
  change (_next st1) with ts. change (_counter st1) with (_counter st).
  rewrite Hdue. cbn [negb]. unfold play_buffer.
  change (_buffer st1) with (JStr text). cbn [truthy].
  apply String.eqb_neq in Htext. rewrite Htext. cbn [negb].
  intros Hrun. apply read_events_trace in Hrun as (extra & _ & _ & _ & _ & -> & _).
  now exists extra.
Qed.

(** C6 (as amended).  Take a tick that reaches the reading loop (the clock,
    advanced by 0.05, has reached the next timestamp) and whose first read
    fails: the file is exhausted, or the line is one on which [json.loads]
    raises [ValueError].  The tick returns normally.  It plays the buffered
    text, if there is one, and nothing else; it consumes the failed line, if
    any, and reads no further; the clock has advanced by 0.05 and the next
    timestamp is as before; nothing is left in the buffer.  If the file was
    exhausted, every later tick returns normally and changes nothing but the
    clock, which goes on advancing by 0.05 a tick: canvas, cursor, file and
    buffer stay as they are.  If the line was malformed, the next tick
    reaches the reading loop again and starts reading at the line that
    follows it; when that line is a due event with a text, the text is
    played. *)
Theorem C6_failed_read_ends_the_tick (pl : AsciinemaPlayer P) :
  let st := asc_base pl in
  let now := (_counter st + quantum)%Q in
  buffer_is_text st ->
  Qle_bool (_next st) now = true ->
  (head (unread (_file st)) = None \/ head (unread (_file st)) = Some None) ->
  exists pl' played,
    Asciinema_render_now pl = Ok (pl', played) /\
    played = match _buffer st with
             | JStr text => if String.eqb text "" then [] else [text]
             | _ => []
             end /\
    asc_base pl'
    = with_driver (readline (_file st)).2 now (_next st)
        (if truthy (_buffer st) then JNull else _buffer st) (play_all played st) /\
    _max_delay pl' = _max_delay pl /\
    unread (_file (asc_base pl')) = tail (unread (_file st)) /\
    truthy (_buffer (asc_base pl')) = false /\
    (unread (_file st) = [] ->
     forall n, exists pl_n,
         Asciinema_ticks n pl' = Ok pl_n /\
         asc_base pl_n = set_counter (clock_after n now) (asc_base pl')) /\
    (forall rest,
        unread (_file st) = None :: rest ->
        Asciinema_render_now pl'
        = match read_events rest (_max_delay pl)
                  (set_counter (now + quantum)%Q (asc_base pl')) [] with
          | Ok (st2, played2) => Ok (mkAsciinema st2 (_max_delay pl), played2)
          | Raise e => Raise e
          end /\
        forall ts channel text rest' pl2 played2,
          rest = record (ts, channel, text) :: rest' ->
          Qle_bool ts (now + quantum) = true ->
          text <> "" ->
          Asciinema_render_now pl' = Ok (pl2, played2) ->
          exists more, played2 = text :: more).
Proof.
  intros st now Hbuf Hdue Hfail.
  set (played := match _buffer st with
                 | JStr text => if String.eqb text "" then [] else [text]
                 | _ => []
                 end).
  set (st2 := with_driver (readline (_file st)).2 now (_next st)
                (if truthy (_buffer st) then JNull else _buffer st) (play_all played st)).
  assert (Hread : (readline (_file st)).1 = None \/ (readline (_file st)).1 = Some None).
  { rewrite unread_head in Hfail. unfold readline.
    destruct (file_lines (_file st) !! file_pos (_file st)) as [l|]; simpl in *;
      [right | left; reflexivity].
    destruct Hfail as [Hfail | Hfail]; [discriminate | exact Hfail]. }
  assert (Htail : unread (readline (_file st)).2 = tail (unread (_file st))).
  { destruct (unread (_file st)) as [|l rest] eqn:Hun.
    - now rewrite (readline_at_end _ Hun).
    - now destruct (readline_line (_file st) l rest Hun) as (_ & -> & _). }
  assert (Hquiet : truthy (_buffer st2) = false).
  { subst st2. cbn [with_driver _buffer]. now destruct (truthy (_buffer st)) eqn:Ht. }
  assert (Hrun : Asciinema_render_now pl = Ok (mkAsciinema st2 (_max_delay pl), played)).
  { unfold Asciinema_render_now. fold st.
    set (st0 := set_counter (_counter st + quantum)%Q st).
    change (_next st0) with (_next st). change (_counter st0) with now.
    rewrite Hdue. unfold flush_buffer. change (_buffer st0) with (_buffer st).
    subst st2 played.
    destruct Hbuf as [Hb | [text Hb]]; rewrite Hb; cbn [truthy].
    - change (_file st0) with (_file st).
      destruct (unread (_file st)) as [|l rest] eqn:Hun.
      + cbn [read_events]. rewrite (readline_at_end _ Hun).
        unfold play_all; simpl. rewrite <- Hb. destruct st; reflexivity.
      + destruct Hfail as [Hfail | Hfail]; [discriminate |].
        injection Hfail as ->. cbn [read_events].
        unfold play_all; simpl. rewrite <- Hb. destruct st; reflexivity.
    - destruct (String.eqb text "") eqn:Hempty; cbn [negb].
      + change (_file st0) with (_file st).
        destruct (unread (_file st)) as [|l rest] eqn:Hun.
        * cbn [read_events]. rewrite (readline_at_end _ Hun).
          unfold play_all; simpl. rewrite <- Hb. destruct st; reflexivity.
        * destruct Hfail as [Hfail | Hfail]; [discriminate |].
          injection Hfail as ->. cbn [read_events].
          unfold play_all; simpl. rewrite <- Hb. destruct st; reflexivity.
      + assert (Hfile : _file (set_buffer JNull (_play_content text st0)) = _file st).
        { cbn [set_buffer _file]. rewrite play_content_driver. reflexivity. }
        rewrite Hfile.
        assert (Hplay : _play_content text st0
                        = with_driver (_file st) now (_next st) (JStr text)
                            (_play_content text st)).
        { subst st0. rewrite set_counter_driver, play_content_with_driver.
          rewrite Hb. reflexivity. }
        destruct (unread (_file st)) as [|l rest] eqn:Hun.
        * cbn [read_events]. rewrite (readline_at_end _ Hun).
          rewrite Hplay. reflexivity.
        * destruct Hfail as [Hfail | Hfail]; [discriminate |].
          injection Hfail as ->. cbn [read_events].
          rewrite Hfile, Hplay. reflexivity. }
  exists (mkAsciinema st2 (_max_delay pl)), played.
  split; [exact Hrun |]. split; [reflexivity |]. split; [reflexivity |].
  split; [reflexivity |]. cbn [asc_base _max_delay].
  split; [exact Htail |]. split; [exact Hquiet |]. split.
  - intros Hend n.
    destruct (quiet_ticks n (mkAsciinema st2 (_max_delay pl)))
      as (pl_n & Hticks & Hbase & _).
    + cbn [asc_base]. change (_file st2) with (readline (_file st)).2.
      rewrite Htail, Hend. reflexivity.
    + exact Hquiet.
    + exists pl_n. split; [exact Hticks | exact Hbase].
  - intros rest Hun.
    assert (Hrest : unread (_file st2) = rest).
    { change (_file st2) with (readline (_file st)).2. rewrite Htail, Hun. reflexivity. }
    assert (Hnext : Asciinema_render_now (mkAsciinema st2 (_max_delay pl))
                    = match read_events rest (_max_delay pl)
                              (set_counter (now + quantum)%Q st2) [] with
                      | Ok (st3, played3) => Ok (mkAsciinema st3 (_max_delay pl), played3)
                      | Raise e => Raise e
                      end).
    { unfold Asciinema_render_now. cbn [asc_base _max_delay].
      change (_counter st2) with now.
      set (st3 := set_counter (now + quantum)%Q st2).
      change (_next st3) with (_next st). change (_counter st3) with (now + quantum)%Q.
      rewrite (still_due _ _ Hdue). unfold flush_buffer.
      change (_buffer st3) with (_buffer st2). rewrite Hquiet.
      change (_file st3) with (_file st2). rewrite Hrest. reflexivity. }
    split; [exact Hnext |].
    intros ts channel text rest' pl2 played2 -> Hts Htext Hrun2.
    rewrite Hnext in Hrun2.
    destruct (read_events _ _ _ _) as [[st3 played3]|e] eqn:Hloop; [| discriminate].
    injection Hrun2 as _ <-.
    exact (read_events_plays_a_due_event (_max_delay pl)
             (set_counter (now + quantum)%Q st2) ts channel text rest' st3 played3
             Hts Htext Hloop).
Qed.

End AsciinemaClaims.

Section AsciinemaDelay.
Context {P : Type} `{!Parser P}.
Implicit Type st : AbstractScreenPlayer P (option json).

Lemma speed_up_keeps_all_but_clock md st :
  set_counter (_counter st) (speed_up md st) = st.
Proof.
  unfold speed_up. destruct md as [d|]; [case_match |]; destruct st; reflexivity.
Qed.

(** The reading loop with and without [max_delay]: the same texts are played
    in the same order and the same lines are read; only the clock differs. *)
Lemma read_events_same_but_clock pending md st played :
  match read_events pending md st played, read_events pending None st played with
  | Ok (s1, p1), Ok (s2, p2) => p1 = p2 /\ set_counter (_counter s2) s1 = s2
  | Raise e1, Raise e2 => e1 = e2
  | _, _ => False
  end.
Proof.
  revert st played. induction pending as [|line rest IH]; intros st played.
  - simpl. split; [reflexivity |]. destruct st; reflexivity.
  - cbn [read_events].
    set (f0 := (readline (_file st)).2).
    destruct line as [value|];
      [| split; [reflexivity | reflexivity]].
    destruct (unpack3 value) as [[a c]|e];
      [| destruct e; try reflexivity; split; reflexivity].
    destruct (as_number a) as [next|e]; [| reflexivity].
    set (st1 := set_buffer c (set_next next (set_file f0 st))).
    destruct (negb (Qle_bool (_next st1) (_counter st1))).
    + split; [reflexivity |]. apply speed_up_keeps_all_but_clock.
    + destruct (play_buffer st1 played) as [[st2 played2]|e]; [apply IH | reflexivity].
Qed.

Lemma render_now_same_but_clock (pl : AsciinemaPlayer P) :
  same_but_clock (Asciinema_render_now pl) (Asciinema_render_now (without_delay pl)).
Proof.
  unfold same_but_clock, Asciinema_render_now, without_delay.
  cbn [asc_base _max_delay].
  set (st := set_counter _ (asc_base pl)).
  destruct (Qle_bool (_next st) (_counter st)).
  - destruct (flush_buffer st) as [[st1 played1]|e]; [| simpl; reflexivity].
    pose proof (read_events_same_but_clock (unread (_file st1)) (_max_delay pl) st1 played1)
      as Hsame.
    destruct (read_events (unread (_file st1)) (_max_delay pl) st1 played1)
      as [[s1 p1]|e1];
      destruct (read_events (unread (_file st1)) None st1 played1) as [[s2 p2]|e2];
      simpl; exact Hsame.
  - simpl. split; reflexivity.
Qed.

(** C10.  An empty payload is never handed to [_play_content].  On every
    tick the texts played are non-empty and the screen after the tick is the
    screen before it with exactly those texts played; a buffered empty
    payload is skipped by the flush; a decoded event with an empty payload
    sets the next timestamp and the buffer, and is then either left waiting
    (not due) or passed over (due) without a call to [_play_content]. *)
Theorem C10_empty_payload_is_never_played (pl : AsciinemaPlayer P)
    st (ts : Q) (channel : json) (rest : list (option json))
    (max_delay : option Q) (played0 : list string) :
  (forall pl' played,
      Asciinema_render_now pl = Ok (pl', played) ->
      Forall (fun text => text <> "") played /\
      exists f clock next buffer,
        asc_base pl' = with_driver f clock next buffer (play_all played (asc_base pl))) /\
  (_buffer st = JStr "" -> flush_buffer st = Ok (st, [])) /\
  (let st1 := set_buffer (JStr "")
                (set_next ts (set_file (readline (_file st)).2 st)) in
   read_events (Some (JArr [JNum ts; channel; JStr ""]) :: rest) max_delay st played0
   = if negb (Qle_bool ts (_counter st))
     then Ok (speed_up max_delay st1, played0)
     else read_events rest max_delay st1 played0).
Proof.
  split; [| split].
  - intros pl' played Hrun. now apply render_now_trace.
  - intros Hb. unfold flush_buffer. rewrite Hb. reflexivity.
  - reflexivity.
Qed.

End AsciinemaDelay.

(** ** The asciinema driver on concrete recordings *)

Section AsciinemaRuns.
Import Harness.

Lemma C5_witness :
  let old := mkReader [Some (header 1); event 0.1 "hi"] 0 in
  let new := mkReader [Some (header 2); event 0.1 "hi"] 0 in
  AsciinemaPlayer_init (P:=Colours) old None None None
  = Raise (RuntimeError "Unsupported file format") /\
  (exists pl : AsciinemaPlayer Colours,
      AsciinemaPlayer_init new None None None = Ok pl) /\
  exists hd q, (readline new).1 = Some (Some hd) /\
               subscript hd "version" = Ok (JNum q) /\ (q == 2)%Q.
Proof.
  intros old new. split; [| split].
  - apply (proj1 (C5_version_is_checked_at_construction old None None None)
             (header 1) (JNum 1)); vm_compute; reflexivity.
  - eexists. vm_compute. reflexivity.
  - apply (proj2 (C5_version_is_checked_at_construction new None None None)
             (mkAsciinema (AbstractScreenPlayer_init new 2 10) None)).
    vm_compute. reflexivity.
Defined.

(** C6, as stated, fails: the next record is malformed and a well-formed,
    due event follows it.  The tick that meets the malformed line returns
    normally, but the next tick reads on, plays the event and writes to the
    canvas, and the clock has kept advancing. *)
Lemma C6_counterexample :
  let pl := playing [None; event 0.01 "hi"] None in
  head (unread (_file (asc_base pl))) = Some None /\
  match Asciinema_render_now pl with
  | Ok (pl1, played1) =>
      played1 = [] /\
      printed (_canvas (asc_base pl1)) = [] /\
      match Asciinema_render_now pl1 with
      | Ok (pl2, played2) =>
          played2 = ["hi"] /\
          printed (_canvas (asc_base pl2))
          = [mkCall "i" 1 0 7 2 0; mkCall "h" 0 0 7 2 0] /\
          (_counter (asc_base pl1) < _counter (asc_base pl2))%Q
      | Raise _ => False
      end
  | Raise _ => False
  end.
Proof. vm_compute. repeat split. Qed.

Lemma C6_witness :
  let lines := [event 0.06 "hi"; None; event 0.07 "yo"] in
  let pl := mkAsciinema
              (with_driver (mkReader lines 1) 0.05 0.06 (JStr "hi") screen_asc) None in
  Asciinema_render_now (playing lines None) = Ok (pl, []) /\
  (exists pl',
      Asciinema_render_now pl = Ok (pl', ["hi"]) /\
      unread (_file (asc_base pl')) = [event 0.07 "yo"] /\
      forall pl2 played2,
        Asciinema_render_now pl' = Ok (pl2, played2) ->
        exists more, played2 = "yo" :: more) /\
  (exists pl',
      Asciinema_render_now (playing [] None) = Ok (pl', []) /\
      forall n, exists pl_n,
          Asciinema_ticks n pl' = Ok pl_n /\
          asc_base pl_n = set_counter (clock_after n (0 + quantum)%Q) (asc_base pl')).
Proof.
  intros lines pl. split; [vm_compute; reflexivity |]. split.
  - destruct (C6_failed_read_ends_the_tick pl)
      as (pl' & played & Hrun & Hplayed & _ & _ & Hun & _ & _ & Hnext).
    + right. exists "hi". reflexivity.
    + vm_compute. reflexivity.
    + right. reflexivity.
    + exists pl'. split; [rewrite Hrun, Hplayed; reflexivity |].
      split; [exact Hun |]. intros pl2 played2 Hrun2.
      destruct (Hnext [event 0.07 "yo"] eq_refl) as [_ Hplays].
      apply (Hplays 0.07%Q "o" "yo" [] pl2 played2);
        [reflexivity | vm_compute; reflexivity | discriminate | exact Hrun2].
  - destruct (C6_failed_read_ends_the_tick (playing [] None))
      as (pl' & played & Hrun & Hplayed & _ & _ & _ & _ & Hquiet & _).
    + left. reflexivity.
    + vm_compute. reflexivity.
    + left. reflexivity.
    + exists pl'. split; [rewrite Hrun, Hplayed; reflexivity |].
      apply Hquiet. reflexivity.
Defined.

(** C7 (code bug).  The failing input: a version 2 recording whose only
    event is at 5.0, played with [max_delay = 0] for two ticks (the first
    tick reads the header line again and stops there; the second decodes the
    event).  The claim, like the docstring of the constructor ("maximum time
    interval (in secs) to wait between frame updates"), has the clock set to
    5.0 - 0 when the event is decoded, so that the text is shown by the next
    tick.  The code tests [if self._max_delay and ...], which is false for 0:
    the event is decoded and buffered, it is ahead of the clock by more than
    [max_delay], and the clock is not moved; the player is in the very state
    it is in without [max_delay], and the third tick shows nothing.  With
    [max_delay = 0.5] on the same recording the jump is made, to 5.0 - 0.5. *)
Theorem C7_zero_max_delay_is_ignored :
  let file := mkReader [Some (header 2); event 5 "x"] 0 in
  let run (n : nat) (max_delay : option Q) :=
    match AsciinemaPlayer_init (P:=Colours) file None None max_delay with
    | Ok pl => Asciinema_ticks n pl
    | Raise e => Raise e
    end in
  match run 2%nat (Some 0%Q), run 2%nat (Some 0.5%Q), run 2%nat None,
        run 3%nat (Some 0%Q) with
  | Ok zero, Ok half, Ok none, Ok later =>
      _max_delay zero = Some 0%Q /\
      _next (asc_base zero) = 5%Q /\
      _buffer (asc_base zero) = JStr "x" /\
      (0 < _next (asc_base zero) - _counter (asc_base zero))%Q /\
      ~ (_counter (asc_base zero) == 5 - 0)%Q /\
      asc_base zero = asc_base none /\
      printed (_canvas (asc_base later)) = [] /\
      (_counter (asc_base half) == 5 - 0.5)%Q
  | _, _, _, _ => False
  end.
Proof. vm_compute. repeat split; discriminate. Qed.

Lemma C10_witness :
  let pl := playing [event 0.01 ""; event 0.02 "hi"] None in
  exists pl' played,
    Asciinema_render_now pl = Ok (pl', played) /\
    Forall (fun text => text <> "") played.
Proof.
  intros pl. eexists. eexists. split.
  - vm_compute. reflexivity.
  - eapply (proj1 (C10_empty_payload_is_never_played pl (asc_base pl) 0%Q JNull [] None [])).
    vm_compute. reflexivity.
Defined.

(** The first tick of that recording passes over the empty payload and
    plays the second event only. *)
Example empty_payload_skipped :
  match Asciinema_render_now (playing [event 0.01 ""; event 0.02 "hi"] None) with
  | Ok (pl', played) =>
      played = ["hi"] /\ _next (asc_base pl') = 0.02%Q /\
      file_pos (_file (asc_base pl')) = 2%nat
  | Raise _ => False
  end.
Proof. vm_compute. repeat split. Qed.

(** After the last event was played at once, the failed read leaves its text
    in the buffer and the following tick plays it a second time. *)
Example last_payload_replayed :
  match Asciinema_ticks 1 (playing [event 0.01 "hi"] None) with
  | Ok pl1 =>
      _buffer (asc_base pl1) = JStr "hi" /\
      unread (_file (asc_base pl1)) = [] /\
      match Asciinema_render_now pl1 with
      | Ok (_, played) => played = ["hi"]
      | Raise _ => False
      end
  | Raise _ => False
  end.
Proof. vm_compute. repeat split. Qed.

(** The constructor rewinds the file, so the first tick reads the header
    line again: with five keys the unpacking fails with [ValueError] and the
    tick ends; with exactly three keys it succeeds and the comparison of a
    key with the clock raises [TypeError]. *)
Example header_is_read_again :
  match AsciinemaPlayer_init (P:=Colours)
          (mkReader [Some (header 2); event 0.1 "hi"] 0) None None None with
  | Ok pl =>
      file_pos (_file (asc_base pl)) = 0%nat /\
      match Asciinema_render_now pl with
      | Ok (pl', played) => played = [] /\ file_pos (_file (asc_base pl')) = 1%nat
      | Raise _ => False
      end
  | Raise _ => False
  end.
Proof. vm_compute. repeat split. Qed.

Example short_header_raises :
  match AsciinemaPlayer_init (P:=Colours)
          (mkReader [Some short_header; event 0.1 "hi"] 0) None None None with
  | Ok pl => Asciinema_render_now pl = Raise TypeError
  | Raise _ => False
  end.
Proof. vm_compute. reflexivity. Qed.

End AsciinemaRuns.

Section AnsiArtClaims.
Context {P : Type} `{!Parser P}.
Implicit Type st : AbstractScreenPlayer P string.

Lemma play_content_keeps_file text st : _file (_play_content text st) = _file st.
Proof.
  rewrite <- (with_driver_same st) at 1.
  rewrite play_content_with_driver. reflexivity.
Qed.

Lemma set_file_same st : set_file (_file st) st = st.
Proof. destruct st; reflexivity. Qed.

Lemma play_content_set_file text f st :
  _play_content text (set_file f st) = set_file f (_play_content text st).
Proof.
  assert (Hdriver : _play_content text st
                    = with_driver (_file st) (_counter st) (_next st) (_buffer st)
                        (_play_content text st)).
  { rewrite <- (with_driver_same st) at 1.
    rewrite play_content_with_driver. reflexivity. }
  rewrite set_file_driver, play_content_with_driver.
  rewrite Hdriver at 2. reflexivity.
Qed.

(** One iteration of the loop on a line that is there. *)
Lemma render_lines_step todo strip st l rest :
  unread (_file st) = l :: rest ->
  let st1 := _play_content (shown strip l) (set_file (readline (_file st)).2 st) in
  render_lines (S todo) strip st
  = (if String.eqb (shown strip l) "" then st1 else render_lines todo strip st1) /\
  unread (_file st1) = rest /\
  file_pos (_file st1) = S (file_pos (_file st)).
Proof.
  intros Hun st1.
  destruct (readline_line (_file st) l rest Hun) as (Hline & Hrest & Hpos).
  split.
  - cbn [render_lines]. cbv zeta. rewrite Hline. reflexivity.
  - subst st1. rewrite play_content_keeps_file. simpl. split; assumption.
Qed.

(** A tick at the end of the file plays the empty text and stops. *)
Lemma render_lines_at_end todo strip st :
  unread (_file st) = [] ->
  render_lines (S todo) strip st = feed_line "" st.
Proof.
  intros Hend. cbn [render_lines]. cbv zeta.
  rewrite (readline_at_end _ Hend).
  destruct strip; simpl; rewrite set_file_same; reflexivity.
Qed.

Lemma feed_empty_keeps_screen st :
  (forall p : P, forallb is_colour_change (map snd (parser_feed "" p).2) = true) ->
  let st' := feed_line "" st in
  _canvas st' = _canvas st /\ _cursor_x st' = _cursor_x st /\
  _cursor_y st' = _cursor_y st /\ _file st' = _file st.
Proof.
  intros Hquiet. unfold feed_line.
  apply (colour_changes_keep_screen _ (set_parser _ st)), Hquiet.
Qed.

Lemma ticks_at_end n (pl : AnsiArtPlayer P) :
  (forall p : P, forallb is_colour_change (map snd (parser_feed "" p).2) = true) ->
  (0 < _rate pl) ->
  unread (_file (ansi_base pl)) = [] ->
  let pl_n := AnsiArt_ticks n pl in
  _canvas (ansi_base pl_n) = _canvas (ansi_base pl) /\
  _cursor_x (ansi_base pl_n) = _cursor_x (ansi_base pl) /\
  _cursor_y (ansi_base pl_n) = _cursor_y (ansi_base pl) /\
  _file (ansi_base pl_n) = _file (ansi_base pl).
Proof.
  intros Hquiet. revert pl. induction n as [|n IH]; intros pl Hrate Hend; simpl.
  - repeat split.
  - assert (Htick : ansi_base (AnsiArt_render_now pl) = feed_line "" (ansi_base pl)).
    { unfold AnsiArt_render_now. cbn [ansi_base].
      destruct (Z.to_nat (_rate pl)) as [|todo] eqn:Hn; [lia |].
      now apply render_lines_at_end. }
    destruct (feed_empty_keeps_screen (ansi_base pl) Hquiet) as (Hc & Hx & Hy & Hf).
    destruct (IH (AnsiArt_render_now pl)) as (Hc' & Hx' & Hy' & Hf').
    + exact Hrate.
    + rewrite Htick, Hf. exact Hend.
    + rewrite Htick in Hc', Hx', Hy', Hf'.
      rewrite Hc', Hx', Hy', Hf'. repeat split; assumption.
Qed.

(** C8 (as amended).  With [rate = 2]: a tick that finds at least two more
    lines, the first of which is not blank as handed to the screen player,
    consumes exactly those two lines and plays them in order; a tick that
    finds a single last line, blank or not, consumes that one line; and, for
    a parser that emits nothing but colour changes on empty input, once the
    source is exhausted every tick leaves the canvas, the cursor and the file
    as they are. *)
Theorem C8_two_lines_per_tick (pl : AnsiArtPlayer P) :
  _rate pl = 2 ->
  let st := ansi_base pl in
  let strip := _strip pl in
  (forall l1 l2 rest,
      unread (_file st) = l1 :: l2 :: rest ->
      shown strip l1 <> "" ->
      let pl' := AnsiArt_render_now pl in
      unread (_file (ansi_base pl')) = rest /\
      file_pos (_file (ansi_base pl')) = (file_pos (_file st) + 2)%nat /\
      exists f,
        ansi_base pl'
        = set_file f (_play_content (shown strip l2) (_play_content (shown strip l1) st))) /\
  (forall l1,
      unread (_file st) = [l1] ->
      let pl' := AnsiArt_render_now pl in
      unread (_file (ansi_base pl')) = [] /\
      file_pos (_file (ansi_base pl')) = (file_pos (_file st) + 1)%nat) /\
  ((forall p : P, forallb is_colour_change (map snd (parser_feed "" p).2) = true) ->
   unread (_file st) = [] ->
   forall n,
     let pl_n := AnsiArt_ticks n pl in
     _canvas (ansi_base pl_n) = _canvas st /\
     _cursor_x (ansi_base pl_n) = _cursor_x st /\
     _cursor_y (ansi_base pl_n) = _cursor_y st /\
     _file (ansi_base pl_n) = _file st).
Proof.
  intros Hrate st strip. split; [| split].
  - intros l1 l2 rest Hun Hshown pl'.
    subst pl'. unfold AnsiArt_render_now. rewrite Hrate. cbn [ansi_base].
    change (Z.to_nat 2) with 2%nat. fold st strip.
    destruct (render_lines_step 1 strip st l1 (l2 :: rest) Hun) as (Hstep1 & Hun1 & Hpos1).
    rewrite Hstep1. apply String.eqb_neq in Hshown. rewrite Hshown.
    set (st1 := _play_content (shown strip l1) (set_file (readline (_file st)).2 st)) in *.
    destruct (render_lines_step 0 strip st1 l2 rest Hun1) as (Hstep2 & Hun2 & Hpos2).
    rewrite Hstep2. cbn [render_lines].
    set (st2 := _play_content (shown strip l2) (set_file (readline (_file st1)).2 st1)) in *.
    assert (Hsame : (if String.eqb (shown strip l2) "" then st2 else st2) = st2)
      by (destruct (String.eqb (shown strip l2) ""); reflexivity).
    rewrite Hsame. split; [exact Hun2 |]. split; [rewrite Hpos2, Hpos1; lia |].
    subst st2 st1. eexists.
    rewrite !play_content_set_file. reflexivity.
  - intros l1 Hun pl'.
    subst pl'. unfold AnsiArt_render_now. rewrite Hrate. cbn [ansi_base].
    change (Z.to_nat 2) with 2%nat. fold st strip.
    destruct (render_lines_step 1 strip st l1 [] Hun) as (Hstep1 & Hun1 & Hpos1).
    rewrite Hstep1.
    set (st1 := _play_content (shown strip l1) (set_file (readline (_file st)).2 st)) in *.
    destruct (String.eqb (shown strip l1) "");
      [split; [exact Hun1 | rewrite Hpos1; lia] |].
    rewrite (render_lines_at_end 0 strip st1 Hun1).
    unfold feed_line.
    change (set_parser ?p st1) with (with_driver (_file st1) (_counter st1) (_next st1)
                                       (_buffer st1) (set_parser p st1)).
    rewrite run_commands_with_driver. simpl.
    split; [exact Hun1 | rewrite Hpos1; lia].
  - intros Hquiet Hend n. apply ticks_at_end; [exact Hquiet | lia | exact Hend].
Qed.

End AnsiArtClaims.

(** ** The ANSI art driver on concrete files *)

Section AnsiArtRuns.
Import Harness.

(** C8, as stated, fails: the source still has a line, the last one, and
    the tick consumes one line, not two. *)
Lemma C8_counterexample :
  let pl := art ["abc" ++ line_feed] false in
  _rate pl = 2 /\
  unread (_file (ansi_base pl)) = ["abc" ++ line_feed] /\
  file_pos (_file (ansi_base pl)) = 0%nat /\
  file_pos (_file (ansi_base (AnsiArt_render_now pl))) = 1%nat.
Proof. vm_compute. repeat split. Qed.

Lemma control_parser_quiet (p : Colours) :
  forallb is_colour_change (map snd (parser_feed "" p).2) = true.
Proof. reflexivity. Qed.

Lemma C8_witness :
  let pl := art ["ab" ++ line_feed; "cd" ++ line_feed; "ef" ++ line_feed] false in
  let pl' := AnsiArt_render_now pl in
  let last := AnsiArt_render_now pl' in
  let blank := AnsiArt_render_now (art [line_feed] true) in
  let done := AnsiArt_ticks 2 pl in
  (unread (_file (ansi_base pl')) = ["ef" ++ line_feed] /\
   file_pos (_file (ansi_base pl')) = 2%nat) /\
  (unread (_file (ansi_base last)) = [] /\
   file_pos (_file (ansi_base last)) = 3%nat) /\
  (unread (_file (ansi_base blank)) = [] /\
   file_pos (_file (ansi_base blank)) = 1%nat) /\
  (forall n, _canvas (ansi_base (AnsiArt_ticks n done)) = _canvas (ansi_base done)).
Proof.
  intros pl pl' last blank done. split; [| split; [| split]].
  - destruct (proj1 (C8_two_lines_per_tick pl eq_refl)
                ("ab" ++ line_feed) ("cd" ++ line_feed) ["ef" ++ line_feed])
      as (Hun & Hpos & _).
    + reflexivity.
    + vm_compute. discriminate.
    + split; [exact Hun | exact Hpos].
  - apply (proj1 (proj2 (C8_two_lines_per_tick pl' eq_refl)) ("ef" ++ line_feed)).
    vm_compute. reflexivity.
  - apply (proj1 (proj2 (C8_two_lines_per_tick (art [line_feed] true) eq_refl))
             line_feed).
    reflexivity.
  - intros n.
    apply (proj2 (proj2 (C8_two_lines_per_tick done eq_refl)) control_parser_quiet).
    vm_compute. reflexivity.
Defined.

(** With [strip] set, a blank line reads like the end of the file: the tick
    stops after one line although two more are waiting. *)
Example blank_line_ends_the_tick :
  let pl := art [line_feed; "ab" ++ line_feed; "cd" ++ line_feed] true in
  file_pos (_file (ansi_base (AnsiArt_render_now pl))) = 1%nat.
Proof. vm_compute. reflexivity. Qed.

End AnsiArtRuns.

(** ** More on the dispatcher *)

Section DispatchMore.
Context {P L : Type} `{!Parser P}.
Implicit Type st : AbstractScreenPlayer P L.

(** X1.  [NEXT_TAB] moves the cursor to the next tab stop: the new column is
    a multiple of 8, lies strictly to the right of the old one and at most 8
    columns away; nothing else changes.  No test against the width is made. *)
Theorem X1_next_tab_stop st :
  let st' := dispatch NEXT_TAB st in
  _cursor_x st' mod 8 = 0 /\
  _cursor_x st < _cursor_x st' <= _cursor_x st + 8 /\
  st' = set_cursor_x (_cursor_x st') st.
Proof.
  simpl. pose proof (Z.div_mod (_cursor_x st) 8 ltac:(lia)) as Hdm.
  pose proof (Z.mod_pos_bound (_cursor_x st) 8 ltac:(lia)) as Hb.
  split; [| split; [lia | reflexivity]].
  replace (_cursor_x st / 8 * 8 + 8) with ((_cursor_x st / 8 + 1) * 8) by lia.
  apply Z_mod_mult.
Qed.

Lemma dispatch_keeps_save command st :
  is_save_cursor command = false ->
  _save_cursor_x (dispatch command st) = _save_cursor_x st /\
  _save_cursor_y (dispatch command st) = _save_cursor_y st.
Proof.
  destruct command; try discriminate; intros _; simpl; unfold scroll_if_below; simpl;
    repeat case_match; simpl; split; reflexivity.
Qed.

Lemma run_commands_keep_save commands st :
  forallb (fun c => negb (is_save_cursor c)) commands = true ->
  _save_cursor_x (run_commands commands st) = _save_cursor_x st /\
  _save_cursor_y (run_commands commands st) = _save_cursor_y st.
Proof.
  revert st. induction commands as [|command rest IH]; intros st Hall; simpl in *.
  - split; reflexivity.
  - apply andb_true_iff in Hall as [Hc Hrest]. apply negb_true_iff in Hc.
    destruct (IH (dispatch command st) Hrest) as [Hx Hy].
    destruct (dispatch_keeps_save command st Hc) as [Hx' Hy'].
    split; congruence.
Qed.

(** X2.  The saved position survives every command but [SAVE_CURSOR]: after
    [SAVE_CURSOR], any commands without a further save (text, moves, erasing,
    clearing the screen, scrolling), and [RESTORE_CURSOR], the cursor is back
    at the position it had when it was saved. *)
Theorem X2_restore_after_other_commands st (commands : list Command) :
  forallb (fun c => negb (is_save_cursor c)) commands = true ->
  let st' := dispatch RESTORE_CURSOR (run_commands commands (dispatch SAVE_CURSOR st)) in
  _cursor_x st' = _cursor_x st /\ _cursor_y st' = _cursor_y st.
Proof.
  intros Hall.
  destruct (run_commands_keep_save commands (dispatch SAVE_CURSOR st) Hall) as [Hx Hy].
  simpl in *. split; assumption.
Qed.

Lemma dispatch_keeps_pen command st :
  is_colour_change command = false ->
  _current_colours (dispatch command st) = _current_colours st.
Proof.
  destruct command; try discriminate; intros _; simpl; unfold scroll_if_below; simpl;
    repeat case_match; reflexivity.
Qed.

Lemma run_commands_keep_pen commands st :
  forallb (fun c => negb (is_colour_change c)) commands = true ->
  _current_colours (run_commands commands st) = _current_colours st.
Proof.
  revert st. induction commands as [|command rest IH]; intros st Hall; simpl in *.
  - reflexivity.
  - apply andb_true_iff in Hall as [Hc Hrest]. apply negb_true_iff in Hc.
    rewrite (IH _ Hrest). now apply dispatch_keeps_pen.
Qed.

(** The calls a command other than [DELETE_CHARS] adds are made with the pen. *)
Lemma dispatch_prints_with_pen command st :
  is_delete_chars command = false ->
  exists new,
    printed (_canvas (dispatch command st)) = (new ++ printed (_canvas st))%list /\
    Forall (fun c => call_pen c = _current_colours st) new.
Proof.
  intros Hc. destruct (_current_colours st) as [[fg attr] bg] eqn:Hpen.
  destruct command; try discriminate; simpl; unfold scroll_if_below; simpl;
    repeat case_match; simpl; rewrite ?Hpen; simpl;
    first [ exists []; split; [reflexivity | constructor]
          | eexists [_]; split; [reflexivity | repeat constructor]
          | eexists [_; _]; split; [reflexivity | repeat constructor] ].
Qed.

(** X3.  A colour change applies to every later write until the next colour
    change: after [CHANGE_COLOURS pen] and any commands that are not colour
    changes, the [print_at] calls made by a further command ([DELETE_CHARS]
    apart, which copies the colours of the cells it moves) carry [pen]. *)
Theorem X3_pen_applies_until_changed st (pen : Colours)
    (commands : list Command) (last : Command) :
  forallb (fun c => negb (is_colour_change c)) commands = true ->
  is_delete_chars last = false ->
  let before := run_commands commands (dispatch (CHANGE_COLOURS pen) st) in
  exists new,
    printed (_canvas (dispatch last before)) = (new ++ printed (_canvas before))%list /\
    Forall (fun c => call_pen c = pen) new.
Proof.
  intros Hall Hlast before.
  assert (Hpen : _current_colours before = pen).
  { subst before. rewrite run_commands_keep_pen by assumption. reflexivity. }
  destruct (dispatch_prints_with_pen last before Hlast) as (new & Hnew & Hall').
  exists new. split; [exact Hnew |]. now rewrite <- Hpen.
Qed.

(** X4.  Setting commands are idempotent: dispatching [MOVE_ABSOLUTE],
    [CHANGE_COLOURS], [SHOW_CURSOR], [SAVE_CURSOR], [RESTORE_CURSOR] or
    [CLEAR_SCREEN] twice in a row leaves the player exactly as dispatching it
    once. *)
Theorem X4_setters_are_idempotent st (command : Command) :
  is_setter command = true ->
  dispatch command (dispatch command st) = dispatch command st.
Proof.
  destruct command as [| | | |x y| | | | | |]; try discriminate; intros _;
    try reflexivity.
  destruct x, y; reflexivity.
Qed.

End DispatchMore.

(** ** Erasing *)

Module EraseFacts.
Import PyStr.

Lemma replicate_space_app n m :
  (replicate_space n ++ replicate_space m)%string = replicate_space (n + m).
Proof.
  induction n as [|n IH]; [reflexivity |].
  transitivity (String " "%char (replicate_space n ++ replicate_space m)%string);
    [reflexivity |].
  simpl. now f_equal.
Qed.

Lemma spaces_app a b :
  0 <= a -> 0 <= b -> (spaces a ++ spaces b)%string = spaces (a + b).
Proof.
  intros Ha Hb. unfold spaces. rewrite replicate_space_app. f_equal. lia.
Qed.

Lemma put_text_app a b x y colour attr bg w m :
  Canvas.put_text (a ++ b)%string x y colour attr bg w m
  = Canvas.put_text b (x + len a) y colour attr bg w
      (Canvas.put_text a x y colour attr bg w m).
Proof.
  revert x m. induction a as [|c a IH]; intros x m.
  - change ("" ++ b)%string with b. simpl. f_equal. unfold len; simpl. lia.
  - change (String c a ++ b)%string with (String c (a ++ b)%string).
    simpl. rewrite IH. f_equal. unfold len; simpl String.length. lia.
Qed.

End EraseFacts.

Section Erasing.
Context {P L : Type} `{!Parser P}.
Implicit Type st : AbstractScreenPlayer P L.

(** A run of spaces is made of spaces. *)
Lemma spaces_are_spaces (n : Z) (i : nat) (c : ascii) :
  String.get i (PyStr.spaces n) = Some c -> c = " "%char.
Proof.
  unfold PyStr.spaces. generalize (Z.to_nat n) as k. intros k. revert i.
  induction k as [|k IH]; intros i; simpl; [discriminate |].
  destruct i as [|i]; [now intros [= <-] | apply IH].
Qed.

(** The cells after a run of [n] spaces was laid out from column [x] of row
    [y]: blanks on the columns of the run that lie in the grid, the old cells
    elsewhere. *)
Lemma put_spaces_lookup (n : nat) (x y colour attr bg w : Z)
    (m : gmap (Z * Z) Cell) (c y' : Z) :
  Canvas.put_text (PyStr.replicate_space n) x y colour attr bg w m !! (c, y')
  = if ((y' =? y) && (x <=? c) && (c <? x + Z.of_nat n) && (0 <=? c) && (c <? w))%bool
    then Some (PyStr.ord " "%char, colour, attr, bg)
    else m !! (c, y').
Proof.
  revert x m. induction n as [|n IH]; intros x m.
  - cbn [PyStr.replicate_space Canvas.put_text].
    destruct (Z.leb_spec x c), (Z.ltb_spec c (x + Z.of_nat 0));
      try lia; rewrite ?andb_false_r; reflexivity.
  - cbn [PyStr.replicate_space Canvas.put_text]. rewrite IH.
    destruct (Z.eqb_spec y' y) as [Hy | Hy]; cbn [andb].
    + rewrite Hy.
      destruct (Z.leb_spec (x + 1) c), (Z.leb_spec x c),
        (Z.ltb_spec c (x + 1 + Z.of_nat n)), (Z.ltb_spec c (x + Z.of_nat (S n))),
        (Z.leb_spec 0 c), (Z.ltb_spec c w),
        (Z.leb_spec 0 x), (Z.ltb_spec x w); cbn [andb]; try lia; try reflexivity;
        rewrite lookup_insert; case_decide as Hk; try reflexivity;
        try (injection Hk as Hk; lia); exfalso; apply Hk; f_equal; lia.
    + destruct ((0 <=? x) && (x <? w))%bool; [| reflexivity].
      rewrite lookup_insert. case_decide as Hk; [| reflexivity].
      injection Hk as _ Hk. now destruct Hy.
Qed.

(** X5.  [DELETE_LINE] makes one [print_at] call, of spaces only, in the
    current pen and on the cursor row: mode 0 prints [width - cursor_x]
    spaces at the cursor, mode 1 [cursor_x] spaces at column 0, mode 2
    [width] spaces at column 0 (no space at all when the count is not
    positive); any other mode changes nothing.  The cursor and the viewport
    never move.  Read back through [get_from] on a cursor row that is in the
    viewport, mode 0 leaves a blank in the pen on every column from the
    cursor on and the old cell on the columns before it, mode 1 the reverse,
    mode 2 a blank on every column; and with the cursor column in
    [0 .. width], modes 1 and 0 together leave the cells of the canvas
    exactly as mode 2 does. *)
Theorem X5_delete_line st (mode : Z) :
  let st' := dispatch (DELETE_LINE mode) st in
  let cv := _canvas st in
  let x := _cursor_x st in
  let y := _cursor_y st in
  let w := width cv in
  let pen := _current_colours st in
  let spaces (n col : Z) := mkCall (PyStr.spaces n) col y pen.1.1 pen.1.2 pen.2 in
  let blank : Cell := (PyStr.ord " "%char, pen.1.1, pen.1.2, pen.2) in
  let after (m : Z) := _canvas (dispatch (DELETE_LINE m) st) in
  (_cursor_x st' = x /\ _cursor_y st' = y /\
   start_line (_canvas st') = start_line cv) /\
  (mode <> 0 -> mode <> 1 -> mode <> 2 -> st' = st) /\
  (printed (after 0) = spaces (w - x) x :: printed cv /\
   printed (after 1) = spaces x 0 :: printed cv /\
   printed (after 2) = spaces w 0 :: printed cv) /\
  (forall n, PyStr.len (PyStr.spaces n) = Z.max 0 n /\
             forall i c, String.get i (PyStr.spaces n) = Some c -> c = " "%char) /\
  (start_line cv <= y < start_line cv + height cv ->
   forall c, 0 <= c < w ->
     Canvas.get_from (after 0) c y
     = (if x <=? c then Some blank else Canvas.get_from cv c y) /\
     Canvas.get_from (after 1) c y
     = (if c <? x then Some blank else Canvas.get_from cv c y) /\
     Canvas.get_from (after 2) c y = Some blank) /\
  (0 <= x <= w ->
   cells (_canvas (run_commands [DELETE_LINE 1; DELETE_LINE 0] st)) = cells (after 2)).
Proof.
  intros st' cv x y w pen spaces blank after. subst st' spaces after.
  split; [| split; [| split; [| split; [| split]]]].
  - simpl. repeat case_match; simpl; repeat split.
  - intros H0 H1 H2. simpl.
    destruct (Z.eqb_spec mode 0); [contradiction |].
    destruct (Z.eqb_spec mode 1); [contradiction |].
    destruct (Z.eqb_spec mode 2); [contradiction | reflexivity].
  - repeat split.
  - intros n. split; [apply PyStrFacts.len_spaces |]. apply spaces_are_spaces.
  - intros Hy c Hc. unfold Canvas.get_from. simpl. fold cv x y w pen.
    destruct (Z.leb_spec 0 c); [| lia]. destruct (Z.ltb_spec c w); [| lia].
    destruct (Z.leb_spec (start_line cv) y); [| lia].
    destruct (Z.ltb_spec y (start_line cv + height cv)); [| lia].
    cbn [andb]. unfold PyStr.spaces. rewrite !put_spaces_lookup.
    rewrite Z.eqb_refl. cbn [andb].
    destruct (Z.leb_spec 0 c); [| lia]. destruct (Z.ltb_spec c w); [| lia].
    repeat split.
    + destruct (Z.leb_spec x c); cbn [andb]; [| reflexivity].
      destruct (Z.ltb_spec c (x + Z.of_nat (Z.to_nat (w - x)))); [reflexivity | lia].
    + destruct (Z.ltb_spec c (0 + Z.of_nat (Z.to_nat x))), (Z.ltb_spec c x);
        cbn [andb]; try reflexivity; lia.
    + destruct (Z.ltb_spec c (0 + Z.of_nat (Z.to_nat w))); [reflexivity | lia].
  - intros Hx. simpl. fold cv x y w pen.
    assert (Hw : PyStr.spaces w = (PyStr.spaces x ++ PyStr.spaces (w - x))%string).
    { rewrite EraseFacts.spaces_app by lia. f_equal. lia. }
    rewrite Hw, EraseFacts.put_text_app, PyStrFacts.len_spaces.
    repeat f_equal; lia.
Qed.

Lemma sweep_frame n x params y pen cv :
  let cv' := delete_chars_sweep n x params y pen cv in
  height cv' = height cv /\ start_line cv' = start_line cv /\
  background cv' = background cv.
Proof.
  revert x cv. induction n as [|n IH]; intros x cv; [repeat split |].
  cbn [delete_chars_sweep]. cbv zeta.
  match goal with
  | |- context [delete_chars_sweep n (x + 1) params y pen ?c] =>
      destruct (IH (x + 1) c) as (Hh & Hs & Hb)
  end.
  simpl in *. repeat split; assumption.
Qed.

(** The calls of the sweep, oldest first. *)
Lemma sweep_calls n x params y pen cv :
  exists calls,
    printed (delete_chars_sweep n x params y pen cv) = (rev calls ++ printed cv)%list /\
    length calls = n /\
    forall (i : nat) call,
      calls !! i = Some call ->
      pc_x call = x + Z.of_nat i /\ pc_y call = y /\ PyStr.len (pc_text call) = 1 /\
      (width cv <= x + Z.of_nat i + params ->
       call = mkCall " " (x + Z.of_nat i) y pen.1.1 pen.1.2 pen.2).
Proof.
  revert x cv. induction n as [|n IH]; intros x cv.
  - exists []. split; [reflexivity |]. split; [reflexivity |].
    intros i call Hi. discriminate.
  - cbn [delete_chars_sweep]. cbv zeta.
    set (cell := match (if x + params <? width cv
                        then Canvas.get_from cv (x + params) y else None) with
                 | Some c => c
                 | None => (PyStr.ord " "%char, pen.1.1, pen.1.2, pen.2)
                 end).
    set (cv1 := Canvas.print_at cv (PyStr.chr cell.1.1.1) x y cell.1.1.2 cell.1.2 cell.2).
    destruct (IH (x + 1) cv1) as (calls & Hcalls & Hlen & Heach).
    exists (mkCall (PyStr.chr cell.1.1.1) x y cell.1.1.2 cell.1.2 cell.2 :: calls).
    split; [| split].
    + rewrite Hcalls. subst cv1. simpl. rewrite <- app_assoc. reflexivity.
    + simpl. now rewrite Hlen.
    + intros [|i] call Hi; simpl in Hi.
      * injection Hi as <-. simpl. rewrite Z.add_0_r.
        repeat split. intros Hout. subst cell.
        destruct (Z.ltb_spec (x + params) (width cv)) as [Hlt|Hge]; [lia |].
        reflexivity.
      * destruct (Heach i call Hi) as (Hx & Hy & Hl & Hblank).
        change (width cv1) with (width cv) in Hblank.
        repeat split; try assumption; try lia.
        intros Hout. rewrite Hblank by lia. f_equal. lia.
Qed.

(** X6.  [DELETE_CHARS] rewrites the row from the cursor to its end, one
    character per call: it makes [max(0, width - cursor_x)] calls of
    [print_at], each of a single character on the cursor row, at the columns
    [cursor_x, cursor_x + 1, ..., width - 1] in that order, and the columns
    whose source column [x + n] is at or past the width get a space in the
    current pen.  The cursor and the viewport do not move. *)
Theorem X6_delete_chars_sweep st (params : Z) :
  let st' := dispatch (DELETE_CHARS params) st in
  let pen := _current_colours st in
  (_cursor_x st' = _cursor_x st /\ _cursor_y st' = _cursor_y st /\
   start_line (_canvas st') = start_line (_canvas st)) /\
  exists calls,
    printed (_canvas st') = (rev calls ++ printed (_canvas st))%list /\
    length calls = Z.to_nat (width (_canvas st) - _cursor_x st) /\
    forall (i : nat) call,
      calls !! i = Some call ->
      pc_x call = _cursor_x st + Z.of_nat i /\
      pc_y call = _cursor_y st /\
      PyStr.len (pc_text call) = 1 /\
      (width (_canvas st) <= _cursor_x st + Z.of_nat i + params ->
       call = mkCall " " (_cursor_x st + Z.of_nat i) (_cursor_y st)
                pen.1.1 pen.1.2 pen.2).
Proof.
  intros st' pen. subst st'. simpl. split.
  - repeat split. apply sweep_frame.
  - apply sweep_calls.
Qed.

(** X7.  Where a [DISPLAY_TEXT] leaves the cursor.  It wraps at most once:
    the row grows by 0 or 1 and the viewport scrolls by 0 or 1, whatever the
    length of the text.  From a column in [0 .. width], a text that overflows
    the row by less than a full row leaves the cursor strictly inside the row
    (never at column [width]); a longer text is not wrapped again, and leaves
    the cursor at column [cursor_x + len - width], at or past the row's end. *)
Theorem X7_where_text_leaves_the_cursor st (text : string) :
  let st' := dispatch (DISPLAY_TEXT text) st in
  let x := _cursor_x st in
  let w := width (_canvas st) in
  (_cursor_y st' = _cursor_y st \/ _cursor_y st' = _cursor_y st + 1) /\
  (start_line (_canvas st') = start_line (_canvas st) \/
   start_line (_canvas st') = start_line (_canvas st) + 1) /\
  (0 <= x <= w -> x + PyStr.len text < 2 * w -> 0 <= _cursor_x st' < w) /\
  (0 <= x <= w -> 2 * w <= x + PyStr.len text ->
   _cursor_x st' = x + PyStr.len text - w /\ w <= _cursor_x st').
Proof.
  intros st' x w. subst st'. simpl. fold x w.
  pose proof (PyStrFacts.len_slice_from text (w - x)) as Hfrom.
  assert (Hlen : 0 <= PyStr.len text) by (unfold PyStr.len; lia).
  destruct (Z.leb_spec w (x + PyStr.len text)) as [Hwrap|Hfit];
    unfold scroll_if_below; simpl.
  - split; [right; case_match; reflexivity |].
    split; [case_match; simpl; [right | left]; reflexivity |].
    split; intros Hx Hl; case_match; simpl; rewrite Hfrom by lia; lia.
  - split; [left; reflexivity |]. split; [left; reflexivity |].
    split; intros Hx Hl; lia.
Qed.

End Erasing.

(** ** Invariants of the cursor *)

(** Turns boolean comparisons on [Z], in the hypotheses and in the goal, into
    propositions. *)
Ltac to_arith :=
  repeat match goal with
         | H : (_ && _)%bool = true |- _ => apply andb_true_iff in H as [? ?]
         | H : (_ <=? _) = true |- _ => apply Z.leb_le in H
         | H : (_ <=? _) = false |- _ => apply Z.leb_gt in H
         | H : (_ <? _) = true |- _ => apply Z.ltb_lt in H
         | H : (_ <? _) = false |- _ => apply Z.ltb_ge in H
         | H : (_ =? _) = true |- _ => apply Z.eqb_eq in H
         | H : (_ =? _) = false |- _ => apply Z.eqb_neq in H
         | |- (_ && _)%bool = true => apply andb_true_iff; split
         | |- (_ <=? _) = true => apply Z.leb_le
         | |- (_ <? _) = true => apply Z.ltb_lt
         end.

Section CursorInvariants.
Context {P L : Type} `{!Parser P}.
Implicit Type st : AbstractScreenPlayer P L.

Lemma dispatch_height command st :
  height (_canvas (dispatch command st)) = height (_canvas st).
Proof.
  destruct command; simpl; unfold scroll_if_below; simpl;
    repeat case_match; simpl; try reflexivity.
  apply sweep_frame.
Qed.

Lemma dispatch_in_view command st :
  0 < height (_canvas st) ->
  view_safe st command = true ->
  in_view st = true ->
  in_view (dispatch command st) = true.
Proof.
  intros Hh Hsafe Hin. unfold in_view in *.
  destruct command; simpl in *; unfold scroll_if_below; simpl;
    repeat case_match; simpl in *;
    try (destruct (sweep_frame (Z.to_nat (width (_canvas st) - _cursor_x st))
                     (_cursor_x st) params (_cursor_y st) (_current_colours st)
                     (_canvas st)) as (Hh' & Hs' & _); rewrite Hh', Hs');
    to_arith; lia.
Qed.

Lemma next_row_in_view st :
  0 < height (_canvas st) -> in_view st = true -> in_view (next_row st) = true.
Proof.
  intros Hh Hin. unfold in_view, next_row, scroll_if_below in *. simpl.
  case_match; simpl; to_arith; lia.
Qed.

Lemma run_commands_in_view commands st :
  0 < height (_canvas st) ->
  view_guarded commands st = true ->
  in_view st = true ->
  in_view (run_commands commands st) = true /\
  height (_canvas (run_commands commands st)) = height (_canvas st).
Proof.
  revert st. induction commands as [|command rest IH]; intros st Hh Hg Hin; simpl in *.
  - split; [exact Hin | reflexivity].
  - apply andb_true_iff in Hg as [Hsafe Hg].
    destruct (IH (dispatch command st)) as [Hv Hh'].
    + now rewrite dispatch_height.
    + exact Hg.
    + now apply dispatch_in_view.
    + split; [exact Hv |]. now rewrite Hh', dispatch_height.
Qed.

(** X8.  The viewport follows the cursor.  On a canvas of positive height,
    if the cursor row is in the viewport it is still there after any sequence
    of commands in which no relative move goes below the viewport, every
    absolute row lies in [0 .. height-1] and every restored row is in the
    viewport, and also after the move to the next line that follows: text that
    wraps, new lines and relative moves upwards scroll the viewport along. *)
Theorem X8_viewport_follows_the_cursor st (commands : list Command) :
  0 < height (_canvas st) ->
  view_guarded commands st = true ->
  in_view st = true ->
  in_view (run_commands commands st) = true /\
  in_view (next_row (run_commands commands st)) = true.
Proof.
  intros Hh Hg Hin.
  destruct (run_commands_in_view commands st Hh Hg Hin) as [Hv Hh'].
  split; [exact Hv |]. apply next_row_in_view; [now rewrite Hh' | exact Hv].
Qed.

Lemma dispatch_keeps_column command st :
  keeps_column (width (_canvas st)) command = true ->
  cursor_on_row st = true ->
  save_on_row st = true ->
  well_placed st command = true /\
  cursor_on_row (dispatch command st) = true /\
  save_on_row (dispatch command st) = true.
Proof.
  intros Hk Hc Hs. unfold cursor_on_row, save_on_row in *.
  rewrite !dispatch_width.
  assert (Hlen : forall s, 0 <= PyStr.len s) by (intros s; unfold PyStr.len; lia).
  destruct command as [text| | |dx dy|x y|mode|n|b| | |];
    simpl in *; unfold scroll_if_below, cursor_on_row; simpl;
    try discriminate.
  - (* DISPLAY_TEXT *)
    pose proof (Hlen text).
    pose proof (PyStrFacts.len_slice_from text (width (_canvas st) - _cursor_x st)) as Hfrom.
    to_arith.
    destruct (Z.leb_spec (width (_canvas st)) (_cursor_x st + PyStr.len text));
      [case_match |]; simpl; repeat split; to_arith; try rewrite Hfrom by lia; lia.
  - repeat split; to_arith; lia.
  - case_match; simpl; repeat split; to_arith; lia.
  - destruct x, y; simpl; repeat split; to_arith; lia.
  - repeat case_match; simpl; repeat split; to_arith; lia.
  - repeat split; to_arith; lia.
  - repeat split; to_arith; lia.
  - repeat split; to_arith; lia.
  - repeat split; to_arith; lia.
  - repeat split; to_arith; lia.
Qed.

(** X9.  Plain output never leaves the row.  From a state whose cursor column
    and saved column are in [0 .. width] and whose writes so far stayed in the
    row, a sequence of commands without [NEXT_TAB], without sideways relative
    moves, with absolute columns in [0 .. width] and texts no longer than the
    width keeps the cursor column and the saved column in [0 .. width], and
    every [print_at] call it makes stays inside columns [0 .. width-1]. *)
Theorem X9_plain_output_stays_on_the_row st (commands : list Command) :
  forallb (keeps_column (width (_canvas st))) commands = true ->
  cursor_on_row st = true ->
  save_on_row st = true ->
  writes_in_row st = true ->
  let st' := run_commands commands st in
  cursor_on_row st' = true /\ save_on_row st' = true /\ writes_in_row st' = true.
Proof.
  revert st. induction commands as [|command rest IH]; intros st Hall Hc Hs Hw; simpl in *.
  - repeat split; assumption.
  - apply andb_true_iff in Hall as [Hk Hrest].
    destruct (dispatch_keeps_column command st Hk Hc Hs) as (Hwp & Hc' & Hs').
    apply IH; try assumption.
    + now rewrite dispatch_width.
    + now apply dispatch_in_row.
Qed.

End CursorInvariants.

(** ** Feeding text in pieces *)

Module SplitFacts.
Import PyStr.

Lemma split_lines_nonempty s : split_lines s <> [].
Proof.
  destruct s as [|c s]; simpl; [discriminate |].
  destruct (Ascii.eqb c newline); [discriminate |].
  destruct (split_lines s); discriminate.
Qed.

(** [(a + "\n" + b).split("\n") == a.split("\n") + b.split("\n")] *)
Lemma split_lines_app a b :
  split_lines (a ++ String newline b)%string = (split_lines a ++ split_lines b)%list.
Proof.
  induction a as [|c a IH].
  - change ("" ++ String newline b)%string with (String newline b).
    simpl. reflexivity.
  - change (String c a ++ String newline b)%string
      with (String c (a ++ String newline b)%string).
    simpl. rewrite IH.
    destruct (Ascii.eqb c newline); [reflexivity |].
    pose proof (split_lines_nonempty a) as Hne.
    destruct (split_lines a) as [|l ls]; [contradiction | reflexivity].
Qed.

End SplitFacts.

Section Pieces.
Context {P L : Type} `{!Parser P}.
Implicit Type st : AbstractScreenPlayer P L.

Lemma play_lines_app (l1 l2 : list string) st :
  l1 <> [] -> l2 <> [] ->
  play_lines (l1 ++ l2) st = play_lines l2 (next_row (play_lines l1 st)).
Proof.
  revert st. induction l1 as [|line rest IH]; intros st H1 H2; [contradiction |].
  destruct rest as [|line' rest'].
  - destruct l2 as [|m l2']; [contradiction | reflexivity].
  - change ((line :: line' :: rest') ++ l2)%list with (line :: (line' :: rest') ++ l2)%list.
    cbn [play_lines app]. apply IH; [discriminate | exact H2].
Qed.

(** X10.  Text is played line by line: playing [a + "\n" + b] in one call
    is playing [a], moving to the next line (column 0, next row, scrolling if
    the row is below the viewport), and playing [b], whatever the parser. *)
Theorem X10_text_is_played_line_by_line (a b : string) st :
  _play_content (a ++ String PyStr.newline b)%string st
  = _play_content b (next_row (_play_content a st)).
Proof.
  unfold _play_content. rewrite SplitFacts.split_lines_app.
  apply play_lines_app; apply SplitFacts.split_lines_nonempty.
Qed.

Lemma run_commands_size commands st :
  width (_canvas (run_commands commands st)) = width (_canvas st) /\
  height (_canvas (run_commands commands st)) = height (_canvas st).
Proof.
  revert st. induction commands as [|command rest IH]; intros st; simpl.
  - split; reflexivity.
  - destruct (IH (dispatch command st)) as [Hw Hh].
    rewrite Hw, Hh, dispatch_width, dispatch_height. split; reflexivity.
Qed.

Lemma play_lines_size lines st :
  width (_canvas (play_lines lines st)) = width (_canvas st) /\
  height (_canvas (play_lines lines st)) = height (_canvas st).
Proof.
  revert st. induction lines as [|line rest IH]; intros st; [split; reflexivity |].
  assert (Hfeed : width (_canvas (feed_line line st)) = width (_canvas st) /\
                  height (_canvas (feed_line line st)) = height (_canvas st)).
  { unfold feed_line. apply (run_commands_size _ (set_parser _ st)). }
  cbn [play_lines]. destruct rest as [|line' rest']; [exact Hfeed |].
  destruct (IH (next_row (feed_line line st))) as [Hw Hh].
  rewrite Hw, Hh. unfold next_row, scroll_if_below. simpl.
  case_match; simpl; exact Hfeed.
Qed.

(** X11.  [_play_content] belongs to the screen: it neither reads nor changes
    the file, the clock, the next timestamp and the buffer (playing with other
    values in these fields gives the same player, other values apart), and it
    never changes the width or the height of the canvas. *)
Theorem X11_play_content_leaves_the_driver_alone (text : string) st
    (f : BufferedReader L) (clock next : Q) (buffer : json) :
  _play_content text (with_driver f clock next buffer st)
  = with_driver f clock next buffer (_play_content text st) /\
  (_file (_play_content text st) = _file st /\
   _counter (_play_content text st) = _counter st /\
   _next (_play_content text st) = _next st /\
   _buffer (_play_content text st) = _buffer st) /\
  width (_canvas (_play_content text st)) = width (_canvas st) /\
  height (_canvas (_play_content text st)) = height (_canvas st).
Proof.
  split; [apply play_content_with_driver |].
  split; [| apply play_lines_size].
  rewrite <- (with_driver_same st) at 1 3 5 7.
  rewrite play_content_with_driver. repeat split.
Qed.

End Pieces.

(** ** Deleting characters on the canvas *)

Section Shift.

Lemma ord_chr (z : Z) :
  0 <= z < 256 -> PyStr.ord (ascii_of_nat (Z.to_nat z)) = z.
Proof.
  intros Hz. unfold PyStr.ord. rewrite nat_ascii_embedding by lia. lia.
Qed.

Lemma print_char_cells cv (z : Z) (x y colour attr bg : Z) :
  0 <= x < width cv ->
  cells (Canvas.print_at cv (PyStr.chr z) x y colour attr bg)
  = <[(x, y) := (PyStr.ord (ascii_of_nat (Z.to_nat z)), colour, attr, bg)]> (cells cv).
Proof.
  intros Hx. simpl.
  destruct (Z.leb_spec 0 x); [| lia]. destruct (Z.ltb_spec x (width cv)); [| lia].
  reflexivity.
Qed.

(** The sweep over the columns [xk .. xk + k - 1], started on a canvas [cvk]
    that still holds the cells of [cv] from column [xk] on. *)
Lemma sweep_shift (cv : Canvas) (n y : Z) (pen : Colours) (k : nat) :
  0 <= n ->
  start_line cv <= y < start_line cv + height cv ->
  (forall c cell, Canvas.get_from cv c y = Some cell -> 0 <= cell.1.1.1 < 256) ->
  forall (xk : Z) (cvk : Canvas),
    0 <= xk -> xk + Z.of_nat k <= width cv ->
    width cvk = width cv -> start_line cvk = start_line cv ->
    height cvk = height cv -> background cvk = background cv ->
    (forall c, xk <= c -> cells cvk !! (c, y) = cells cv !! (c, y)) ->
    let cv' := delete_chars_sweep k xk n y pen cvk in
    (forall c, xk <= c < xk + Z.of_nat k ->
               cells cv' !! (c, y) = Some (shifted_cell cv n y pen c)) /\
    (forall c, ~ (xk <= c < xk + Z.of_nat k) ->
               cells cv' !! (c, y) = cells cvk !! (c, y)).
Proof.
  intros Hn Hy Hrange.
  induction k as [|k IH]; intros xk cvk Hxk Hend Hw Hs Hh Hb Hsame cv'.
  - subst cv'. simpl. split; [intros c Hc; lia | reflexivity].
  - subst cv'. cbn [delete_chars_sweep]. cbv zeta.
    set (cell := match (if xk + n <? width cvk
                        then Canvas.get_from cvk (xk + n) y else None) with
                 | Some c => c
                 | None => (PyStr.ord " "%char, pen.1.1, pen.1.2, pen.2)
                 end).
    set (cvk1 := Canvas.print_at cvk (PyStr.chr cell.1.1.1) xk y cell.1.1.2 cell.1.2 cell.2).
    assert (Hcells1 : cells cvk1
                      = <[(xk, y) := (PyStr.ord (ascii_of_nat (Z.to_nat cell.1.1.1)),
                                      cell.1.1.2, cell.1.2, cell.2)]> (cells cvk)).
    { subst cvk1. apply print_char_cells. lia. }
    assert (Hwritten : (PyStr.ord (ascii_of_nat (Z.to_nat cell.1.1.1)),
                        cell.1.1.2, cell.1.2, cell.2) = shifted_cell cv n y pen xk).
    { unfold shifted_cell. subst cell. rewrite Hw.
      destruct (Z.ltb_spec (xk + n) (width cv)) as [Hin|Hout]; [| reflexivity].
      assert (Hget : Canvas.get_from cvk (xk + n) y
                     = Some (default (background cv) (cells cv !! (xk + n, y)))).
      { unfold Canvas.get_from. rewrite Hw, Hs, Hh, Hb, Hsame by lia.
        destruct (Z.leb_spec 0 (xk + n)); [| lia].
        destruct (Z.ltb_spec (xk + n) (width cv)); [| lia].
        destruct (Z.leb_spec (start_line cv) y); [| lia].
        destruct (Z.ltb_spec y (start_line cv + height cv)); [| lia].
        reflexivity. }
      rewrite Hget.
      assert (Hget' : Canvas.get_from cv (xk + n) y
                      = Some (default (background cv) (cells cv !! (xk + n, y)))).
      { unfold Canvas.get_from.
        destruct (Z.leb_spec 0 (xk + n)); [| lia].
        destruct (Z.ltb_spec (xk + n) (width cv)); [| lia].
        destruct (Z.leb_spec (start_line cv) y); [| lia].
        destruct (Z.ltb_spec y (start_line cv + height cv)); [| lia].
        reflexivity. }
      pose proof (Hrange _ _ Hget') as Hz.
      destruct (default (background cv) (cells cv !! (xk + n, y))) as [[[z fg] attr] bg].
      simpl in *. now rewrite ord_chr. }
    destruct (IH (xk + 1) cvk1) as [Hin Hout]; try assumption; try lia.
    { intros c Hc. rewrite Hcells1, lookup_insert_ne; [apply Hsame; lia |].
      intros Heq. injection Heq as Heq. lia. }
    split.
    + intros c Hc. destruct (Z.eq_dec c xk) as [->|Hne].
      * rewrite Hout by lia. rewrite Hcells1, lookup_insert_eq. now f_equal.
      * apply Hin. lia.
    + intros c Hc. rewrite Hout by lia.
      rewrite Hcells1, lookup_insert_ne; [reflexivity |].
      intros Heq. injection Heq as Heq. lia.
Qed.

Context {P L : Type} `{!Parser P}.
Implicit Type st : AbstractScreenPlayer P L.

(** X12.  What [DELETE_CHARS n] does to the cursor row, read back through
    [get_from]: with [n >= 0], the cursor at a column [>= 0] of a row in the
    viewport, and code points below 256 on that row, every column left of the
    cursor keeps its cell, every column [c] from the cursor on takes the cell
    of column [c + n] (character and colours), and the last [n] columns become
    blanks in the current pen.  The sweep runs left to right and reads each
    source cell before any call has overwritten it. *)
Theorem X12_delete_chars_shifts_the_row st (n : Z) :
  let cv := _canvas st in
  let x := _cursor_x st in
  let y := _cursor_y st in
  let pen := _current_colours st in
  0 <= n ->
  0 <= x ->
  start_line cv <= y < start_line cv + height cv ->
  (forall c cell, Canvas.get_from cv c y = Some cell -> 0 <= cell.1.1.1 < 256) ->
  let cv' := _canvas (dispatch (DELETE_CHARS n) st) in
  forall c, 0 <= c < width cv ->
    Canvas.get_from cv' c y =
      if c <? x then Canvas.get_from cv c y
      else if c + n <? width cv then Canvas.get_from cv (c + n) y
      else Some (PyStr.ord " "%char, pen.1.1, pen.1.2, pen.2).
Proof.
  intros cv x y pen Hn Hx Hy Hrange cv' c Hc.
  subst cv'. simpl. fold cv x y pen.
  set (k := Z.to_nat (width cv - x)).
  destruct (sweep_frame k x n y pen cv) as (Hh & Hs & Hb).
  pose proof (sweep_width k x n y pen cv) as Hw.
  assert (Hget : forall cv0 c0, 0 <= c0 < width cv ->
                   width cv0 = width cv -> start_line cv0 = start_line cv ->
                   height cv0 = height cv -> background cv0 = background cv ->
                   Canvas.get_from cv0 c0 y
                   = Some (default (background cv) (cells cv0 !! (c0, y)))).
  { intros cv0 c0 Hc0 Hw0 Hs0 Hh0 Hb0. unfold Canvas.get_from.
    rewrite Hw0, Hs0, Hh0, Hb0.
    destruct (Z.leb_spec 0 c0); [| lia].
    destruct (Z.ltb_spec c0 (width cv)); [| lia].
    destruct (Z.leb_spec (start_line cv) y); [| lia].
    destruct (Z.ltb_spec y (start_line cv + height cv)); [| lia].
    reflexivity. }
  rewrite (Hget _ c Hc Hw Hs Hh Hb).
  destruct (Z.le_gt_cases x (width cv)) as [Hxw|Hxw].
  - destruct (sweep_shift cv n y pen k Hn Hy Hrange x cv) as [Hin Hout];
      try reflexivity; try lia.
    destruct (Z.ltb_spec c x) as [Hleft|Hright].
    + rewrite Hout by lia. symmetry. now apply Hget.
    + rewrite Hin by lia. unfold shifted_cell.
      destruct (Z.ltb_spec (c + n) (width cv)) as [Hsrc|Hblank]; [| reflexivity].
      symmetry. apply Hget; try reflexivity. lia.
  - assert (Hk : k = 0%nat) by (subst k; lia).
    rewrite Hk. simpl.
    destruct (Z.ltb_spec c x) as [Hleft|Hright]; [| lia].
    symmetry. now apply Hget.
Qed.

End Shift.

(** ** A tick of the ANSI art driver, in general *)

Section AnsiArtTick.
Context {P : Type} `{!Parser P}.
Implicit Type st : AbstractScreenPlayer P string.

Lemma play_all_set_file (texts : list string) (f : BufferedReader string) st :
  play_all texts (set_file f st) = set_file f (play_all texts st).
Proof.
  revert st. induction texts as [|text rest IH]; intros st; [reflexivity |].
  unfold play_all in *. simpl. rewrite play_content_set_file. apply IH.
Qed.

Lemma readline_keeps_lines {A : Type} (f : BufferedReader A) :
  file_lines (readline f).2 = file_lines f.
Proof. unfold readline. destruct (file_lines f !! file_pos f); reflexivity. Qed.

Lemma reader_eta {A : Type} (f : BufferedReader A) :
  mkReader (file_lines f) (file_pos f) = f.
Proof. destruct f; reflexivity. Qed.

Lemma render_lines_general (strip : bool) (todo : nat) st :
  let texts := map (shown strip) (unread (_file st)) in
  let m := Nat.min todo (S (leading_text texts)) in
  render_lines todo strip st
  = set_file (mkReader (file_lines (_file st))
                (file_pos (_file st) + Nat.min m (length texts)))
      (play_all (take m (texts ++ [""])) st).
Proof.
  revert st. induction todo as [|todo IH]; intros st texts m.
  - subst m. simpl. rewrite Nat.add_0_r, reader_eta. symmetry. apply set_file_same.
  - destruct (unread (_file st)) as [|l rest] eqn:Hun.
    + (* end of the file *)
      rewrite (render_lines_at_end todo strip st Hun).
      subst texts m. simpl. rewrite Nat.add_0_r, reader_eta.
      change (feed_line "" st) with (_play_content "" st).
      rewrite take_nil. cbn [play_all fold_left].
      rewrite <- (play_content_keeps_file "" st) at 1. symmetry. apply set_file_same.
    + destruct (render_lines_step todo strip st l rest Hun) as (Hstep & Hun1 & Hpos1).
      rewrite Hstep. clear Hstep.
      set (st1 := _play_content (shown strip l) (set_file (readline (_file st)).2 st)) in *.
      assert (Hlines1 : file_lines (_file st1) = file_lines (_file st)).
      { subst st1. rewrite play_content_keeps_file. simpl. apply readline_keeps_lines. }
      assert (Hst1 : st1 = set_file (_file st1) (_play_content (shown strip l) st)).
      { subst st1. rewrite play_content_set_file. reflexivity. }
      subst texts m. cbn [map leading_text length].
      destruct (String.eqb (shown strip l) "") eqn:Hblank.
      * (* a line that is empty as shown ends the tick *)
        cbn [Nat.min take app].
        replace (Nat.min todo 0) with 0%nat by lia.
        cbn [Nat.min]. rewrite take_0. cbn [play_all fold_left].
        rewrite Hst1 at 1. f_equal.
        rewrite <- (reader_eta (_file st1)), Hlines1, Hpos1. f_equal. lia.
      * rewrite (IH st1). rewrite Hun1, Hlines1, Hpos1.
        set (texts := map (shown strip) rest).
        change (Nat.min (S todo) (S (S (leading_text texts))))
          with (S (Nat.min todo (S (leading_text texts)))).
        set (m := Nat.min todo (S (leading_text texts))).
        cbn [app take]. rewrite Hst1 at 1. rewrite play_all_set_file.
        change (set_file ?f (set_file ?g ?s)) with (set_file f s).
        f_equal. f_equal. lia.
Qed.

(** X13.  What a tick of the ANSI art player consumes and plays, for any
    [rate] and [strip].  Let [texts] be the unread lines as handed to the
    screen player (stripped when [strip] is set) and [k] the number of its
    leading non-empty texts.  The tick plays, in order, the first
    [min(rate, k + 1)] texts of [texts] followed by the empty text of the end
    of the file, and advances the file by as many of these as are lines: it
    stops after [rate] lines, after the first text that is empty, or after
    the read that hits the end of the file.  With [rate <= 0] it does
    nothing. *)
Theorem X13_ansi_art_tick (pl : AnsiArtPlayer P) :
  let st := ansi_base pl in
  let texts := map (shown (_strip pl)) (unread (_file st)) in
  let m := Nat.min (Z.to_nat (_rate pl)) (S (leading_text texts)) in
  let st' := ansi_base (AnsiArt_render_now pl) in
  st' = set_file (_file st') (play_all (take m (texts ++ [""])) st) /\
  file_lines (_file st') = file_lines (_file st) /\
  file_pos (_file st') = (file_pos (_file st) + Nat.min m (length texts))%nat /\
  (_rate pl <= 0 -> st' = st).
Proof.
  intros st texts m st'. subst st'. unfold AnsiArt_render_now. cbn [ansi_base].
  fold st. rewrite (render_lines_general (_strip pl) (Z.to_nat (_rate pl)) st).
  fold texts m.
  split; [reflexivity |]. split; [reflexivity |]. split; [reflexivity |].
  intros Hrate. assert (Hm : m = 0%nat) by (subst m; lia).
  rewrite Hm. simpl. rewrite Nat.add_0_r, reader_eta. apply set_file_same.
Qed.

End AnsiArtTick.

(** ** Constructing an asciinema player *)

Section AsciinemaConstruction.
Context {P : Type} `{!Parser P} `{!ScreenConstants}.

Lemma dimension_given (n : Z) (header : json) (key : string) :
  n <> 0 -> dimension (Some n) header key = Ok (inl n).
Proof.
  intros Hn. unfold dimension. destruct (Z.eqb_spec n 0); [contradiction | reflexivity].
Qed.

Lemma dimension_from_header (given : option Z) (fields : gmap string json)
    (key : string) :
  given = None \/ given = Some 0 ->
  dimension given (JObj fields) key
  = match fields !! key with
    | Some v => Ok (inr v)
    | None => Raise KeyError
    end.
Proof.
  intros [-> | ->]; simpl; destruct (fields !! key); reflexivity.
Qed.

Lemma dimension_key_error (given : option Z) (fields : gmap string json)
    (key : string) :
  match dimension given (JObj fields) key with
  | Ok _ => True
  | Raise e => e = KeyError
  end.
Proof.
  unfold dimension. destruct given as [n|]; [destruct (n =? 0) |]; simpl;
    try destruct (fields !! key); try reflexivity; exact I.
Qed.

(** X14.  What makes the construction of an [AsciinemaPlayer] fail, apart
    from the version: an empty file or a first line that is not JSON raises
    [ValueError]; a first line that is JSON but not an object raises
    [TypeError]; an object without a ["version"] key raises [KeyError]; and
    with version 2, a height that is not given, or given as 0, and is missing
    from the header raises [KeyError], and so does a width, whatever the
    height is: both are looked up before any of them is used, so that a
    missing width is reported even when the height of the header is not a
    number. *)
Theorem X14_construction_errors
    (f : BufferedReader (option json)) (h w : option Z) (max_delay : option Q) :
  (mjoin (readline f).1 = None ->
   AsciinemaPlayer_init (P:=P) f h w max_delay = Raise ValueError) /\
  (forall v, (readline f).1 = Some (Some v) ->
             (forall fields, v <> JObj fields) ->
             AsciinemaPlayer_init (P:=P) f h w max_delay = Raise TypeError) /\
  (forall fields, (readline f).1 = Some (Some (JObj fields)) ->
                  fields !! "version" = None ->
                  AsciinemaPlayer_init (P:=P) f h w max_delay = Raise KeyError) /\
  (forall fields version,
      (readline f).1 = Some (Some (JObj fields)) ->
      fields !! "version" = Some version ->
      py_ne_2 version = false ->
      (h = None \/ h = Some 0) ->
      fields !! "height" = None ->
      AsciinemaPlayer_init (P:=P) f h w max_delay = Raise KeyError) /\
  (forall fields version,
      (readline f).1 = Some (Some (JObj fields)) ->
      fields !! "version" = Some version ->
      py_ne_2 version = false ->
      (w = None \/ w = Some 0) ->
      fields !! "width" = None ->
      AsciinemaPlayer_init (P:=P) f h w max_delay = Raise KeyError).
Proof.
  unfold AsciinemaPlayer_init. repeat split.
  - intros Hnone. rewrite Hnone. reflexivity.
  - intros v Hline Hobj. rewrite Hline. simpl.
    destruct v; try reflexivity. exfalso. now apply (Hobj fields).
  - intros fields Hline Hversion. rewrite Hline. simpl. rewrite Hversion. reflexivity.
  - intros fields version Hline Hversion Hv2 Hh Hheight.
    rewrite Hline. cbn [mjoin option_join subscript]. rewrite Hversion, Hv2.
    rewrite (dimension_from_header h fields "height" Hh), Hheight. reflexivity.
  - intros fields version Hline Hversion Hv2 Hw Hwidth.
    rewrite Hline. cbn [mjoin option_join subscript]. rewrite Hversion, Hv2.
    pose proof (dimension_key_error h fields "height") as Hh.
    destruct (dimension h (JObj fields) "height") as [height|e]; [| now subst e].
    rewrite (dimension_from_header w fields "width" Hw), Hwidth. reflexivity.
Qed.

(** X15.  The dimensions an [AsciinemaPlayer] is built with.  For a version 2
    header, a height and a width that are given and not 0 are used as they
    are, and the header's own are not even looked up; a dimension that is not
    given, or given as 0, is taken from the header.  The player returned has a
    canvas of exactly that size, keeps [max_delay], and has its file rewound
    to the first line, the header. *)
Theorem X15_construction_dimensions
    (f : BufferedReader (option json)) (h w : option Z) (max_delay : option Q)
    (fields : gmap string json) (version : json) (h' w' : Z) :
  (readline f).1 = Some (Some (JObj fields)) ->
  fields !! "version" = Some version ->
  py_ne_2 version = false ->
  match h with
  | Some n => if n =? 0
              then exists v, fields !! "height" = Some v /\ as_int v = Ok h'
              else h' = n
  | None => exists v, fields !! "height" = Some v /\ as_int v = Ok h'
  end ->
  match w with
  | Some n => if n =? 0
              then exists v, fields !! "width" = Some v /\ as_int v = Ok w'
              else w' = n
  | None => exists v, fields !! "width" = Some v /\ as_int v = Ok w'
  end ->
  exists pl : AsciinemaPlayer P,
    AsciinemaPlayer_init f h w max_delay = Ok pl /\
    height (_canvas (asc_base pl)) = h' /\
    width (_canvas (asc_base pl)) = w' /\
    _max_delay pl = max_delay /\
    _file (asc_base pl) = mkReader (file_lines f) 0.
Proof.
  intros Hline Hversion Hv2 Hh Hw.
  unfold AsciinemaPlayer_init. rewrite Hline.
  cbn [mjoin option_join subscript]. rewrite Hversion, Hv2.
  assert (Hlines : file_lines (readline f).2 = file_lines f).
  { unfold readline. destruct (file_lines f !! file_pos f); reflexivity. }
  assert (Hheight : exists height,
             dimension h (JObj fields) "height" = Ok height /\ as_size height = Ok h').
  { unfold dimension. destruct h as [n|]; [destruct (n =? 0) |]; simpl;
      try (destruct Hh as (v & -> & Hv); now exists (inr v)).
    subst h'. now exists (inl n). }
  assert (Hwidth : exists width,
             dimension w (JObj fields) "width" = Ok width /\ as_size width = Ok w').
  { unfold dimension. destruct w as [n|]; [destruct (n =? 0) |]; simpl;
      try (destruct Hw as (v & -> & Hv); now exists (inr v)).
    subst w'. now exists (inl n). }
  destruct Hheight as (height & -> & ->). destruct Hwidth as (width & -> & ->).
  eexists. split; [reflexivity |].
  split; [reflexivity |]. split; [reflexivity |]. split; [reflexivity |].
  unfold AbstractScreenPlayer_init, reset, seek0. cbn [asc_base _file].
  rewrite Hlines. reflexivity.
Qed.

(** X16.  The constructor rewinds the file, so the first tick of a player
    built on a freshly opened file reads the header line again, as if it were
    an event.  Unpacking a header with exactly three keys succeeds, and the
    comparison of its first key with the clock raises [TypeError]; a header
    with any other number of keys fails to unpack with [ValueError], which
    ends the tick: the header is consumed, nothing is played and the canvas
    is untouched. *)
Theorem X16_first_tick_reads_the_header
    (f : BufferedReader (option json)) (h w : option Z) (max_delay : option Q)
    (pl : AsciinemaPlayer P) :
  file_pos f = 0%nat ->
  AsciinemaPlayer_init f h w max_delay = Ok pl ->
  exists fields,
    (readline f).1 = Some (Some (JObj fields)) /\
    (size fields = 3%nat -> Asciinema_render_now pl = Raise TypeError) /\
    (size fields <> 3%nat ->
     exists pl',
       Asciinema_render_now pl = Ok (pl', []) /\
       file_pos (_file (asc_base pl')) = 1%nat /\
       _canvas (asc_base pl') = _canvas (asc_base pl) /\
       _buffer (asc_base pl') = JNull).
Proof.
  intros Hpos Hinit. unfold AsciinemaPlayer_init in Hinit.
  destruct (readline f).1 as [[header|]|] eqn:Hline; simpl in Hinit; try discriminate.
  destruct header as [| | | | |fields]; simpl in Hinit; try discriminate.
  exists fields. split; [reflexivity |].
  destruct (fields !! "version") as [version|]; [| discriminate].
  destruct (py_ne_2 version); [discriminate |].
  destruct (dimension h (JObj fields) "height") as [height|]; [| discriminate].
  destruct (dimension w (JObj fields) "width") as [width|]; [| discriminate].
  destruct (as_size height) as [h'|]; [| discriminate].
  destruct (as_size width) as [w'|]; [| discriminate].
  injection Hinit as <-.
  assert (Hlines : exists rest, file_lines f = Some (JObj fields) :: rest).
  { unfold readline in Hline. rewrite Hpos in Hline.
    destruct (file_lines f) as [|l rest]; simpl in Hline; [discriminate |].
    injection Hline as ->. now exists rest. }
  destruct Hlines as [rest Hlines].
  assert (Hkeep : file_lines (readline f).2 = file_lines f).
  { unfold readline. destruct (file_lines f !! file_pos f); reflexivity. }
  unfold Asciinema_render_now. cbn [asc_base _max_delay].
  set (st := set_counter _ _).
  assert (Hdue : Qle_bool (_next st) (_counter st) = true) by reflexivity.
  rewrite Hdue.
  assert (Hflush : flush_buffer st = Ok (st, [])) by reflexivity.
  rewrite Hflush.
  assert (Hfile : _file st = mkReader (Some (JObj fields) :: rest) 0).
  { subst st. unfold AbstractScreenPlayer_init, reset, seek0, set_counter.
    cbn [_file]. rewrite Hkeep, Hlines. reflexivity. }
  assert (Hun : unread (_file st) = Some (JObj fields) :: rest)
    by (rewrite Hfile; reflexivity).
  rewrite Hun. cbn [read_events unpack3].
  rewrite <- length_map_to_list.
  assert (Hread : file_pos (readline (_file st)).2 = 1%nat)
    by (rewrite Hfile; reflexivity).
  destruct (map_to_list fields) as [|[k1 v1] [|[k2 v2] [|[k3 v3] [|more]]]] eqn:Hlist;
    cbn [length]; split; intros Hsize; try discriminate; try contradiction;
    try reflexivity;
    (eexists; split; [reflexivity |]; split; [exact Hread |]; split; reflexivity).
Qed.

End AsciinemaConstruction.

(** ** Records of the wrong shape *)

Section RecordShapes.
Context {P : Type} `{!Parser P}.
Implicit Type st : AbstractScreenPlayer P (option json).

(** X17.  A line that is JSON but not an event.  An array that does not have
    exactly three elements ends the tick like a malformed line: the line is
    consumed, nothing is played, nothing raised.  [null], a boolean or a
    number cannot be unpacked and raise [TypeError]; so does an array of
    three whose first element is not a number or a boolean.  A due event
    whose third element is neither falsy nor a string raises
    [AttributeError]. *)
Theorem X17_records_of_the_wrong_shape st (max_delay : option Q)
    (rest : list (option json)) (played : list string) :
  (forall items,
      length items <> 3%nat ->
      read_events (Some (JArr items) :: rest) max_delay st played
      = Ok (set_file (readline (_file st)).2 st, played)) /\
  (forall v,
      v = JNull \/ (exists b, v = JBool b) \/ (exists q, v = JNum q) ->
      read_events (Some v :: rest) max_delay st played = Raise TypeError) /\
  (forall a b c,
      (forall q, a <> JNum q) -> (forall t, a <> JBool t) ->
      read_events (Some (JArr [a; b; c]) :: rest) max_delay st played
      = Raise TypeError) /\
  (forall ts b c,
      Qle_bool ts (_counter st) = true ->
      truthy c = true -> (forall text, c <> JStr text) ->
      read_events (Some (JArr [JNum ts; b; c]) :: rest) max_delay st played
      = Raise AttributeError).
Proof.
  repeat split.
  - intros items Hlen. cbn [read_events unpack3].
    destruct items as [|a [|b [|c [|d more]]]]; try reflexivity.
    simpl in Hlen. lia.
  - intros v [-> | [[b ->] | [q ->]]]; reflexivity.
  - intros a b c Hnum Hbool. cbn [read_events unpack3].
    destruct a; try reflexivity; exfalso; [now apply (Hbool b0) | now apply (Hnum q)].
  - intros ts b c Hdue Htruthy Hstr. cbn [read_events unpack3 as_number].
    cbn [_next _counter set_buffer set_next set_file].
    rewrite Hdue. cbn [negb]. unfold play_buffer. cbn [_buffer set_buffer].
    rewrite Htruthy. destruct c; try reflexivity. exfalso. now apply (Hstr s).
Qed.

End RecordShapes.

(** ** Comparisons with the clock *)

Section AsciinemaTime.
Context {P : Type} `{!Parser P}.
Implicit Type st : AbstractScreenPlayer P (option json).

Lemma Qle_bool_false (a b : Q) : (b < a)%Q -> Qle_bool a b = false.
Proof.
  intros Hlt. destruct (Qle_bool a b) eqn:E; [| reflexivity].
  apply Qle_bool_iff in E. exfalso. now apply (Qlt_not_le _ _ Hlt).
Qed.

End AsciinemaTime.

(** ** Catching up with due events *)

Section CatchUp.
Context {P : Type} `{!Parser P}.
Implicit Type st : AbstractScreenPlayer P (option json).

Lemma nonempty_texts_cons (e : Q * string * string) events :
  nonempty_texts (e :: events)
  = if negb (String.eqb e.2 "") then e.2 :: nonempty_texts events
    else nonempty_texts events.
Proof. reflexivity. Qed.

Lemma nonempty_texts_app events1 events2 :
  nonempty_texts (events1 ++ events2)
  = (nonempty_texts events1 ++ nonempty_texts events2)%list.
Proof. unfold nonempty_texts. now rewrite map_app, List.filter_app. Qed.

(** The loop on a run of due events: each is passed in turn, its text played
    unless empty, and the loop goes on with the lines that follow.  The
    timestamp and the text of the last one are left in [_next] and
    [_buffer]. *)
Lemma read_due_events (max_delay : option Q) (events : list (Q * string * string)) :
  forall (rest : list (option json)) st (played : list string),
    Forall (fun e => (e.1.1 <= _counter st)%Q) events ->
    exists f',
      read_events (map record events ++ rest) max_delay st played
      = read_events rest max_delay
          (with_driver f' (_counter st)
             (fold_left (fun _ e => e.1.1) events (_next st))
             (fold_left (fun _ e => JStr e.2) events (_buffer st))
             (play_all (nonempty_texts events) st))
          (played ++ nonempty_texts events) /\
      (unread (_file st) = (map record events ++ rest)%list -> unread f' = rest).
Proof.
  induction events as [|e events IH]; intros rest st played Hdue.
  - exists (_file st). simpl. rewrite app_nil_r.
    change (play_all [] st) with st. rewrite with_driver_same.
    split; [reflexivity | auto].
  - destruct e as [[ts ch] text]. inversion Hdue as [|e0 l0 He Hrest]; subst.
    cbn [fst snd] in He.
    cbn [map app read_events record unpack3 as_number fst snd].
    set (f1 := (readline (_file st)).2).
    change (set_buffer (JStr text) (set_next ts (set_file f1 st)))
      with (with_driver f1 (_counter st) ts (JStr text) st).
    set (st1 := with_driver f1 (_counter st) ts (JStr text) st).
    assert (Hle : Qle_bool (_next st1) (_counter st1) = true)
      by (apply Qle_bool_iff; exact He).
    rewrite Hle. cbn [negb]. unfold play_buffer.
    change (_buffer st1) with (JStr text). cbn [truthy].
    rewrite nonempty_texts_cons. cbn [snd].
    destruct (negb (String.eqb text "")) eqn:Htext.
    + (* the text is played *)
      destruct (IH rest (_play_content text st1) (played ++ [text])%list) as (f' & Hrun & Hun).
      { subst st1. rewrite play_content_with_driver. exact Hrest. }
      exists f'. split.
      * rewrite Hrun. subst st1. rewrite play_content_with_driver.
        cbn [fold_left _counter _next _buffer with_driver].
        rewrite play_all_with_driver, <- app_assoc. reflexivity.
      * intros Hfile. apply Hun. subst st1.
        rewrite play_content_with_driver. cbn [_file with_driver]. subst f1.
        apply (readline_line (_file st) _ _ Hfile).
    + (* an empty text is passed over *)
      destruct (IH rest st1 played) as (f' & Hrun & Hun); [exact Hrest |].
      exists f'. split.
      * rewrite Hrun. subst st1.
        cbn [fold_left _counter _next _buffer with_driver].
        rewrite play_all_with_driver. reflexivity.
      * intros Hfile. apply Hun. subst st1. cbn [_file with_driver]. subst f1.
        apply (readline_line (_file st) _ _ Hfile).
Qed.

(** A tick that finds nothing buffered and a run of due events at the head of
    the file. *)
Lemma tick_on_due_events (pl : AsciinemaPlayer P)
    (events : list (Q * string * string)) (rest : list (option json)) :
  let st := asc_base pl in
  let now := (_counter st + quantum)%Q in
  truthy (_buffer st) = false ->
  (_next st <= now)%Q ->
  Forall (fun e => (e.1.1 <= now)%Q) events ->
  unread (_file st) = (map record events ++ rest)%list ->
  exists f',
    unread f' = rest /\
    Asciinema_render_now pl
    = match read_events rest (_max_delay pl)
              (with_driver f' now
                 (fold_left (fun _ e => e.1.1) events (_next st))
                 (fold_left (fun _ e => JStr e.2) events (_buffer st))
                 (play_all (nonempty_texts events) st))
              (nonempty_texts events) with
      | Ok (st2, played2) => Ok (mkAsciinema st2 (_max_delay pl), played2)
      | Raise e => Raise e
      end.
Proof.
  intros st now Hbuf Hnext Hdue Hun. unfold Asciinema_render_now. fold st now.
  set (st0 := set_counter now st).
  assert (Hle : Qle_bool (_next st0) (_counter st0) = true)
    by (apply Qle_bool_iff; exact Hnext).
  rewrite Hle. unfold flush_buffer.
  change (_buffer st0) with (_buffer st). rewrite Hbuf.
  change (_file st0) with (_file st). rewrite Hun.
  destruct (read_due_events (_max_delay pl) events rest st0 []) as (f' & Hrun & Hfile);
    [exact Hdue |].
  exists f'. split; [apply Hfile; exact Hun |].
  rewrite Hrun. subst st0. rewrite set_counter_driver, play_all_with_driver.
  reflexivity.
Qed.

(** X20.  A tick catches up.  When nothing is buffered and the clock, after
    its advance, has reached the next timestamp and the timestamps of all the
    events at the head of the file up to the last line, the tick reads them
    all and plays their texts in file order, the empty ones apart; the
    timestamp and the text of the last event are left in [_next] and
    [_buffer].  If the line after them is an event that is not due, it is
    read as well and buffered, not played. *)
Theorem X20_a_tick_plays_every_due_event (pl : AsciinemaPlayer P)
    (earlier : list (Q * string * string)) (ts : Q) (channel text : string) :
  let st := asc_base pl in
  let now := (_counter st + quantum)%Q in
  let events := (earlier ++ [(ts, channel, text)])%list in
  truthy (_buffer st) = false ->
  (_next st <= now)%Q ->
  Forall (fun e => (e.1.1 <= now)%Q) events ->
  (unread (_file st) = map record events ->
   exists f',
     unread f' = [] /\
     Asciinema_render_now pl
     = Ok (mkAsciinema
             (with_driver f' now ts (JStr text) (play_all (nonempty_texts events) st))
             (_max_delay pl),
           nonempty_texts events)) /\
  (forall late rest,
      (now < late.1.1)%Q ->
      unread (_file st) = (map record events ++ record late :: rest)%list ->
      exists f',
        unread f' = rest /\
        Asciinema_render_now pl
        = Ok (mkAsciinema
                (speed_up (_max_delay pl)
                   (with_driver f' now late.1.1 (JStr late.2)
                      (play_all (nonempty_texts events) st)))
                (_max_delay pl),
              nonempty_texts events)).
Proof.
  intros st now events Hbuf Hnext Hdue.
  assert (Hlast_ts : forall d, fold_left (fun _ e => e.1.1) events d = ts)
    by (intros d; subst events; rewrite fold_left_app; reflexivity).
  assert (Hlast_text : forall d, fold_left (fun (_ : json) e => JStr e.2) events d = JStr text)
    by (intros d; subst events; rewrite fold_left_app; reflexivity).
  split.
  - intros Hun.
    destruct (tick_on_due_events pl events []) as (f' & Hfile & Hrun);
      try assumption; [rewrite app_nil_r; exact Hun |].
    exists f'. split; [exact Hfile |].
    rewrite Hrun. fold st now. rewrite Hlast_ts, Hlast_text. reflexivity.
  - intros late rest Hlate Hun.
    destruct (tick_on_due_events pl events (record late :: rest)) as (f0 & Hfile & Hrun);
      try assumption.
    exists (readline f0).2. split; [apply (readline_line f0 _ _ Hfile) |].
    rewrite Hrun. fold st now. rewrite Hlast_ts, Hlast_text.
    destruct late as [[ts' ch'] text']. cbn [fst snd] in *.
    cbn [read_events record unpack3 as_number fst snd].
    cbn [_next _counter _file set_buffer set_next set_file with_driver].
    rewrite (Qle_bool_false ts' now Hlate). reflexivity.
Qed.

(** X21.  The text of the last event is played twice.  In the situation of
    X20 with the file ending after the due events and a last text that is not
    empty: the tick plays the texts, the last one included, and leaves the
    last text in the buffer when the read at the end of the file fails; the
    next tick plays that text again, alone, with the file exhausted. *)
Theorem X21_the_last_text_is_played_again (pl : AsciinemaPlayer P)
    (earlier : list (Q * string * string)) (ts : Q) (channel text : string) :
  let st := asc_base pl in
  let now := (_counter st + quantum)%Q in
  let events := (earlier ++ [(ts, channel, text)])%list in
  truthy (_buffer st) = false ->
  (_next st <= now)%Q ->
  Forall (fun e => (e.1.1 <= now)%Q) events ->
  unread (_file st) = map record events ->
  text <> "" ->
  exists pl1 pl2,
    Asciinema_render_now pl = Ok (pl1, (nonempty_texts earlier ++ [text])%list) /\
    unread (_file (asc_base pl1)) = [] /\
    Asciinema_render_now pl1 = Ok (pl2, [text]) /\
    asc_base pl2
    = set_buffer JNull
        (_play_content text (set_counter (now + quantum)%Q (asc_base pl1))).
Proof.
  intros st now events Hbuf Hnext Hdue Hun Htext.
  destruct (tick_on_due_events pl events []) as (f' & Hfile & Hrun);
    try assumption; [rewrite app_nil_r; exact Hun |].
  fold st now in Hrun.
  assert (Hlast_ts : forall d, fold_left (fun _ e => e.1.1) events d = ts)
    by (intros d; subst events; rewrite fold_left_app; reflexivity).
  assert (Hlast_text : forall d, fold_left (fun (_ : json) e => JStr e.2) events d = JStr text)
    by (intros d; subst events; rewrite fold_left_app; reflexivity).
  rewrite Hlast_ts, Hlast_text in Hrun. cbn [read_events] in Hrun.
  assert (Htexts : nonempty_texts events = (nonempty_texts earlier ++ [text])%list).
  { subst events. rewrite nonempty_texts_app. f_equal.
    unfold nonempty_texts. simpl.
    destruct (String.eqb_spec text ""); [contradiction | reflexivity]. }
  assert (Hts : (ts <= now)%Q).
  { subst events. apply Forall_app in Hdue as [_ Hlast].
    inversion Hlast; subst. assumption. }
  set (st1 := with_driver f' now ts (JStr text) (play_all (nonempty_texts events) st)) in *.
  eexists (mkAsciinema st1 (_max_delay pl)), _.
  split; [rewrite Hrun, Htexts; reflexivity |].
  split; [exact Hfile |].
  unfold Asciinema_render_now. cbn [asc_base _max_delay].
  set (st2 := set_counter (_counter st1 + quantum)%Q st1).
  assert (Hle : Qle_bool (_next st2) (_counter st2) = true).
  { apply Qle_bool_iff. subst st2 st1. simpl. unfold quantum in *. lra. }
  rewrite Hle. unfold flush_buffer.
  change (_buffer st2) with (JStr text). cbn [truthy].
  destruct (String.eqb_spec text ""); [contradiction |]. cbn [negb].
  assert (Hend : unread (_file (set_buffer JNull (_play_content text st2))) = []).
  { cbn [_file set_buffer].
    rewrite <- (with_driver_same st2), play_content_with_driver. exact Hfile. }
  rewrite Hend. cbn [read_events]. split; reflexivity.
Qed.

End CatchUp.

(** ** The properties above on concrete players *)

Section MoreRuns.
Import Harness.

Lemma X2_witness :
  let commands := [DISPLAY_TEXT "abc"; MOVE_ABSOLUTE (Some 7) (Some 1); CLEAR_SCREEN] in
  let st' := dispatch RESTORE_CURSOR
               (run_commands commands (dispatch SAVE_CURSOR at_column_3)) in
  forallb (fun c => negb (is_save_cursor c)) commands = true /\
  (_cursor_x st', _cursor_y st') = (3, 0).
Proof.
  intros commands st'. split; [reflexivity |].
  destruct (X2_restore_after_other_commands at_column_3 commands)
    as [Hx Hy]; [reflexivity |].
  fold st' in Hx, Hy. rewrite Hx, Hy. reflexivity.
Defined.

Lemma X3_witness :
  let before := run_commands [DISPLAY_TEXT "a"; NEXT_TAB]
                  (dispatch (CHANGE_COLOURS (1, 2, 3)) screen_10x2) in
  exists new,
    printed (_canvas (dispatch (DISPLAY_TEXT "zz") before))
    = (new ++ printed (_canvas before))%list /\
    Forall (fun c => call_pen c = (1, 2, 3)) new.
Proof.
  apply (X3_pen_applies_until_changed screen_10x2 (1, 2, 3)
           [DISPLAY_TEXT "a"; NEXT_TAB] (DISPLAY_TEXT "zz")); reflexivity.
Defined.

Lemma X4_witness :
  let command := MOVE_ABSOLUTE (Some 3) (Some 1) in
  dispatch command (dispatch command screen_10x2) = dispatch command screen_10x2.
Proof.
  apply (X4_setters_are_idempotent screen_10x2 (MOVE_ABSOLUTE (Some 3) (Some 1))).
  reflexivity.
Defined.

Lemma X5_witness :
  let st := dispatch (MOVE_ABSOLUTE (Some 1) None) at_column_3 in
  printed (_canvas (dispatch (DELETE_LINE 0) st))
  = [mkCall "    " 1 0 7 2 0; mkCall "abc" 0 0 7 2 0] /\
  Canvas.get_from (_canvas (dispatch (DELETE_LINE 0) st)) 0 0
  = Some (PyStr.ord "a"%char, 7, 2, 0) /\
  Canvas.get_from (_canvas (dispatch (DELETE_LINE 0) st)) 1 0
  = Some (PyStr.ord " "%char, 7, 2, 0) /\
  cells (_canvas (run_commands [DELETE_LINE 1; DELETE_LINE 0] st))
  = cells (_canvas (dispatch (DELETE_LINE 2) st)).
Proof.
  intros st.
  destruct (X5_delete_line st 0) as (_ & _ & (Hcalls & _) & _ & Hcells & Hboth).
  split; [exact Hcalls |].
  destruct (Hcells ltac:(vm_compute; split; [discriminate | reflexivity]) 0
              ltac:(vm_compute; split; [discriminate | reflexivity])) as (Hkept & _).
  destruct (Hcells ltac:(vm_compute; split; [discriminate | reflexivity]) 1
              ltac:(vm_compute; split; [discriminate | reflexivity])) as (Hblank & _).
  split; [exact Hkept |]. split; [exact Hblank |].
  apply Hboth. vm_compute. split; discriminate.
Defined.

Lemma X7_witness :
  _cursor_x (dispatch (DISPLAY_TEXT "hello!!") screen_5x2) = 2 /\
  0 <= _cursor_x (dispatch (DISPLAY_TEXT "hello!!") screen_5x2) < 5 /\
  _cursor_x (dispatch (DISPLAY_TEXT "abcdefghijkl") screen_5x2) = 0 + 12 - 5.
Proof.
  split; [reflexivity |]. split.
  - apply (proj1 (proj2 (proj2 (X7_where_text_leaves_the_cursor screen_5x2 "hello!!"))));
      vm_compute; [split; discriminate | reflexivity].
  - apply (proj2 (proj2 (proj2 (X7_where_text_leaves_the_cursor screen_5x2 "abcdefghijkl"))));
      vm_compute; [split; discriminate | discriminate].
Defined.

Lemma X8_witness :
  let commands := [DISPLAY_TEXT "0123456789"; DISPLAY_TEXT "0123456789";
                   MOVE_RELATIVE 0 (-5); DISPLAY_TEXT "up"] in
  view_guarded commands screen_10x2 = true /\
  in_view (run_commands commands screen_10x2) = true /\
  start_line (_canvas (run_commands commands screen_10x2)) = -3.
Proof.
  split; [reflexivity |]. split; [| reflexivity].
  apply (X8_viewport_follows_the_cursor screen_10x2
           [DISPLAY_TEXT "0123456789"; DISPLAY_TEXT "0123456789";
            MOVE_RELATIVE 0 (-5); DISPLAY_TEXT "up"]); reflexivity.
Defined.

Lemma X9_witness :
  let commands := [DISPLAY_TEXT "hello"; DISPLAY_TEXT "wor"; SAVE_CURSOR;
                   MOVE_ABSOLUTE (Some 0) None; DELETE_LINE 0; RESTORE_CURSOR;
                   DELETE_CHARS 1] in
  forallb (keeps_column (width (_canvas screen_5x2))) commands = true /\
  writes_in_row (run_commands commands screen_5x2) = true.
Proof.
  split; [reflexivity |].
  apply (X9_plain_output_stays_on_the_row screen_5x2
           [DISPLAY_TEXT "hello"; DISPLAY_TEXT "wor"; SAVE_CURSOR;
            MOVE_ABSOLUTE (Some 0) None; DELETE_LINE 0; RESTORE_CURSOR;
            DELETE_CHARS 1]); reflexivity.
Defined.

(** Every character the canvas stores is one of the 256 of the model. *)
Lemma put_text_range (text : string) (x y colour attr bg w : Z)
    (m : gmap (Z * Z) Cell) :
  (forall k cell, m !! k = Some cell -> 0 <= cell.1.1.1 < 256) ->
  forall k cell,
    Canvas.put_text text x y colour attr bg w m !! k = Some cell ->
    0 <= cell.1.1.1 < 256.
Proof.
  revert x m. induction text as [|c text IH]; intros x m Hm; [exact Hm |].
  simpl. apply IH. case_match; [| exact Hm].
  intros k cell. rewrite lookup_insert. case_decide; [| apply Hm].
  intros Hcell. injection Hcell as <-. simpl. unfold PyStr.ord.
  pose proof (nat_ascii_bounded c). lia.
Qed.

Lemma X12_witness :
  let st := dispatch (MOVE_ABSOLUTE (Some 1) None) at_column_3 in
  let cv' := _canvas (dispatch (DELETE_CHARS 1) st) in
  Canvas.get_from cv' 0 0 = Canvas.get_from (_canvas st) 0 0 /\
  Canvas.get_from cv' 1 0 = Canvas.get_from (_canvas st) 2 0 /\
  Canvas.get_from cv' 4 0 = Some (PyStr.ord " "%char, 7, 2, 0).
Proof.
  intros st cv'.
  assert (Hshift :
            forall c, 0 <= c < width (_canvas st) ->
              Canvas.get_from cv' c (_cursor_y st) =
                if c <? _cursor_x st then Canvas.get_from (_canvas st) c (_cursor_y st)
                else if c + 1 <? width (_canvas st)
                     then Canvas.get_from (_canvas st) (c + 1) (_cursor_y st)
                     else Some (PyStr.ord " "%char, (_current_colours st).1.1,
                                (_current_colours st).1.2, (_current_colours st).2)).
  { apply (X12_delete_chars_shifts_the_row st 1).
    - lia.
    - vm_compute. discriminate.
    - vm_compute. split; [discriminate | reflexivity].
    - intros c cell. unfold Canvas.get_from.
      match goal with |- (if ?b then _ else _) = _ -> _ => destruct b end;
        [| discriminate].
      intros Hcell. apply (inj Some) in Hcell. rewrite <- Hcell. clear Hcell cell.
      destruct (cells (_canvas st) !! (c, _cursor_y st)) as [cell|] eqn:Hlook;
        [| vm_compute; split; [discriminate | reflexivity]].
      simpl. revert Hlook.
      apply (put_text_range "abc" 0 0 7 2 0 5 ∅).
      intros k cell0. rewrite lookup_empty. discriminate. }
  split; [| split].
  - apply (Hshift 0). vm_compute. split; [discriminate | reflexivity].
  - apply (Hshift 1). vm_compute. split; [discriminate | reflexivity].
  - apply (Hshift 4). vm_compute. split; [discriminate | reflexivity].
Defined.

Lemma X13_witness :
  let pl := mkAnsiArt (ansi_base (art ["ab" ++ line_feed] false)) false 0 "cp437" in
  _rate pl <= 0 /\
  ansi_base (AnsiArt_render_now pl) = ansi_base pl.
Proof.
  intros pl. split; [vm_compute; discriminate |].
  apply (proj2 (proj2 (proj2 (X13_ansi_art_tick pl)))). vm_compute. discriminate.
Defined.

Lemma X14_witness :
  let no_width := <["version" := JNum 2]> (<["height" := JStr "abc"]> ∅) in
  AsciinemaPlayer_init (P:=Colours) (mkReader [] 0) None None None = Raise ValueError /\
  AsciinemaPlayer_init (P:=Colours)
    (mkReader [Some (JArr [JNum 2])] 0) None None None = Raise TypeError /\
  AsciinemaPlayer_init (P:=Colours)
    (mkReader [Some (JObj (<["width" := JNum 10]> ∅))] 0) None None None = Raise KeyError /\
  AsciinemaPlayer_init (P:=Colours)
    (mkReader [Some (JObj no_width)] 0) None None None = Raise KeyError.
Proof.
  intros no_width. split; [| split; [| split]].
  - apply (proj1 (X14_construction_errors (mkReader [] 0) None None None)).
    reflexivity.
  - apply (proj1 (proj2 (X14_construction_errors
                           (mkReader [Some (JArr [JNum 2])] 0) None None None))
             (JArr [JNum 2])); [reflexivity | discriminate].
  - apply (proj1 (proj2 (proj2 (X14_construction_errors
                                  (mkReader [Some (JObj (<["width" := JNum 10]> ∅))] 0)
                                  None None None)))
             (<["width" := JNum 10]> ∅)); [reflexivity | vm_compute; reflexivity].
  - apply (proj2 (proj2 (proj2 (proj2 (X14_construction_errors
                                         (mkReader [Some (JObj no_width)] 0)
                                         None None None))))
             no_width (JNum 2));
      [reflexivity | vm_compute; reflexivity | reflexivity | now left
      | vm_compute; reflexivity].
Defined.

Lemma X15_witness :
  exists pl : AsciinemaPlayer Colours,
    AsciinemaPlayer_init (mkReader [Some (header 2); event 0.1 "hi"] 0)
      (Some 24) (Some 0) (Some 0.5%Q) = Ok pl /\
    height (_canvas (asc_base pl)) = 24 /\
    width (_canvas (asc_base pl)) = 10.
Proof.
  destruct (X15_construction_dimensions (P:=Colours)
              (mkReader [Some (header 2); event 0.1 "hi"] 0)
              (Some 24) (Some 0) (Some 0.5%Q)
              (<["version" := JNum 2]>
                 (<["width" := JNum 10]>
                    (<["height" := JNum 2]>
                       (<["timestamp" := JNum 0]> (<["title" := JStr "demo"]> ∅)))))
              (JNum 2) 24 10)
    as (pl & Hinit & Hh & Hw & _).
  - reflexivity.
  - vm_compute. reflexivity.
  - reflexivity.
  - reflexivity.
  - exists (JNum 10). split; vm_compute; reflexivity.
  - exists pl. split; [exact Hinit |]. split; [exact Hh | exact Hw].
Defined.

Lemma X16_witness :
  exists pl : AsciinemaPlayer Colours,
    AsciinemaPlayer_init (mkReader [Some short_header; event 0.1 "hi"] 0)
      None None None = Ok pl /\
    Asciinema_render_now pl = Raise TypeError.
Proof.
  eexists. split; [vm_compute; reflexivity |].
  match goal with
  | |- Asciinema_render_now ?pl = _ =>
      destruct (X16_first_tick_reads_the_header
                  (mkReader [Some short_header; event 0.1 "hi"] 0) None None None pl)
        as (fields & Hline & Hthree & _)
  end.
  - reflexivity.
  - vm_compute. reflexivity.
  - apply Hthree. injection Hline as <-. vm_compute. reflexivity.
Defined.

Lemma X17_witness :
  read_events [Some (JArr [JNum 1; JStr "o"])] None screen_asc []
  = Ok (set_file (readline (_file screen_asc)).2 screen_asc, []) /\
  read_events [Some (JNum 7)] None screen_asc [] = Raise TypeError.
Proof.
  split.
  - apply (proj1 (X17_records_of_the_wrong_shape screen_asc None [] [])
             [JNum 1; JStr "o"]). simpl. lia.
  - apply (proj1 (proj2 (X17_records_of_the_wrong_shape screen_asc None [] [])) (JNum 7)).
    right. right. now exists 7%Q.
Defined.

Lemma X20_witness :
  let pl := playing [event 0.01 "a"; event 0.02 ""; event 0.03 "b"] None in
  exists pl', Asciinema_render_now pl = Ok (pl', ["a"; "b"]).
Proof.
  intros pl.
  destruct (X20_a_tick_plays_every_due_event pl
              [(0.01%Q, "o", "a"); (0.02%Q, "o", "")] 0.03%Q "o" "b")
    as [Hend _].
  - reflexivity.
  - vm_compute. discriminate.
  - repeat constructor; vm_compute; discriminate.
  - destruct Hend as (f' & _ & Hrun); [reflexivity |].
    eexists. exact Hrun.
Defined.

Lemma X21_witness :
  let pl := playing [event 0.01 "hi"] None in
  exists pl1 pl2,
    Asciinema_render_now pl = Ok (pl1, ["hi"]) /\
    unread (_file (asc_base pl1)) = [] /\
    Asciinema_render_now pl1 = Ok (pl2, ["hi"]).
Proof.
  intros pl.
  destruct (X21_the_last_text_is_played_again pl [] 0.01%Q "o" "hi")
    as (pl1 & pl2 & Hfirst & Hend & Hsecond & _).
  - reflexivity.
  - vm_compute. discriminate.
  - repeat constructor; vm_compute; discriminate.
  - reflexivity.
  - discriminate.
  - exists pl1, pl2. repeat split; assumption.
Defined.

End MoreRuns.

(** * The drop-down list *)

Section DropdownFacts.
Import Dropdown.

Lemma first_match_some options new_value i j :
  first_match options new_value i = Some j ->
  exists k text v,
    j = (i + k)%nat /\ options !! k = Some (text, v) /\ new_value = Some v /\
    forall k' o, (k' < k)%nat -> options !! k' = Some o -> o.2 <> v.
Proof.
  revert i. induction options as [|[text v] rest IH]; intros i; [discriminate |].
  simpl. case_bool_decide as Hv.
  - intros [= <-]. exists 0%nat, text, v. repeat split; [lia | now symmetry | lia].
  - intros Hrest. destruct (IH _ Hrest) as (k & text' & v' & -> & Hk & -> & Hfirst).
    exists (S k), text', v'. repeat split; [lia | exact Hk |].
    intros [|k'] o Hlt; simpl.
    + intros [= <-]. simpl. congruence.
    + apply Hfirst. lia.
Qed.

Lemma first_match_none options new_value i :
  first_match options new_value i = None <->
  forall o, o ∈ options -> Some o.2 <> new_value.
Proof.
  revert i. induction options as [|[text v] rest IH]; intros i; simpl.
  - split; [| reflexivity]. intros _ o Ho. inversion Ho.
  - case_bool_decide as Hv.
    + split; [discriminate |]. intros Hall. destruct (Hall (text, v)); [left | exact Hv].
    + rewrite IH. split.
      * intros Hall o Ho. inversion Ho; subst; [exact Hv | now apply Hall].
      * intros Hall o Ho. apply Hall. now right.
Qed.

Lemma first_match_offered options v :
  v ∈ map snd options -> exists i, first_match options (Some v) 0 = Some i.
Proof.
  intros Hin. destruct (first_match options (Some v) 0) as [i|] eqn:Hm; [now exists i |].
  rewrite first_match_none in Hm.
  apply list_elem_of_fmap in Hin as (o & -> & Ho). now destruct (Hm o Ho).
Qed.

Lemma set_value_agrees new_value d : agrees (set_value new_value d).
Proof.
  unfold agrees, set_value, update_text, value. simpl.
  destruct (first_match (_options d) new_value 0) as [i|] eqn:Hm; [| split; reflexivity].
  destruct (first_match_some _ _ _ _ Hm) as (k & text & v & -> & Hk & -> & _).
  exists text, v. simpl. rewrite Hk. repeat split.
Qed.

(** X22.  Setting the value selects the first option that carries it: the
    options are untouched; if some option has the new value, the line is the
    index of the first such option, the value reads back as set and [update]
    shows the text of that option; if no option has it (or it is [None]),
    nothing is raised and the old selection is not kept: line and value are
    both cleared and [update] shows the empty text. *)
Theorem X22_value_selects_the_first_match (new_value : option Z) d :
  let d' := set_value new_value d in
  _options d' = _options d /\
  match _line d' with
  | Some i =>
      exists text v,
        _options d !! i = Some (text, v) /\ new_value = Some v /\
        value d' = Some v /\ update_text d' = Some text /\
        forall k o, (k < i)%nat -> _options d !! k = Some o -> o.2 <> v
  | None =>
      value d' = None /\ update_text d' = Some "" /\
      forall o, o ∈ _options d -> Some o.2 <> new_value
  end.
Proof.
  intros d'. subst d'. split; [reflexivity |].
  unfold set_value, update_text, value. simpl.
  destruct (first_match (_options d) new_value 0) as [i|] eqn:Hm.
  - destruct (first_match_some _ _ _ _ Hm) as (k & text & v & -> & Hk & -> & Hfirst).
    exists text, v. simpl. rewrite Hk. repeat split. exact Hfirst.
  - repeat split. exact (proj1 (first_match_none _ _ _) Hm).
Qed.

(** X23.  Selecting an option by its value.  Setting the value of the [i]-th
    option selects a line at or before [i] whose option has the same value;
    when the values of the options are pairwise distinct that line is [i]
    itself, and [update] shows the text of that very option. *)
Theorem X23_selecting_an_option (i : nat) (text : string) (v : Z) d :
  _options d !! i = Some (text, v) ->
  let d' := set_value (Some v) d in
  value d' = Some v /\
  (exists j text', _line d' = Some j /\ (j <= i)%nat /\
                   _options d !! j = Some (text', v)) /\
  (NoDup (map snd (_options d)) ->
   _line d' = Some i /\ update_text d' = Some text).
Proof.
  intros Hi d'.
  pose proof (X22_value_selects_the_first_match (Some v) d) as [_ Hset].
  fold d' in Hset.
  destruct (_line d') as [j|] eqn:Hline.
  - destruct Hset as (text' & v' & Hj & [= <-] & Hval & Htext & Hfirst).
    assert (Hle : (j <= i)%nat).
    { destruct (Nat.le_gt_cases j i) as [Hle|Hgt]; [exact Hle |].
      now destruct (Hfirst i (text, v) Hgt Hi). }
    split; [exact Hval |]. split; [now exists j, text' |].
    intros Hdup.
    assert (Hji : j = i).
    { apply (NoDup_lookup _ _ _ v Hdup); rewrite list_lookup_fmap.
      - now rewrite Hj.
      - now rewrite Hi. }
    subst j. split; [reflexivity |].
    rewrite Htext. congruence.
  - destruct Hset as (_ & _ & Hnone).
    destruct (Hnone (text, v)); [| reflexivity].
    now apply (list_elem_of_lookup_2 _ i).
Qed.

(** X24.  A change is notified once.  The callback is called at most once per
    assignment, and exactly when a callback was given and the value that is
    stored afterwards differs from the one before; assigning the same value
    a second time changes nothing and notifies nobody. *)
Theorem X24_a_change_is_notified_once (new_value : option Z) d :
  let d' := set_value new_value d in
  set_value new_value d' = d' /\
  (notified d' = S (notified d) /\ value d' <> value d /\ _on_change d = true \/
   notified d' = notified d /\ (value d' = value d \/ _on_change d = false)).
Proof.
  intros d'. subst d'. unfold set_value, value. simpl.
  destruct (first_match (_options d) new_value 0) as [i|] eqn:Hm; simpl.
  - split.
    + rewrite (bool_decide_eq_false_2 (new_value <> new_value))
        by (intros H; now apply H).
      reflexivity.
    + case_bool_decide as Hv; destruct (_on_change d); simpl.
      * left. repeat split. congruence.
      * right. split; [reflexivity | now right].
      * right. split; [reflexivity |]. left. destruct (decide (new_value = _value d)); congruence.
      * right. split; [reflexivity | now right].
  - split.
    + reflexivity.
    + case_bool_decide as Hv; destruct (_on_change d); simpl.
      * left. repeat split. congruence.
      * right. split; [reflexivity | now right].
      * right. split; [reflexivity |]. left. destruct (decide (None = _value d)); congruence.
      * right. split; [reflexivity | now right].
Qed.

(** X25.  Line and value always agree.  From construction on, and after any
    sequence of assignments to [value] and to [options], the line is [None]
    together with the value, or it is the index of an existing option whose
    value is the stored value; so the look-up [options[line][0]] in [update]
    never fails. *)
Theorem X25_the_line_matches_the_value
    (options : list (string * Z)) (on_change : bool) (actions : list action) :
  let d := run actions (DropdownList_init options on_change) in
  agrees d /\ exists text, update_text d = Some text.
Proof.
  intros d.
  assert (Hagrees : agrees d).
  { subst d. destruct actions as [|a actions] using rev_ind.
    - unfold agrees, DropdownList_init, update_text, value.
      destruct options as [|[text v] rest]; simpl; [split; reflexivity |].
      now exists text, v.
    - unfold run. rewrite fold_left_app. simpl.
      destruct a; [apply set_value_agrees |].
      unfold act, set_options. apply set_value_agrees. }
  split; [exact Hagrees |].
  unfold agrees in Hagrees. destruct (_line d) as [i|].
  - destruct Hagrees as (text & v & _ & _ & Htext). now exists text.
  - destruct Hagrees as [_ Htext]. now exists "".
Qed.

(** X26.  New options keep the selection when they can.  After an assignment
    to [options], a value that the new options still offer stays selected and
    nobody is notified (the line moves to the first new option with that
    value); a value they no longer offer is cleared, with a notification if a
    callback was given; and no value stays no value. *)
Theorem X26_new_options_keep_the_selection (options : list (string * Z)) d :
  let d' := set_options options d in
  _options d' = options /\
  (forall v, value d = Some v -> v ∈ map snd options ->
     value d' = Some v /\ notified d' = notified d /\
     exists i text, _line d' = Some i /\ options !! i = Some (text, v)) /\
  (forall v, value d = Some v -> v ∉ map snd options ->
     value d' = None /\ _line d' = None /\
     notified d' = if _on_change d then S (notified d) else notified d) /\
  (value d = None ->
     value d' = None /\ _line d' = None /\ notified d' = notified d).
Proof.
  intros d'. subst d'. unfold set_options, set_value, value. simpl.
  split; [reflexivity |]. split; [| split].
  - intros v Hv Hin. rewrite Hv.
    destruct (first_match_offered _ _ Hin) as [i Hm]. rewrite Hm.
    rewrite bool_decide_eq_false_2 by (intros H; now apply H). simpl.
    repeat split.
    destruct (first_match_some _ _ _ _ Hm) as (k & text & v' & -> & Hk & [= <-] & _).
    now exists k, text.
  - intros v Hv Hout. rewrite Hv.
    assert (Hm : first_match options (Some v) 0 = None).
    { apply first_match_none. intros o Ho [= Heq]. apply Hout.
      apply list_elem_of_fmap. now exists o. }
    rewrite Hm. rewrite bool_decide_eq_true_2 by discriminate. simpl.
    repeat split.
  - intros Hv. rewrite Hv.
    assert (Hm : first_match options None 0 = None).
    { apply first_match_none. intros o _. discriminate. }
    rewrite Hm. rewrite bool_decide_eq_false_2 by (intros H; now apply H). simpl.
    repeat split.
Qed.

(** X27.  Where the pop-up opens.  For a parent on row [y >= 0] with [n >= 0]
    options, the frame always covers the row of the parent, is at least 2 and
    at most [n + 4] rows high, and the list gets a scroll bar exactly when the
    frame was cut short of [n + 4] rows.  Opened downwards, it starts on the
    row above the parent and ends on the last row of the screen at the latest;
    opened upwards (fewer than 3 rows left below), it never starts above row 0
    and ends on the row below the parent. *)
Theorem X27_where_the_popup_opens (screen_height y n : Z) :
  0 <= y ->
  0 <= n ->
  let start_line := (popup_placement screen_height y n).1.1 in
  let height := (popup_placement screen_height y n).1.2 in
  let reverse := (popup_placement screen_height y n).2 in
  start_line <= y < start_line + height /\
  2 <= height <= n + 4 /\
  (popup_scroll_bar screen_height y n = true <-> height < n + 4) /\
  (reverse = false ->
   3 <= screen_height - y /\ start_line = y - 1 /\
   start_line + height <= screen_height) /\
  (reverse = true ->
   screen_height - y < 3 /\ 0 <= start_line /\ start_line + height = y + 2).
Proof.
  intros Hy Hn. unfold popup_scroll_bar, popup_placement.
  destruct (Z.ltb_spec (screen_height - y) 3) as [Hup|Hdown]; simpl;
    rewrite Z.ltb_lt; repeat split; intros; try discriminate; lia.
Qed.

Lemma X23_witness :
  let d := DropdownList_init [("one", 1); ("two", 2); ("deux", 2); ("three", 3)] true in
  _line (set_value (Some 3) d) = Some 3%nat /\
  (exists j text, _line (set_value (Some 2) d) = Some j /\ (j <= 2)%nat /\
                  _options d !! j = Some (text, 2)).
Proof.
  intros d. split; [reflexivity |].
  apply (X23_selecting_an_option 2 "deux" 2 d). reflexivity.
Defined.

Lemma X26_witness :
  let d := DropdownList_init [("one", 1); ("two", 2)] true in
  let d' := set_options [("zero", 0); ("uno", 1)] d in
  value d' = Some 1 /\ notified d' = 0%nat /\
  value (set_options [("two", 2)] d) = None.
Proof.
  intros d d'.
  pose proof (X26_new_options_keep_the_selection [("zero", 0); ("uno", 1)] d)
    as (_ & Hkept & _).
  destruct (Hkept 1) as (Hvalue & Hquiet & _);
    [reflexivity | vm_compute; right; left |].
  split; [exact Hvalue |]. split; [exact Hquiet | reflexivity].
Defined.

Lemma X27_witness :
  (popup_placement 6 5 10, popup_scroll_bar 6 5 10) = ((0, 7, true), true) /\
  (popup_placement 6 5 10).1.1 <= 5 < (popup_placement 6 5 10).1.1
                                      + (popup_placement 6 5 10).1.2.
Proof.
  split; [reflexivity |].
  apply (X27_where_the_popup_opens 6 5 10); lia.
Defined.

End DropdownFacts.
